(** * FraudRadar: trust scoring, reputation and alert dispatch

    A shallow embedding of the server side of the repository:
    - [User]                 models/User.js
    - [FraudReport]          models/FraudReport.js
    - [Alert]                models/Alert.js
    - [NotificationService]  services/notificationService.js
    - [Routes]               the POST /report and POST /reports/:id/verify
                             handlers of the fraud router

    JavaScript numbers are idealised: counters and scores are integers
    ([Z]), vote weights are exact rationals ([Q]) and geographic
    quantities are real numbers ([R]).  [TrustScore] gives
    [calculateTrustScore] once more in IEEE 754 double precision
    ([Number]), where the stored score can differ from the exact one.
    Collections keyed by [_id] are finite maps, so that two documents never
    share an identifier. *)

From Stdlib Require Import ZArith QArith Qround Reals Psatz SpecFloat.
From stdpp Require Import base option list gmap strings pretty sorting.

Close Scope R_scope.
Close Scope Q_scope.
Open Scope Z_scope.

(** Mongo object identifiers; only their equality is ever observed. *)
Abbreviation ObjectId := N.

(** A [Date], as milliseconds since the epoch. *)
Abbreviation Date := Z.

(** The [fraudType] enumeration of the report schema. *)
Inductive FraudType :=
  | ponzi | phishing | tax_scam | otp_fraud | fake_job | lottery
  | romance | investment | fake_bank | courier_scam | other.

#[global] Instance FraudType_eq_dec : EqDecision FraudType.
Proof. solve_decision. Defined.

(** The three delivery channels, the keys of [preferences.notifications]
    and of an alert's [channels]. *)
Module Channel.
Inductive t := email | sms | push.

#[global] Instance eq_dec : EqDecision t.
Proof. solve_decision. Defined.
End Channel.

(** ** The fragments of the JavaScript runtime the code relies on *)
Module JS.

(** [Math.round]: the nearest integer, ties going up. *)
Definition Math_round (x : Q) : Z := Qfloor (x + (1 # 2)).

(** [a / b] on numbers.  [None] stands for a quotient that is not a
    finite number (a zero divisor gives [NaN] or an infinity). *)
Definition div (a b : Q) : option Q :=
  if Qeq_bool b 0 then None else Some (a / b)%Q.

(** Truthiness of an optional string: [undefined] and the empty string
    are falsy. *)
Definition truthy (s : option string) : bool :=
  match s with
  | Some s => negb (String.eqb s "")
  | None => false
  end.

(** [Math.atan2 y x] on reals. *)
Definition Math_atan2 (y x : R) : R :=
  if Rlt_dec 0 x then atan (y / x)
  else if Rlt_dec x 0 then
         (if Rle_dec 0 y then atan (y / x) + PI else atan (y / x) - PI)%R
  else if Rlt_dec 0 y then (PI / 2)%R
  else if Rlt_dec y 0 then (- (PI / 2))%R
  else 0%R.

End JS.

(** ** models/User.js *)
Module User.

Inductive Reputation := new | trusted | verified | expert.

Record Preferences := {
  notifications : Channel.t -> bool;
  alertRadius : R;                 (* kilometres *)
  fraudTypes : list FraudType
}.

Record t := {
  email : string;
  phone : option string;
  coordinates : R * R;             (* [longitude, latitude] *)
  trustScore : Z;
  reportCount : Z;
  verificationCount : Z;
  reputation : Reputation;
  preferences : Preferences;
  fcmToken : option string;        (* deviceInfo.fcmToken *)
  isActive : bool
}.

(** The bounds the schema declares for [trustScore]. *)
Definition schema_ok (u : t) : Prop := 0 <= trustScore u <= 100.

Definition set_counts (u : t) (reports verifications : Z) : t :=
  {| email := email u; phone := phone u; coordinates := coordinates u;
     trustScore := trustScore u;
     reportCount := reports; verificationCount := verifications;
     reputation := reputation u; preferences := preferences u;
     fcmToken := fcmToken u; isActive := isActive u |}.

(** [userSchema.methods.updateTrustScore] *)
Definition updateTrustScore (this : t) : t :=
  let baseScore := 50 in
  let reportBonus := Z.min (reportCount this * 2) 30 in
  let verificationBonus := Z.min (verificationCount this * 3) 40 in
  let score := Z.min (baseScore + reportBonus + verificationBonus) 100 in
  let tier :=
    if 90 <=? score then expert
    else if 75 <=? score then verified
    else if 60 <=? score then trusted
    else new in
  {| email := email this; phone := phone this;
     coordinates := coordinates this;
     trustScore := score;
     reportCount := reportCount this;
     verificationCount := verificationCount this;
     reputation := tier; preferences := preferences this;
     fcmToken := fcmToken this; isActive := isActive this |}.

End User.

(** ** models/FraudReport.js *)
Module FraudReport.

Inductive Vote := confirm | deny | uncertain.
Inductive VerificationStatus := pending | verified | disputed | false_positive.
Inductive Priority := low | medium | high | critical.

#[global] Instance Vote_eq_dec : EqDecision Vote.
Proof. solve_decision. Defined.

Record VerifiedBy := {
  user : ObjectId;
  vote : Vote;
  comment : option string;
  verifiedAt : Date
}.

Record Verification := {
  trustScore : Z;
  verificationCount : Z;
  verifiedBy : list VerifiedBy;
  status : VerificationStatus
}.

Record EvidenceData := {
  phoneNumber : option string;
  email : option string
}.

Record Impact := {
  financialLoss : Z;
  affectedUsers : Z
}.

Record t := {
  reportedBy : ObjectId;
  fraudType : FraudType;
  title : string;
  evidenceData : EvidenceData;
  coordinates : R * R;             (* location.coordinates *)
  verification : Verification;
  priority : Priority
}.

Definition set_verification (r : t) (v : Verification) : t :=
  {| reportedBy := reportedBy r; fraudType := fraudType r; title := title r;
     evidenceData := evidenceData r; coordinates := coordinates r;
     verification := v; priority := priority r |}.

Definition set_priority (r : t) (p : Priority) : t :=
  {| reportedBy := reportedBy r; fraudType := fraudType r; title := title r;
     evidenceData := evidenceData r; coordinates := coordinates r;
     verification := verification r; priority := p |}.

(** The defaults the schema gives the [verification] sub-document. *)
Definition default_verification : Verification :=
  {| trustScore := 0; verificationCount := 0; verifiedBy := [];
     status := pending |}.

(** [verification.user && verification.user.trustScore]: the populated
    voter exists and its score is truthy (a zero score is falsy). *)
Definition resolved (populated : gmap ObjectId User.t) (e : VerifiedBy)
  : option Z :=
  match populated !! user e with
  | Some u => if User.trustScore u =? 0 then None else Some (User.trustScore u)
  | None => None
  end.

(** [verification.user.trustScore / 100], for a voter that passes the test
    above. *)
Definition voterWeight (populated : gmap ObjectId User.t) (e : VerifiedBy)
  : option Q :=
  score ← resolved populated e; Some (inject_Z score / 100)%Q.

(** The body of the [forEach] of [calculateTrustScore]; the accumulator is
    [(weightedConfirm, weightedDeny, totalWeight)]. *)
Definition accumulate (populated : gmap ObjectId User.t)
    (acc : Q * Q * Q) (e : VerifiedBy) : Q * Q * Q :=
  let '(weightedConfirm, weightedDeny, totalWeight) := acc in
  match voterWeight populated e with
  | Some weight =>
      let totalWeight := (totalWeight + weight)%Q in
      match vote e with
      | confirm => ((weightedConfirm + weight)%Q, weightedDeny, totalWeight)
      | deny => (weightedConfirm, (weightedDeny + weight)%Q, totalWeight)
      | uncertain => (weightedConfirm, weightedDeny, totalWeight)
      end
  | None => acc
  end.

Definition status_of (score : Z) : VerificationStatus :=
  if 80 <=? score then verified
  else if score <=? 20 then disputed
  else pending.

(** [fraudReportSchema.methods.calculateTrustScore].  [populated] is the
    user collection the [verifiedBy.user] references were populated from:
    a reference that resolves to no document reads as [null].  The result
    is [None] when the score is not a finite number. *)
Definition calculateTrustScore (populated : gmap ObjectId User.t) (this : t)
  : option t :=
  let v := verification this in
  if verificationCount v =? 0 then
    Some (set_verification this
            {| trustScore := 30; verificationCount := verificationCount v;
               verifiedBy := verifiedBy v; status := status v |})
  else
    let confirmVotes := length (filter (λ e, vote e = confirm) (verifiedBy v)) in
    let denyVotes := length (filter (λ e, vote e = deny) (verifiedBy v)) in
    let totalVotes := verificationCount v in
    let '(weightedConfirm, weightedDeny, totalWeight) :=
      fold_left (accumulate populated) (verifiedBy v) (0, 0, 0)%Q in
    score ←
      (if Qlt_le_dec 0 totalWeight then
         q ← JS.div weightedConfirm totalWeight;
         Some (JS.Math_round (q * 100))
       else
         q ← JS.div (inject_Z (Z.of_nat confirmVotes)) (inject_Z totalVotes);
         Some (JS.Math_round (q * 100)));
    Some (set_verification this
            {| trustScore := score; verificationCount := verificationCount v;
               verifiedBy := verifiedBy v; status := status_of score |}).

End FraudReport.

(** ** models/Alert.js *)
Module Alert.

Inductive AlertType :=
  | proximity | phone_match | email_match | website_match | pattern_match
  | high_risk.

Inductive Severity := low | medium | high | critical.

#[global] Instance AlertType_eq_dec : EqDecision AlertType.
Proof. solve_decision. Defined.

#[global] Instance Severity_eq_dec : EqDecision Severity.
Proof. solve_decision. Defined.

Record ChannelState := {
  sent : bool;
  sentAt : option Date
}.

Record MatchCriteria := {
  distance : option R;             (* location.distance, kilometres *)
  phoneNumber : option string;
  email : option string
}.

(** The rendered [message] and the expiry date are left out: no operation
    modelled here reads them. *)
Record t := {
  user : ObjectId;
  fraudReport : ObjectId;
  alertType : AlertType;
  title : string;
  severity : Severity;
  channels : Channel.t -> ChannelState;
  matchCriteria : MatchCriteria;
  isRead : bool;
  isActive : bool
}.

(** [new Alert({...})]: the schema defaults fill every channel state with
    [sent: false], [isRead] with [false] and [isActive] with [true]. *)
Definition create (user fraudReport : ObjectId) (alertType : AlertType)
    (title : string) (severity : Severity) (matchCriteria : MatchCriteria) : t :=
  {| user := user; fraudReport := fraudReport; alertType := alertType;
     title := title; severity := severity;
     channels := λ _, {| sent := false; sentAt := None |};
     matchCriteria := matchCriteria; isRead := false; isActive := true |}.

(** [alertSchema.methods.shouldSendViaChannel] *)
Definition shouldSendViaChannel (this : t) (channel : Channel.t)
    (userPreferences : User.Preferences) : bool :=
  if negb (User.notifications userPreferences channel) then false
  else if sent (channels this channel) then false
  else if bool_decide (channel = Channel.sms)
          && bool_decide (severity this = low) then false
  else true.

(** [alert.channels[channel].sent = true; alert.channels[channel].sentAt = now] *)
Definition mark_sent (this : t) (channel : Channel.t) (now : Date) : t :=
  {| user := user this; fraudReport := fraudReport this;
     alertType := alertType this; title := title this;
     severity := severity this;
     channels := λ c, if decide (c = channel)
                      then {| sent := true; sentAt := Some now |}
                      else channels this c;
     matchCriteria := matchCriteria this; isRead := isRead this;
     isActive := isActive this |}.

(** The [(user, fraudReport, alertType)] triple of an alert. *)
Definition triple (this : t) : ObjectId * ObjectId * AlertType :=
  (user this, fraudReport this, alertType this).

End Alert.

(** ** services/notificationService.js *)
Module NotificationService.

(** The outcome of the three transport methods.  Each one catches its own
    errors and answers [true] or [false]; what it answers depends on the
    mail, SMS and push providers, so it is a parameter here. *)
Record Transport := {
  sendEmail : string -> Alert.t -> bool;
  sendSMS : string -> Alert.t -> bool;
  sendPushNotification : string -> Alert.t -> bool
}.

(** The distance, in metres, that the [2dsphere] index of the user
    collection measures between two GeoJSON points: what [$near] compares
    with [$maxDistance]. *)
Record GeoIndex := {
  nearMetres : R * R -> R * R -> R
}.

#[global] Instance Rle_decision (x y : R) : Decision (x <= y)%R := Rle_dec x y.
#[global] Instance Rgt_decision (x y : R) : Decision (x > y)%R := Rgt_dec x y.

Definition toRadians (degrees : R) : R := (degrees * (PI / 180))%R.

(** [calculateDistance]: the haversine formula on [[longitude, latitude]]
    pairs, in kilometres. *)
Definition calculateDistance (coords1 coords2 : R * R) : R :=
  let '(lon1, lat1) := coords1 in
  let '(lon2, lat2) := coords2 in
  let radius := 6371%R in
  let dLat := toRadians (lat2 - lat1) in
  let dLon := toRadians (lon2 - lon1) in
  let a := (sin (dLat / 2) * sin (dLat / 2) +
            cos (toRadians lat1) * cos (toRadians lat2) *
            sin (dLon / 2) * sin (dLon / 2))%R in
  let c := (2 * JS.Math_atan2 (sqrt a) (sqrt (1 - a)))%R in
  (radius * c)%R.

(** [getSeverityFromPriority] *)
Definition getSeverityFromPriority (priority : FraudReport.Priority)
  : Alert.Severity :=
  match priority with
  | FraudReport.low => Alert.low
  | FraudReport.medium => Alert.medium
  | FraudReport.high => Alert.high
  | FraudReport.critical => Alert.critical
  end.

Section Service.

Variable transport : Transport.
Variable geo : GeoIndex.
Variable now : Date.

(** [sendAlertNotifications]: the three eligibility tests are made before
    any send completes; a successful send marks its channel. *)
Definition sendAlertNotifications (user : User.t) (alert : Alert.t) : Alert.t :=
  let prefs := User.preferences user in
  let viaPush :=
    Alert.shouldSendViaChannel alert Channel.push prefs
    && JS.truthy (User.fcmToken user) in
  let viaEmail := Alert.shouldSendViaChannel alert Channel.email prefs in
  let viaSMS :=
    Alert.shouldSendViaChannel alert Channel.sms prefs
    && JS.truthy (User.phone user)
    && bool_decide (Alert.severity alert ∈ [Alert.high; Alert.critical]) in
  let pushed :=
    viaPush && sendPushNotification transport (default "" (User.fcmToken user)) alert in
  let mailed := viaEmail && sendEmail transport (User.email user) alert in
  let texted := viaSMS && sendSMS transport (default "" (User.phone user)) alert in
  let alert1 := if pushed then Alert.mark_sent alert Channel.push now else alert in
  let alert2 := if mailed then Alert.mark_sent alert1 Channel.email now else alert1 in
  if texted then Alert.mark_sent alert2 Channel.sms now else alert2.

(** The [User.find] query of [createProximityAlerts]. *)
Definition nearbyQuery (fraudReport : FraudReport.t) (maxDistance : R)
    (entry : ObjectId * User.t) : Prop :=
  (nearMetres geo (User.coordinates entry.2)
                  (FraudReport.coordinates fraudReport) <= maxDistance)%R
  ∧ User.isActive entry.2 = true
  ∧ User.notifications (User.preferences entry.2) Channel.push = true.

#[local] Instance nearbyQuery_dec fraudReport maxDistance entry :
  Decision (nearbyQuery fraudReport maxDistance entry).
Proof. unfold nearbyQuery. apply _. Defined.

(** The callback mapped over [nearbyUsers]: [None] where it returns without
    an alert. *)
Definition proximityAlert (reportId : ObjectId) (fraudReport : FraudReport.t)
    (entry : ObjectId * User.t) : option Alert.t :=
  let '(id, user) := entry in
  if decide (id = FraudReport.reportedBy fraudReport) then None
  else if bool_decide (User.fraudTypes (User.preferences user) ≠ [])
          && negb (bool_decide (FraudReport.fraudType fraudReport
                                  ∈ User.fraudTypes (User.preferences user)))
  then None
  else
    let distance :=
      calculateDistance (User.coordinates user)
                        (FraudReport.coordinates fraudReport) in
    if decide (distance > User.alertRadius (User.preferences user))%R then None
    else
      let alert :=
        Alert.create id reportId Alert.proximity "🚨 Fraud Alert Nearby"
          (getSeverityFromPriority (FraudReport.priority fraudReport))
          {| Alert.distance := Some distance; Alert.phoneNumber := None;
             Alert.email := None |} in
      Some (sendAlertNotifications user alert).

(** [createProximityAlerts]; the alert collection is threaded through. *)
Definition createProximityAlerts (users : gmap ObjectId User.t)
    (reportId : ObjectId) (fraudReport : FraudReport.t)
    (alerts : list Alert.t) : list Alert.t :=
  let alertRadius := 10%R in
  let nearbyUsers :=
    filter (nearbyQuery fraudReport (alertRadius * 1000)%R) (map_to_list users) in
  alerts ++ omap (proximityAlert reportId fraudReport) nearbyUsers.

(** The [alerts] array [createMatchAlerts] fills for one user. *)
Definition matchData (fraudReport : FraudReport.t) (user : User.t)
  : list (Alert.AlertType * string * Alert.MatchCriteria) :=
  let evidence := FraudReport.evidenceData fraudReport in
  (if JS.truthy (FraudReport.phoneNumber evidence)
      && bool_decide (User.phone user = FraudReport.phoneNumber evidence)
   then [(Alert.phone_match, "⚠️ Your Phone Number Reported",
          {| Alert.distance := None;
             Alert.phoneNumber := FraudReport.phoneNumber evidence;
             Alert.email := None |})]
   else [])
  ++
  (if JS.truthy (FraudReport.email evidence)
      && bool_decide (Some (User.email user) = FraudReport.email evidence)
   then [(Alert.email_match, "⚠️ Your Email Reported",
          {| Alert.distance := None; Alert.phoneNumber := None;
             Alert.email := FraudReport.email evidence |})]
   else []).

(** The alerts [createMatchAlerts] creates, saves and sends for one user. *)
Definition matchAlerts (reportId : ObjectId) (fraudReport : FraudReport.t)
    (entry : ObjectId * User.t) : list Alert.t :=
  map (λ alertData : Alert.AlertType * string * Alert.MatchCriteria,
         sendAlertNotifications entry.2
           (Alert.create entry.1 reportId alertData.1.1 alertData.1.2
                         Alert.critical alertData.2))
      (matchData fraudReport entry.2).

(** [createMatchAlerts] *)
Definition createMatchAlerts (users : gmap ObjectId User.t)
    (reportId : ObjectId) (fraudReport : FraudReport.t)
    (alerts : list Alert.t) : list Alert.t :=
  let users := filter (λ entry, User.isActive entry.2 = true) (map_to_list users) in
  fold_left (λ alerts entry, alerts ++ matchAlerts reportId fraudReport entry)
            users alerts.

End Service.

End NotificationService.

(** ** The fraud router: POST /report and POST /reports/:id/verify *)
Module Routes.

(** The three collections. *)
Record Db := {
  users : gmap ObjectId User.t;
  reports : gmap ObjectId FraudReport.t;
  alerts : list Alert.t
}.

Inductive Response :=
  | Created201
  | Ok200 (trustScore verificationCount : Z)
  | NotFound404
  | ServerError500.

(** The validated body of POST /report. *)
Record ReportBody := {
  fraudType : FraudType;
  title : string;
  coordinates : R * R;
  evidenceData : FraudReport.EvidenceData;
  impact : option FraudReport.Impact
}.

(** [new FraudReport({...})] followed by the priority rules of the handler;
    the schema default of [priority] is [medium]. *)
Definition newFraudReport (reqUser : ObjectId) (body : ReportBody)
  : FraudReport.t :=
  let fraudReport :=
    {| FraudReport.reportedBy := reqUser;
       FraudReport.fraudType := fraudType body;
       FraudReport.title := title body;
       FraudReport.evidenceData := evidenceData body;
       FraudReport.coordinates := coordinates body;
       FraudReport.verification := FraudReport.default_verification;
       FraudReport.priority := FraudReport.medium |} in
  if bool_decide (fraudType body = ponzi) || bool_decide (fraudType body = investment)
  then FraudReport.set_priority fraudReport FraudReport.high
  else match impact body with
       | Some i =>
           if 10000 <? FraudReport.financialLoss i
           then FraudReport.set_priority fraudReport FraudReport.critical
           else if 10 <? FraudReport.affectedUsers i
           then FraudReport.set_priority fraudReport FraudReport.high
           else fraudReport
       | None => fraudReport
       end.

(** Lines 1067-1086 of the verify handler: the voter's entry is found and
    overwritten, or a new entry is pushed and the counter incremented. *)
Definition applyVote (userId : ObjectId) (vote : FraudReport.Vote)
    (comment : option string) (now : Date) (report : FraudReport.t)
  : FraudReport.t :=
  let v := FraudReport.verification report in
  match list_find (λ e, FraudReport.user e = userId) (FraudReport.verifiedBy v) with
  | Some (i, existingVerification) =>
      FraudReport.set_verification report
        {| FraudReport.trustScore := FraudReport.trustScore v;
           FraudReport.verificationCount := FraudReport.verificationCount v;
           FraudReport.verifiedBy :=
             <[i := {| FraudReport.user := FraudReport.user existingVerification;
                       FraudReport.vote := vote;
                       FraudReport.comment := comment;
                       FraudReport.verifiedAt := now |}]>
               (FraudReport.verifiedBy v);
           FraudReport.status := FraudReport.status v |}
  | None =>
      FraudReport.set_verification report
        {| FraudReport.trustScore := FraudReport.trustScore v;
           FraudReport.verificationCount := FraudReport.verificationCount v + 1;
           FraudReport.verifiedBy :=
             FraudReport.verifiedBy v ++
               [{| FraudReport.user := userId; FraudReport.vote := vote;
                   FraudReport.comment := comment;
                   FraudReport.verifiedAt := now |}];
           FraudReport.status := FraudReport.status v |}
  end.

Definition save_report (id : ObjectId) (r : FraudReport.t) (db : Db) : Db :=
  {| users := users db; reports := <[id := r]> (reports db); alerts := alerts db |}.

Definition save_user (id : ObjectId) (u : User.t) (db : Db) : Db :=
  {| users := <[id := u]> (users db); reports := reports db; alerts := alerts db |}.

Definition set_alerts (l : list Alert.t) (db : Db) : Db :=
  {| users := users db; reports := reports db; alerts := l |}.

(** POST /reports/:id/verify, for a request that passes the validators (a
    vote of the three, a comment of at most 500 characters) and a voter
    with a user document, as the authentication hands it over.  The report
    is saved with the voter references it had before [populate]; a score
    that is not a finite number is refused by the store. *)
Definition postVerify (now : Date) (reportId userId : ObjectId) (vote : FraudReport.Vote)
    (comment : option string) (db : Db) : Response * Db :=
  match reports db !! reportId with
  | None => (NotFound404, db)
  | Some report =>
      let existingVerification :=
        list_find (λ e, FraudReport.user e = userId)
                  (FraudReport.verifiedBy (FraudReport.verification report)) in
      let report := applyVote userId vote comment now report in
      match FraudReport.calculateTrustScore (users db) report with
      | None => (ServerError500, db)
      | Some report =>
          let db := save_report reportId report db in
          let ok :=
            Ok200 (FraudReport.trustScore (FraudReport.verification report))
                  (FraudReport.verificationCount (FraudReport.verification report)) in
          match existingVerification, users db !! userId with
          | Some _, _ => (ok, db)
          | None, Some user =>
              let user :=
                User.updateTrustScore
                  (User.set_counts user (User.reportCount user)
                                   (User.verificationCount user + 1)) in
              (ok, save_user userId user db)
          | None, None => (ServerError500, db)
          end
      end
  end.

(** One verify request: when it is made, by whom, and what it says. *)
Record Ballot := {
  castAt : Date;
  voter : ObjectId;
  choice : FraudReport.Vote;
  remark : option string
}.

(** A sequence of verify requests on one report, served one after another. *)
Definition postVerifyAll (reportId : ObjectId) (ballots : list Ballot)
    (db : Db) : Db :=
  fold_left
    (λ db b, (postVerify (castAt b) reportId (voter b) (choice b) (remark b) db).2)
    ballots db.

Section Handlers.

Variable transport : NotificationService.Transport.
Variable geo : NotificationService.GeoIndex.
Variable now : Date.

(** POST /report.  [reportId] is the identifier the store gives the new
    document.  The classifier only fills [aiAnalysis], which is not
    modelled.  A missing user document makes [user.reportCount] throw, after
    the report has been saved. *)
Definition postReport (reportId reqUser : ObjectId) (body : ReportBody)
    (db : Db) : Response * Db :=
  let fraudReport := newFraudReport reqUser body in
  let db := save_report reportId fraudReport db in
  match users db !! reqUser with
  | None => (ServerError500, db)
  | Some user =>
      let user :=
        User.updateTrustScore
          (User.set_counts user (User.reportCount user + 1)
                           (User.verificationCount user)) in
      let db := save_user reqUser user db in
      let db :=
        set_alerts
          (NotificationService.createProximityAlerts transport geo now
             (users db) reportId fraudReport (alerts db)) db in
      (Created201, db)
  end.

End Handlers.

End Routes.

(** ** The specification's own words, for comparison with the code *)
Module Spec.

Definition entries (report : FraudReport.t) : list FraudReport.VerifiedBy :=
  FraudReport.verifiedBy (FraudReport.verification report).

(** A verification entry: "{voterId, vote, comment, votedAt}". *)
Definition entry (now : Date) (userId : ObjectId)
    (vote : FraudReport.Vote) (comment : option string) : FraudReport.VerifiedBy :=
  {| FraudReport.user := userId; FraudReport.vote := vote;
     FraudReport.comment := comment; FraudReport.verifiedAt := now |}.

(** The voters of a report, one per verification entry. *)
Definition voters (report : FraudReport.t) : list ObjectId :=
  FraudReport.user <$> entries report.

(** "weight = voterTrustScore/100" for an entry whose voter has a known
    trust score; an unknown voter weighs nothing. *)
Definition weight (known : gmap ObjectId User.t) (e : FraudReport.VerifiedBy) : Q :=
  match known !! FraudReport.user e with
  | Some voter => (inject_Z (User.trustScore voter) / 100)%Q
  | None => 0%Q
  end.

Definition Qsum (l : list Q) : Q := foldr Qplus 0%Q l.

(** "accumulate weightedConfirm (vote=confirm)" *)
Definition weightedConfirm (known : gmap ObjectId User.t)
    (report : FraudReport.t) : Q :=
  Qsum (weight known <$>
          filter (λ e, FraudReport.vote e = FraudReport.confirm) (entries report)).

(** "totalWeight (sum of all weights ...; uncertain contributes to
    totalWeight but not to numerator)" *)
Definition totalWeight (known : gmap ObjectId User.t)
    (report : FraudReport.t) : Q :=
  Qsum (weight known <$> entries report).

Definition confirmCount (report : FraudReport.t) : Z :=
  Z.of_nat (length (filter (λ e, FraudReport.vote e = FraudReport.confirm)
                           (entries report))).

(** The counter counts the entries: "if absent, appends a new entry and
    increments verification.verificationCount". *)
Definition counted (report : FraudReport.t) : Prop :=
  FraudReport.verificationCount (FraudReport.verification report)
  = Z.of_nat (length (entries report)).

(** [computeTrustScore]: 30 without verifications; otherwise
    "round(100 * weightedConfirm / totalWeight) when totalWeight > 0;
    otherwise fall back to round(100 * confirmCount / totalVotes)". *)
Definition computeTrustScore (known : gmap ObjectId User.t)
    (report : FraudReport.t) : Z :=
  let totalVotes := FraudReport.verificationCount (FraudReport.verification report) in
  if decide (totalVotes = 0) then 30
  else if Qlt_le_dec 0 (totalWeight known report)
  then JS.Math_round (100 * weightedConfirm known report / totalWeight known report)
  else JS.Math_round (100 * inject_Z (confirmCount report) / inject_Z totalVotes).

(** "trustScore >= 80 -> verified; trustScore <= 20 -> disputed; else pending" *)
Definition statusFor (score : Z) : FraudReport.VerificationStatus :=
  if decide (80 <= score) then FraudReport.verified
  else if decide (score <= 20) then FraudReport.disputed
  else FraudReport.pending.

(** "distance <= user.alertRadiusKm AND (subscribedCategories is empty OR the
    report's category is in that set) AND the user is not the reporter" *)
Definition qualifies (id : ObjectId) (user : User.t)
    (report : FraudReport.t) : Prop :=
  (NotificationService.calculateDistance (User.coordinates user)
     (FraudReport.coordinates report)
   <= User.alertRadius (User.preferences user))%R
  ∧ (User.fraudTypes (User.preferences user) = []
     ∨ FraudReport.fraudType report ∈ User.fraudTypes (User.preferences user))
  ∧ id ≠ FraudReport.reportedBy report.

(** "the recipient has that channel enabled in preferences, AND the alert's
    corresponding channel state is still not sent, AND, for SMS
    specifically, severity is not low" *)
Definition eligible (alert : Alert.t) (prefs : User.Preferences)
    (channel : Channel.t) : Prop :=
  User.notifications prefs channel = true
  ∧ Alert.sent (Alert.channels alert channel) = false
  ∧ (channel = Channel.sms → Alert.severity alert ≠ Alert.low).

(** "trustScore = min(50 + min(reportCount*2, 30) + min(verificationCount*3,
    40), 100)" *)
Definition reputationScore (reportCount verificationCount : Z) : Z :=
  Z.min (50 + Z.min (reportCount * 2) 30 + Z.min (verificationCount * 3) 40) 100.

(** "Tier thresholds: >=90 expert, >=75 verified, >=60 trusted, else new" *)
Definition tier (score : Z) : User.Reputation :=
  if decide (90 <= score) then User.expert
  else if decide (75 <= score) then User.verified
  else if decide (60 <= score) then User.trusted
  else User.new.

(** What the handlers keep true of the store: every report's counter
    counts its entries, which name each voter once, and every user's
    counters are non-negative with a trust score between 50 and 100. *)
Definition user_ok (u : User.t) : Prop :=
  0 <= User.reportCount u ∧ 0 <= User.verificationCount u
  ∧ 50 <= User.trustScore u <= 100.

Definition db_ok (db : Routes.Db) : Prop :=
  map_Forall (λ _ r, counted r ∧ NoDup (voters r)) (Routes.reports db)
  ∧ map_Forall (λ _ u, user_ok u) (Routes.users db).

End Spec.

(** ** Concrete documents used to exercise the model *)
Module Examples.

(** No provider is configured: every send answers [false]. *)
Definition quiet : NotificationService.Transport :=
  {| NotificationService.sendEmail := λ _ _, false;
     NotificationService.sendSMS := λ _ _, false;
     NotificationService.sendPushNotification := λ _ _, false |}.

(** A store whose index measures the same great-circle distance as
    [calculateDistance], in metres. *)
Definition sphere : NotificationService.GeoIndex :=
  {| NotificationService.nearMetres :=
       λ a b, (1000 * NotificationService.calculateDistance a b)%R |}.

(** The schema defaults of [preferences.notifications]. *)
Definition default_notifications (c : Channel.t) : bool :=
  match c with
  | Channel.email => true
  | Channel.sms => false
  | Channel.push => true
  end.

(** A registered, active user. *)
Definition member (email : string) (phone : option string)
    (coordinates : R * R) (trustScore reportCount verificationCount : Z)
    (alertRadius : R) : User.t :=
  {| User.email := email; User.phone := phone;
     User.coordinates := coordinates;
     User.trustScore := trustScore;
     User.reportCount := reportCount;
     User.verificationCount := verificationCount;
     User.reputation := User.new;
     User.preferences :=
       {| User.notifications := default_notifications;
          User.alertRadius := alertRadius; User.fraudTypes := [] |};
     User.fcmToken := None; User.isActive := true |}.

Definition origin : R * R := (0%R, 0%R).

(** Voters A (trust score 80) and B (trust score 40). *)
Definition voterA : User.t := member "a@example.org" None origin 80 15 0 10%R.
Definition voterB : User.t := member "b@example.org" None origin 40 0 0 10%R.

Definition votersAB : gmap ObjectId User.t :=
  <[1%N := voterA]> (<[2%N := voterB]> ∅).

Definition body (phone : option string) (coordinates : R * R) : Routes.ReportBody :=
  {| Routes.fraudType := phishing;
     Routes.title := "Parcel fee text message";
     Routes.coordinates := coordinates;
     Routes.evidenceData :=
       {| FraudReport.phoneNumber := phone; FraudReport.email := None |};
     Routes.impact := None |}.

(** A report as POST /report builds it, before any vote. *)
Definition freshReport : FraudReport.t :=
  Routes.newFraudReport 9%N (body None origin).

(** The same report after A confirmed and B denied. *)
Definition reportAB : FraudReport.t :=
  Routes.applyVote 2%N FraudReport.deny None 2000
    (Routes.applyVote 1%N FraudReport.confirm None 1000 freshReport).

(** A user whose registered phone number shows up as evidence. *)
Definition victim : User.t :=
  member "v@example.org" (Some "+15551234567") origin 50 0 0 10%R.

Definition usersV : gmap ObjectId User.t := {[ 3%N := victim ]}.

Definition phoneReport : FraudReport.t :=
  Routes.newFraudReport 9%N (body (Some "+15551234567") origin).

(** A user at the origin who asked for alerts up to 50 km away, and a report
    filed by somebody else a fifth of a degree further east on the equator,
    some 22 km away. *)
Definition farUser : User.t := member "f@example.org" None origin 50 0 0 50%R.

Definition farReport : FraudReport.t :=
  Routes.newFraudReport 9%N (body None ((1 / 5)%R, 0%R)).

(** A report filed by somebody else at the user's own position. *)
Definition hereReport : FraudReport.t :=
  Routes.newFraudReport 9%N (body None origin).

(** A store holding A, B and the fresh report under identifier 7. *)
Definition dbAB : Routes.Db :=
  {| Routes.users := votersAB;
     Routes.reports := {[ 7%N := freshReport ]};
     Routes.alerts := [] |}.

End Examples.

(** ** The alert router: routes/alerts.js and [markAsRead] of models/Alert.js *)
Module AlertRoutes.

(** The alert collection with its [readAt] column.  An alert's [_id] is its
    position in the collection: alerts are only ever appended, and creation
    order stands for [createdAt]. *)
Record Store := {
  db : Routes.Db;
  readAt : nat -> option Date
}.

Inductive Response (A : Type) :=
  | Ok200 (data : A)
  | NotFound404
  | ServerError500.

Arguments Ok200 {A} data.
Arguments NotFound404 {A}.
Arguments ServerError500 {A}.

Definition set_isRead (a : Alert.t) (read : bool) : Alert.t :=
  {| Alert.user := Alert.user a; Alert.fraudReport := Alert.fraudReport a;
     Alert.alertType := Alert.alertType a; Alert.title := Alert.title a;
     Alert.severity := Alert.severity a; Alert.channels := Alert.channels a;
     Alert.matchCriteria := Alert.matchCriteria a; Alert.isRead := read;
     Alert.isActive := Alert.isActive a |}.

Definition set_isActive (a : Alert.t) (active : bool) : Alert.t :=
  {| Alert.user := Alert.user a; Alert.fraudReport := Alert.fraudReport a;
     Alert.alertType := Alert.alertType a; Alert.title := Alert.title a;
     Alert.severity := Alert.severity a; Alert.channels := Alert.channels a;
     Alert.matchCriteria := Alert.matchCriteria a; Alert.isRead := Alert.isRead a;
     Alert.isActive := active |}.

Definition alerts (s : Store) : list Alert.t := Routes.alerts (db s).

Definition with_alerts (l : list Alert.t) (s : Store) : Store :=
  {| db := Routes.set_alerts l (db s); readAt := readAt s |}.

(** [Alert.findOne({ _id: id, user: reqUser })], for an [id] that is an
    ObjectId; [AlertRequest] below starts from the path segment, which
    need not be one. *)
Definition findOne (s : Store) (id : nat) (reqUser : ObjectId) : option Alert.t :=
  match alerts s !! id with
  | Some a => if decide (Alert.user a = reqUser) then Some a else None
  | None => None
  end.

(** [alertSchema.methods.markAsRead], on the document at [id]:
    [this.isRead = true; this.readAt = new Date(); return this.save()]. *)
Definition markAsRead (now : Date) (id : nat) (s : Store) : Store :=
  {| db := Routes.set_alerts (alter (λ a, set_isRead a true) id (alerts s)) (db s);
     readAt := λ i, if decide (i = id) then Some now else readAt s i |}.

(** GET /:id; the alert comes with its populated report. *)
Definition getAlert (reqUser : ObjectId) (id : nat) (s : Store)
  : Response (Alert.t * option FraudReport.t) :=
  match findOne s id reqUser with
  | None => NotFound404
  | Some a => Ok200 (a, Routes.reports (db s) !! Alert.fraudReport a)
  end.

(** PUT /:id/read *)
Definition putRead (now : Date) (reqUser : ObjectId) (id : nat) (s : Store)
  : Response unit * Store :=
  match findOne s id reqUser with
  | None => (NotFound404, s)
  | Some _ => (Ok200 (), markAsRead now id s)
  end.

(** PUT /read-all:
    [Alert.updateMany({ user, isRead: false }, { isRead: true, readAt: now })]. *)
Definition putReadAll (now : Date) (reqUser : ObjectId) (s : Store)
  : Response unit * Store :=
  let selected (a : Alert.t) :=
    bool_decide (Alert.user a = reqUser) && negb (Alert.isRead a) in
  (Ok200 (),
   {| db := Routes.set_alerts
              ((λ a, if selected a then set_isRead a true else a) <$> alerts s)
              (db s);
      readAt := λ i, match alerts s !! i with
                     | Some a => if selected a then Some now else readAt s i
                     | None => readAt s i
                     end |}).

(** DELETE /:id: [alert.isActive = false; alert.save()]. *)
Definition deleteAlert (reqUser : ObjectId) (id : nat) (s : Store)
  : Response unit * Store :=
  match findOne s id reqUser with
  | None => (NotFound404, s)
  | Some _ =>
      (Ok200 (), with_alerts (alter (λ a, set_isActive a false) id (alerts s)) s)
  end.

(** The optional filters of GET /. *)
Record Filters := {
  severity : option Alert.Severity;
  alertType : option Alert.AlertType;
  isRead : option bool
}.

(** The query GET / builds:
    [{ user: req.user._id, isActive: true }] plus the filters given. *)
Definition selects (reqUser : ObjectId) (f : Filters) (a : Alert.t) : bool :=
  bool_decide (Alert.user a = reqUser)
  && Alert.isActive a
  && from_option (λ v, bool_decide (Alert.severity a = v)) true (severity f)
  && from_option (λ v, bool_decide (Alert.alertType a = v)) true (alertType f)
  && from_option (λ v, bool_decide (Alert.isRead a = v)) true (isRead f).

(** A cursor's [.limit(limit).skip((page - 1) * limit)]: the skip applies
    first; a limit of 0 means no limit; a negative skip is an error. *)
Definition paginate {A : Type} (page limit : nat) (l : list A) : option (list A) :=
  if decide (limit = 0%nat) then Some l
  else if decide (page = 0%nat) then None
  else Some (take limit (drop ((page - 1) * limit) l)).

(** [Math.ceil(total / limit)]; [None] when the quotient is not finite. *)
Definition pageCount (total limit : nat) : option Z :=
  q ← JS.div (inject_Z (Z.of_nat total)) (inject_Z (Z.of_nat limit));
  Some (Qceiling q).

Record Listing := {
  items : list (nat * Alert.t * option FraudReport.t);
  total : nat;
  pages : option Z;
  unreadCount : nat
}.

(** The documents of a collection with their identifiers, newest first:
    [.sort({ createdAt: -1 })]. *)
Definition newestFirst (l : list Alert.t) : list (nat * Alert.t) :=
  reverse (imap pair l).

(** GET / *)
Definition getAlerts (reqUser : ObjectId) (page limit : nat) (f : Filters)
    (s : Store) : Response Listing :=
  let found := filter (λ e, selects reqUser f e.2 = true) (newestFirst (alerts s)) in
  match paginate page limit found with
  | None => ServerError500
  | Some shown =>
      Ok200
        {| items :=
             (λ e, (e.1, e.2, Routes.reports (db s) !! Alert.fraudReport e.2))
               <$> shown;
           total := length found;
           pages := pageCount (length found) limit;
           unreadCount :=
             length (filter (λ a, Alert.user a = reqUser
                                  ∧ Alert.isActive a = true
                                  ∧ Alert.isRead a = false) (alerts s)) |}
  end.

(** GET /stats: the [$group] over the user's active alerts; [None] stands
    for the empty aggregation, answered with zeros and empty lists. *)
Record Stats := {
  st_total : nat;
  st_unread : nat;
  bySeverity : list Alert.Severity;
  byType : list Alert.AlertType
}.

Definition getStats (reqUser : ObjectId) (s : Store) : Stats :=
  let mine :=
    filter (λ a, Alert.user a = reqUser ∧ Alert.isActive a = true) (alerts s) in
  match mine with
  | [] => {| st_total := 0; st_unread := 0; bySeverity := []; byType := [] |}
  | _ =>
      {| st_total := length mine;
         st_unread := length (filter (λ a, Alert.isRead a = false) mine);
         bySeverity := Alert.severity <$> mine;
         byType := Alert.alertType <$> mine |}
  end.

End AlertRoutes.

(** ** Regular expressions, as far as services/aiService.js uses them *)
Module Regex.
Import Stdlib.Strings.Ascii.

Inductive t :=
  | Fail                         (* matches nothing *)
  | Eps                          (* the empty string *)
  | Class (p : ascii -> bool)    (* one character of a class *)
  | Seq (r1 r2 : t)
  | Alt (r1 r2 : t)
  | Star (r : t).

(** The strings a pattern matches as a whole. *)
Inductive lang : t -> string -> Prop :=
  | lang_eps : lang Eps ""
  | lang_class p c : p c = true -> lang (Class p) (String c "")
  | lang_seq r1 r2 s1 s2 : lang r1 s1 -> lang r2 s2 -> lang (Seq r1 r2) (s1 +:+ s2)
  | lang_alt_l r1 r2 s : lang r1 s -> lang (Alt r1 r2) s
  | lang_alt_r r1 r2 s : lang r2 s -> lang (Alt r1 r2) s
  | lang_star_nil r : lang (Star r) ""
  | lang_star_cons r c s1 s2 :
      lang r (String c s1) -> lang (Star r) s2 -> lang (Star r) (String c s1 +:+ s2).

Fixpoint nullable (r : t) : bool :=
  match r with
  | Fail => false
  | Eps => true
  | Class _ => false
  | Seq r1 r2 => nullable r1 && nullable r2
  | Alt r1 r2 => nullable r1 || nullable r2
  | Star _ => true
  end.

(** The derivative of a pattern by a leading character. *)
Fixpoint deriv (c : ascii) (r : t) : t :=
  match r with
  | Fail => Fail
  | Eps => Fail
  | Class p => if p c then Eps else Fail
  | Seq r1 r2 =>
      if nullable r1 then Alt (Seq (deriv c r1) r2) (deriv c r2)
      else Seq (deriv c r1) r2
  | Alt r1 r2 => Alt (deriv c r1) (deriv c r2)
  | Star r => Seq (deriv c r) (Star r)
  end.

(** Whole-string match. *)
Fixpoint matches (r : t) (s : string) : bool :=
  match s with
  | EmptyString => nullable r
  | String c s' => matches (deriv c r) s'
  end.

Definition any : t := Class (λ _, true).

(** A literal. *)
Fixpoint lit (w : string) : t :=
  match w with
  | EmptyString => Eps
  | String c w' => Seq (Class (Ascii.eqb c)) (lit w')
  end.

Definition digit (c : ascii) : bool :=
  (48 <=? nat_of_ascii c)%nat && (nat_of_ascii c <=? 57)%nat.

Definition lower (c : ascii) : ascii :=
  if (65 <=? nat_of_ascii c)%nat && (nat_of_ascii c <=? 90)%nat
  then ascii_of_nat (nat_of_ascii c + 32) else c.

(** A literal under the [i] flag. *)
Fixpoint liti (w : string) : t :=
  match w with
  | EmptyString => Eps
  | String c w' => Seq (Class (λ x, Ascii.eqb (lower x) (lower c))) (liti w')
  end.

Definition opt (r : t) : t := Alt r Eps.

(** [r{n}] *)
Fixpoint times (n : nat) (r : t) : t :=
  match n with
  | O => Eps
  | S n => Seq r (times n r)
  end.

(** [r{1,3}] *)
Definition upto3 (r : t) : t := Seq r (Seq (opt r) (opt r)).

Fixpoint alts (l : list t) : t :=
  match l with
  | [] => Fail
  | r :: l => Alt r (alts l)
  end.

(** [/r/.test(s)]: the pattern matches somewhere in [s]. *)
Definition test (r : t) (s : string) : bool :=
  matches (Seq (Star any) (Seq r (Star any))) s.

(** [/^r/.test(s)]: the pattern matches at the start of [s]. *)
Definition test_start (r : t) (s : string) : bool :=
  matches (Seq r (Star any)) s.

End Regex.

(** ** Strings, as far as services/aiService.js uses them *)
Module JSString.
Import Stdlib.Strings.Ascii.

(** [needle] occurs in [hay]: [hay.includes(needle)]. *)
Fixpoint includes (hay needle : string) : bool :=
  String.prefix needle hay
  || match hay with
     | EmptyString => false
     | String _ rest => includes rest needle
     end.

(** [s.toLowerCase()], on the ASCII letters; other bytes are kept. *)
Fixpoint toLowerCase (s : string) : string :=
  match s with
  | EmptyString => EmptyString
  | String c s' => String (Regex.lower c) (toLowerCase s')
  end.

(** [s.replace(/[^...]/g, '')]: the characters of a class, in order. *)
Fixpoint keep (p : ascii -> bool) (s : string) : string :=
  match s with
  | EmptyString => EmptyString
  | String c s' => if p c then String c (keep p s') else keep p s'
  end.

(** [[...new Set(l)]]: the first occurrence of each element, in order. *)
Definition unique (l : list string) : list string :=
  fold_left (λ seen x, if decide (x ∈ seen) then seen else seen ++ [x]) l [].

End JSString.

(** ** services/aiService.js *)
Module AIService.
Import Stdlib.Strings.Ascii.

Inductive Sentiment := positive | negative | neutral.

(** The [natural] library: tokenising with stemming, and the sentiment
    score of a token list.  [None] where the library throws. *)
Record Natural := {
  tokenize : string -> option (list string);
  getSentiment : list string -> option Q
}.

(** What the two reputation services answer for a URL.  A service is
    [None] when its API key is not configured; a request is [None] when it
    fails.  VirusTotal answers [positives], which may be missing; Safe
    Browsing answers a threat name, ["safe"] when there is none. *)
Record External := {
  virusTotal : option (string -> option (option Z));
  safeBrowsing : option (string -> option string)
}.

Definition fraudKeywords : list (FraudType * list string) :=
  [ (ponzi,
     ["investment"; "returns"; "guaranteed"; "profit"; "scheme"; "referral";
      "pyramid"; "mlm"; "recruit"; "downline"; "passive income"; "compound";
      "roi"; "dividend"; "portfolio"; "fund"; "trading"; "forex"]);
    (phishing,
     ["verify"; "account"; "suspended"; "click"; "link"; "urgent"; "expire";
      "confirm"; "identity"; "security"; "update"; "login"; "password";
      "credential"; "authentication"; "validate"; "secure"]);
    (tax_scam,
     ["tax"; "refund"; "irs"; "government"; "audit"; "penalty"; "fine";
      "return"; "filing"; "assessment"; "dues"; "department"; "revenue";
      "compliance"; "notice"; "enforcement"]);
    (otp_fraud,
     ["otp"; "code"; "verification"; "pin"; "sms"; "authenticate"; "confirm";
      "security code"; "access code"; "temporary"; "expire"; "valid";
      "authorization"; "token"]);
    (fake_job,
     ["job"; "hiring"; "work from home"; "part time"; "salary"; "income";
      "employment"; "position"; "vacancy"; "opportunity"; "earn"; "money";
      "payment"; "advance"; "registration fee"; "training"]);
    (lottery,
     ["lottery"; "winner"; "prize"; "jackpot"; "congratulations"; "selected";
      "award"; "million"; "draw"; "ticket"; "claim"; "lucky"; "winning";
      "sweepstake"; "raffle"]);
    (romance,
     ["love"; "relationship"; "lonely"; "widow"; "military"; "overseas";
      "emergency"; "help"; "money"; "transfer"; "western union"; "gift";
      "travel"; "visa"; "hospital"; "accident"]);
    (investment,
     ["crypto"; "bitcoin"; "trading"; "stocks"; "shares"; "market"; "profit";
      "investment"; "broker"; "platform"; "deposit"; "withdraw"; "trading bot";
      "signal"; "expert"; "guaranteed returns"]);
    (fake_bank,
     ["bank"; "account"; "balance"; "transaction"; "transfer"; "credit";
      "debit"; "loan"; "approved"; "officer"; "manager"; "branch";
      "atm"; "card"; "blocked"; "frozen"]);
    (courier_scam,
     ["courier"; "package"; "delivery"; "parcel"; "shipping"; "customs";
      "clearance"; "fee"; "detention"; "held"; "release"; "agent";
      "office"; "collect"; "pay"]) ].

Definition riskIndicators : list string :=
  ["urgent"; "immediate"; "limited time"; "act now"; "hurry"; "expire";
   "guaranteed"; "100%"; "risk free"; "no risk"; "free money";
   "click here"; "call now"; "contact immediately"; "dont delay";
   "exclusive"; "selected"; "chosen"; "winner"; "congratulations";
   "verify account"; "suspend"; "block"; "freeze"; "penalty";
   "legal action"; "arrest"; "warrant"; "court"; "fine"].

Definition urgencyWords : list string :=
  ["urgent"; "immediate"; "asap"; "hurry"; "quick"; "fast"].

(** [calculateSentiment] *)
Definition calculateSentiment (natural : Natural) (tokens : list string)
  : Sentiment :=
  match getSentiment natural tokens with
  | Some sentimentScore =>
      if Qlt_le_dec (1 # 10) sentimentScore then positive
      else if Qlt_le_dec sentimentScore (- (1 # 10)) then negative
      else neutral
  | None => neutral
  end.

Record TextAnalysis := {
  fraudType : option FraudType;
  confidence : Q;
  keywords : list string;
  sentiment : Sentiment;
  riskScore : Z
}.

(** The keywords of one fraud type found in the text. *)
Definition typeKeywords (lowerText : string) (words : list string) : list string :=
  filter (λ keyword,
            JSString.includes lowerText (JSString.toLowerCase keyword) = true)
         words.

(** [fraudTypeScores], in the order of the keys of [fraudKeywords]. *)
Definition fraudTypeScores (lowerText : string) : list (FraudType * nat) :=
  (λ entry, (entry.1, length (typeKeywords lowerText entry.2))) <$> fraudKeywords.

(** [keys.reduce((a, b) => scores[a] > scores[b] ? a : b)]; an empty array
    has nothing to reduce. *)
Definition highest (scores : list (FraudType * nat)) : option (FraudType * nat) :=
  match scores with
  | [] => None
  | first :: rest =>
      Some (fold_left (λ a b, if (b.2 <? a.2)%nat then a else b) rest first)
  end.

(** [analyzeText]; [None] when the tokenizer throws. *)
Definition analyzeText (natural : Natural) (text : string) : option TextAnalysis :=
  let lowerText := JSString.toLowerCase text in
  tokens ← tokenize natural lowerText;
  let sentiment := calculateSentiment natural tokens in
  let detectedKeywords :=
    fraudKeywords ≫= (λ entry, typeKeywords lowerText entry.2) in
  detected ← highest (fraudTypeScores lowerText);
  let maxScore := detected.2 in
  let scaled := (inject_Z (Z.of_nat maxScore) / 3 * 100)%Q in
  let confidence := if Qlt_le_dec scaled 100 then scaled else 100%Q in
  let indicators :=
    length (filter (λ indicator,
                      JSString.includes lowerText (JSString.toLowerCase indicator)
                      = true) riskIndicators) in
  let riskScore := 10 * Z.of_nat indicators in
  let riskScore :=
    match sentiment with
    | negative => riskScore + 15
    | positive => riskScore + 5
    | neutral => riskScore
    end in
  let urgent :=
    length (filter (λ word, JSString.includes lowerText word = true)
                   urgencyWords) in
  let riskScore := riskScore + 8 * Z.of_nat urgent in
  let riskScore := Z.min riskScore 100 in
  Some {| fraudType := if (0 <? maxScore)%nat then Some detected.1 else None;
          confidence := confidence;
          keywords := JSString.unique detectedKeywords;
          sentiment := sentiment;
          riskScore := riskScore |}.

Record PhoneAnalysis := {
  suspicious : bool;
  country : option string;
  type : string;
  phoneConfidence : Z
}.

(** The prefixes the patterns [/^\+1900/], ..., [/^9999/] look for. *)
Definition scamPrefixes : list string :=
  [ "+1900"; "+1976"; "+234"; "+233"; "+225"; "0000"; "1111"; "9999" ].

Definition scamPatterns : list Regex.t := Regex.lit <$> scamPrefixes.

(** [phoneNumber.replace(/[^\d+]/g, '')] *)
Definition cleanNumber (phoneNumber : string) : string :=
  JSString.keep (λ c, Regex.digit c || Ascii.eqb c "+") phoneNumber.

(** [analyzePhoneNumber] *)
Definition analyzePhoneNumber (phoneNumber : string) : PhoneAnalysis :=
  let cleanNumber := cleanNumber phoneNumber in
  let analysis :=
    fold_left
      (λ analysis pattern,
         if Regex.test_start pattern cleanNumber
         then {| suspicious := true; country := country analysis;
                 type := type analysis;
                 phoneConfidence := phoneConfidence analysis + 30 |}
         else analysis)
      scamPatterns
      {| suspicious := false; country := None; type := "unknown";
         phoneConfidence := 0 |} in
  if (String.length cleanNumber <? 7)%nat || (15 <? String.length cleanNumber)%nat
  then {| suspicious := true; country := country analysis; type := type analysis;
          phoneConfidence := phoneConfidence analysis + 20 |}
  else analysis.

Record UrlAnalysis := {
  isPhishing : bool;
  virusTotalScore : Z;
  safeBrowsingResult : string
}.

Definition suspiciousPatterns : list Regex.t :=
  let d := Regex.Class Regex.digit in
  let dot := Regex.lit "." in
  [ (* /bit\.ly|tinyurl|goo\.gl|t\.co/ *)
    Regex.alts [Regex.lit "bit.ly"; Regex.lit "tinyurl"; Regex.lit "goo.gl";
                Regex.lit "t.co"];
    (* /[0-9]{1,3}\.[0-9]{1,3}\.[0-9]{1,3}\.[0-9]{1,3}/ *)
    Regex.Seq (Regex.upto3 d) (Regex.Seq dot (Regex.Seq (Regex.upto3 d)
      (Regex.Seq dot (Regex.Seq (Regex.upto3 d) (Regex.Seq dot (Regex.upto3 d))))));
    (* /-|_|\.tk|\.ml|\.ga|\.cf/ *)
    Regex.alts [Regex.lit "-"; Regex.lit "_"; Regex.lit ".tk"; Regex.lit ".ml";
                Regex.lit ".ga"; Regex.lit ".cf"];
    (* /[0-9]{5,}/ *)
    Regex.Seq (Regex.times 5 d) (Regex.Star d);
    (* /paypal|amazon|google|microsoft|apple/i *)
    Regex.alts [Regex.liti "paypal"; Regex.liti "amazon"; Regex.liti "google";
                Regex.liti "microsoft"; Regex.liti "apple"] ].

(** [analyzeURL] *)
Definition analyzeURL (external : External) (url : string) : UrlAnalysis :=
  let suspiciousScore :=
    20 * Z.of_nat (length (filter (λ pattern, Regex.test pattern url = true)
                                  suspiciousPatterns)) in
  let analysis :=
    {| isPhishing := 40 <=? suspiciousScore; virusTotalScore := 0;
       safeBrowsingResult := "safe" |} in
  let analysis :=
    match virusTotal external with
    | Some checkVirusTotal =>
        match checkVirusTotal url with
        | Some positives =>
            {| isPhishing := isPhishing analysis
                             || from_option (λ n, 3 <? n) false positives;
               virusTotalScore := default 0 positives;
               safeBrowsingResult := safeBrowsingResult analysis |}
        | None => analysis
        end
    | None => analysis
    end in
  match safeBrowsing external with
  | Some checkSafeBrowsing =>
      match checkSafeBrowsing url with
      | Some threat =>
          {| isPhishing := isPhishing analysis
                           || negb (String.eqb threat "safe");
             virusTotalScore := virusTotalScore analysis;
             safeBrowsingResult := if String.eqb threat "" then "safe" else threat |}
      | None => analysis
      end
  | None => analysis
  end.

(** The fields of a report [analyzeFraudReport] reads; [messageContent],
    [website] and [phoneNumber] are those of [evidenceData]. *)
Record Report := {
  title : string;
  description : string;
  messageContent : option string;
  website : option string;
  phoneNumber : option string;
  priority : FraudReport.Priority;
  declaredType : FraudType
}.

Record Analysis := {
  a_confidence : Q;
  detectedFraudType : option FraudType;
  a_riskScore : Z;
  a_keywords : list string;
  a_sentiment : Sentiment;
  urlAnalysis : option UrlAnalysis
}.

(** [analyzeFraudReport]; the [catch] answers the defaults. *)
Definition analyzeFraudReport (natural : Natural) (external : External)
    (report : Report) : Analysis :=
  let textContent :=
    title report +:+ " " +:+ description report +:+ " "
    +:+ default "" (messageContent report) in
  match analyzeText natural textContent with
  | None =>
      {| a_confidence := 0; detectedFraudType := Some (declaredType report);
         a_riskScore := 30; a_keywords := []; a_sentiment := neutral;
         urlAnalysis := None |}
  | Some textAnalysis =>
      let risk := riskScore textAnalysis in
      let url :=
        if JS.truthy (website report)
        then Some (analyzeURL external (default "" (website report)))
        else None in
      let risk :=
        match url with
        | Some u => if isPhishing u then Z.min (risk + 30) 100 else risk
        | None => risk
        end in
      let risk :=
        if JS.truthy (phoneNumber report)
           && suspicious (analyzePhoneNumber (default "" (phoneNumber report)))
        then Z.min (risk + 15) 100 else risk in
      let risk :=
        match priority report with
        | FraudReport.critical => Z.min (risk + 20) 100
        | FraudReport.high => Z.min (risk + 10) 100
        | _ => risk
        end in
      {| a_confidence := confidence textAnalysis;
         detectedFraudType := fraudType textAnalysis;
         a_riskScore := risk;
         a_keywords := keywords textAnalysis;
         a_sentiment := sentiment textAnalysis;
         urlAnalysis := url |}
  end.

(** The fields of a stored report [getFraudTrends] reads; [analysis] holds
    [aiAnalysis.riskScore] and [aiAnalysis.keywords]. *)
Record Stored := {
  storedType : FraudType;
  analysis : option (Z * list string)
}.

Record RiskDistribution := {
  low : nat; medium : nat; high : nat; critical : nat
}.

(** The property names a plain object inherits from [Object.prototype]. *)
Definition inherited : list string :=
  [ "constructor"; "__defineGetter__"; "__defineSetter__"; "hasOwnProperty";
    "__lookupGetter__"; "__lookupSetter__"; "isPrototypeOf";
    "propertyIsEnumerable"; "toString"; "valueOf"; "__proto__";
    "toLocaleString" ].

(** What a key of [commonKeywords] holds: a count, or the text that [+ 1]
    makes of an inherited function and of every text after it. *)
Inductive Entry := count (n : nat) | text.

Record Trends := {
  totalReports : nat;
  fraudTypes : FraudType -> nat;
  riskDistribution : RiskDistribution;
  commonKeywords : gmap string Entry
}.

(** [counts[key] = (counts[key] || 0) + 1] on a plain object.  A key the
    object does not hold itself is looked up in [Object.prototype]: what is
    found there is truthy and no number, so [+ 1] gives a text, which the
    assignment stores; only for [__proto__] the assignment of a text is
    ignored. *)
Definition bump (key : string) (counts : gmap string Entry) : gmap string Entry :=
  match counts !! key with
  | Some (count n) => <[key := count (n + 1)]> counts
  | Some text => <[key := text]> counts
  | None =>
      if decide (key = "__proto__") then counts
      else if decide (key ∈ inherited) then <[key := text]> counts
      else <[key := count 1]> counts
  end.

(** The body of the [forEach] of [getFraudTrends], without the time-of-day
    tally. *)
Definition tally (trends : Trends) (report : Stored) : Trends :=
  let types := λ ty,
    if decide (ty = storedType report)
    then (fraudTypes trends ty + 1)%nat else fraudTypes trends ty in
  let risk := riskDistribution trends in
  let risk :=
    match analysis report with
    | Some (riskScore, _) =>
        if riskScore =? 0 then risk
        else if 80 <=? riskScore
        then {| low := low risk; medium := medium risk; high := high risk;
                critical := S (critical risk) |}
        else if 60 <=? riskScore
        then {| low := low risk; medium := medium risk; high := S (high risk);
                critical := critical risk |}
        else if 30 <=? riskScore
        then {| low := low risk; medium := S (medium risk); high := high risk;
                critical := critical risk |}
        else {| low := S (low risk); medium := medium risk; high := high risk;
                critical := critical risk |}
    | None => risk
    end in
  let words :=
    match analysis report with
    | Some (_, found) => fold_left (λ counts keyword, bump keyword counts)
                                   found (commonKeywords trends)
    | None => commonKeywords trends
    end in
  {| totalReports := totalReports trends; fraudTypes := types;
     riskDistribution := risk; commonKeywords := words |}.

(** [getFraudTrends] *)
Definition getFraudTrends (reports : list Stored) : Trends :=
  fold_left tally reports
    {| totalReports := length reports; fraudTypes := λ _, 0%nat;
       riskDistribution := {| low := 0; medium := 0; high := 0; critical := 0 |};
       commonKeywords := ∅ |}.

End AIService.

(** ** routes/alerts.js: the routes of the alert router *)
Module AlertRouter.

Inductive Method := GET | POST | PUT | DELETE.
Inductive Segment := Lit (s : string) | Param (name : string).
Inductive Handler :=
  getAlerts | getAlert | putRead | putReadAll | deleteAlert | getStats.

#[global] Instance Method_eq_dec : EqDecision Method.
Proof. solve_decision. Defined.

(** The routes in the order [router.get], [router.put] and [router.delete]
    register them. *)
Definition routes : list (Method * list Segment * Handler) :=
  [ (GET, [], getAlerts);
    (GET, [Param "id"], getAlert);
    (PUT, [Param "id"; Lit "read"], putRead);
    (PUT, [Lit "read-all"], putReadAll);
    (DELETE, [Param "id"], deleteAlert);
    (GET, [Lit "stats"], getStats) ].

(** Express matches a path segment by segment: a literal without regard to
    letter case, a parameter against any non-empty segment.  The answer is
    [req.params]. *)
Fixpoint matchPath (pattern : list Segment) (path : list string)
  : option (list (string * string)) :=
  match pattern, path with
  | [], [] => Some []
  | Lit s :: pattern, x :: path =>
      if String.eqb (JSString.toLowerCase x) (JSString.toLowerCase s)
      then matchPath pattern path else None
  | Param name :: pattern, x :: path =>
      if String.eqb x "" then None
      else (λ params, (name, x) :: params) <$> matchPath pattern path
  | _, _ => None
  end.

(** The first route of the method whose pattern matches the path serves
    the request; no handler of this router passes a request on. *)
Fixpoint dispatch_in (table : list (Method * list Segment * Handler))
    (method : Method) (path : list string)
  : option (Handler * list (string * string)) :=
  match table with
  | [] => None
  | (m, pattern, handler) :: table =>
      if decide (method = m)
      then match matchPath pattern path with
           | Some params => Some (handler, params)
           | None => dispatch_in table method path
           end
      else dispatch_in table method path
  end.

Definition dispatch : Method -> list string
                      -> option (Handler * list (string * string)) :=
  dispatch_in routes.

End AlertRouter.

(** ** routes/users.js: DELETE /account *)
Module UserRoutes.

Inductive Response := Ok200 | BadRequest400 | ServerError500.

(** [user.isActive = false; user.email = `deleted_${Date.now()}_${user.email}`] *)
Definition deactivate (now : Date) (user : User.t) : User.t :=
  {| User.email := "deleted_" +:+ pretty now +:+ "_" +:+ User.email user;
     User.phone := User.phone user;
     User.coordinates := User.coordinates user;
     User.trustScore := User.trustScore user;
     User.reportCount := User.reportCount user;
     User.verificationCount := User.verificationCount user;
     User.reputation := User.reputation user;
     User.preferences := User.preferences user;
     User.fcmToken := User.fcmToken user;
     User.isActive := false |}.

(** DELETE /account.  Without a user document [user.isActive = false]
    throws, which the handler answers with 500. *)
Definition deleteAccount (now : Date) (reqUser : ObjectId) (confirmDelete : string)
    (db : Routes.Db) : Response * Routes.Db :=
  if negb (String.eqb confirmDelete "DELETE") then (BadRequest400, db)
  else match Routes.users db !! reqUser with
       | None => (ServerError500, db)
       | Some user => (Ok200, Routes.save_user reqUser (deactivate now user) db)
       end.

End UserRoutes.

(** ** client/src/contexts/SocketContext.js: the notification list *)
Module SocketContext.

Inductive Kind := new_report | verification_update | alert.

(** The fields of a notification the list operations read; [id] is
    [Date.now()] at arrival. *)
Record Notification := {
  id : Date;
  kind : Kind;
  read : bool
}.

(** What changes the list: the three socket events, with the time of
    arrival, and the three operations the context offers. *)
Inductive Event :=
  | new_fraud_report (now : Date) (fraudType : FraudType)
  | report_verified (now : Date)
  | new_alert (now : Date)
  | markNotificationRead (notificationId : Date)
  | markAllNotificationsRead
  | clearNotifications.

(** [[notification, ...prev.slice(0, 49)]] *)
Definition push (notification : Notification) (prev : list Notification)
  : list Notification :=
  notification :: take 49 prev.

(** [user.preferences?.fraudTypes?.includes(t)
     || user.preferences?.fraudTypes?.length === 0] *)
Definition subscribed (fraudTypes : option (list FraudType)) (t : FraudType) : bool :=
  match fraudTypes with
  | Some l => bool_decide (t ∈ l) || bool_decide (length l = 0%nat)
  | None => false
  end.

Definition set_read (n : Notification) : Notification :=
  {| id := id n; kind := kind n; read := true |}.

Definition handle (fraudTypes : option (list FraudType))
    (prev : list Notification) (e : Event) : list Notification :=
  match e with
  | new_fraud_report now fraudType =>
      if subscribed fraudTypes fraudType
      then push {| id := now; kind := new_report; read := false |} prev
      else prev
  | report_verified now =>
      push {| id := now; kind := verification_update; read := false |} prev
  | new_alert now =>
      push {| id := now; kind := alert; read := false |} prev
  | markNotificationRead notificationId =>
      (λ notif, if decide (id notif = notificationId) then set_read notif else notif)
        <$> prev
  | markAllNotificationsRead => set_read <$> prev
  | clearNotifications => []
  end.

(** [getUnreadCount] *)
Definition getUnreadCount (notifications : list Notification) : nat :=
  length (filter (λ notif, read notif = false) notifications).

End SocketContext.

(** ** routes/fraud.js: POST /check *)
Module FraudCheck.

Inductive CheckType := phone | email | website.
Inductive RiskLevel := low | medium | high | critical.

(** The answer without the list of the reports found, whose order among
    equal scores is the store's. *)
Record Answer := {
  isReported : bool;
  riskLevel : RiskLevel;
  trustScore : Z;
  totalReports : nat
}.

Definition score (entry : ObjectId * FraudReport.t) : Z :=
  FraudReport.trustScore (FraudReport.verification entry.2).

(** [sort({ 'verification.trustScore': -1 })] *)
Definition byTrustScore (a b : ObjectId * FraudReport.t) : Prop :=
  score b <= score a.

#[global] Instance byTrustScore_dec : RelDecision byTrustScore.
Proof. intros a b. unfold byTrustScore. apply _. Defined.

Section Check.

(** The column [evidenceData.website] of the report collection. *)
Variable websites : ObjectId -> option string.

(** What mongoose makes of the value of the request when it casts the
    filter through the setters the schema declares for the field searched:
    [trim] for all three, and [lowercase] for the email address. *)
Variable castValue : CheckType -> string -> string.

Definition searchField (type : CheckType) (entry : ObjectId * FraudReport.t)
  : option string :=
  match type with
  | phone => FraudReport.phoneNumber (FraudReport.evidenceData entry.2)
  | email => FraudReport.email (FraudReport.evidenceData entry.2)
  | website => websites entry.1
  end.

(** [FraudReport.find({ [searchField]: value, status: 'active', isPublic: true })
     .sort(...).limit(10)]; the stored field is compared with the value as
    cast; no code path gives [status] or [isPublic] another value than the
    schema default. *)
Definition find (type : CheckType) (value : string) (db : Routes.Db)
  : list (ObjectId * FraudReport.t) :=
  take 10
    (merge_sort byTrustScore
       (filter (λ entry, searchField type entry = Some (castValue type value))
               (map_to_list (Routes.reports db)))).

(** POST /check, for a request that passes validation. *)
Definition check (type : CheckType) (value : string) (db : Routes.Db) : Answer :=
  let reports := find type value db in
  let isReported := bool_decide (0 < length reports)%nat in
  let highestTrustScore :=
    match score <$> reports with
    | [] => 0
    | first :: rest => fold_left Z.max rest first
    end in
  let riskLevel :=
    if 80 <=? highestTrustScore then critical
    else if 60 <=? highestTrustScore then high
    else if 40 <=? highestTrustScore then medium
    else low in
  {| isReported := isReported; riskLevel := riskLevel;
     trustScore := highestTrustScore; totalReports := length reports |}.

End Check.

End FraudCheck.

(** ** JavaScript numbers as IEEE 754 binary64 *)
Module Number.

Definition of_Z (z : Z) : spec_float := binary_normalize 53 1024 z 0 false.

Definition zero : spec_float := S754_zero false.

Definition add : spec_float -> spec_float -> spec_float := SFadd 53 1024.
Definition mul : spec_float -> spec_float -> spec_float := SFmul 53 1024.
Definition div : spec_float -> spec_float -> spec_float := SFdiv 53 1024.

(** [x > y], [x >= y] and [x <= y]; all three are false on [NaN]. *)
Definition gt (x y : spec_float) : bool := SFltb y x.
Definition ge (x y : spec_float) : bool := SFleb y x.
Definition le (x y : spec_float) : bool := SFleb x y.

(** The number a finite double stands for. *)
Definition value (s : bool) (m : positive) (e : Z) : Q :=
  (inject_Z (if s then Zneg m else Zpos m) * 2 ^ e)%Q.

(** [Math.round]: the nearest integer of the number itself, ties going up;
    zeros, infinities and [NaN] are returned as they are, and a negative
    number that rounds to zero gives the negative zero. *)
Definition Math_round (x : spec_float) : spec_float :=
  match x with
  | S754_finite s m e =>
      let n := JS.Math_round (value s m e) in
      if n =? 0 then S754_zero s else of_Z n
  | _ => x
  end.

End Number.

(** ** models/FraudReport.js: [calculateTrustScore] in double precision

    The method once more, with the arithmetic of the source: weights, sums,
    quotient and product are doubles.  [FraudReport.calculateTrustScore]
    above is its idealisation in exact rationals. *)
Module TrustScore.

(** What the method assigns: [this.verification.trustScore] and
    [this.verification.status]. *)
Record Assigned := {
  trustScore : spec_float;
  status : FraudReport.VerificationStatus
}.

(** [verification.user.trustScore / 100] *)
Definition voterWeight (populated : gmap ObjectId User.t)
    (e : FraudReport.VerifiedBy) : option spec_float :=
  score ← FraudReport.resolved populated e;
  Some (Number.div (Number.of_Z score) (Number.of_Z 100)).

(** The body of the [forEach]; the accumulator is
    [(weightedConfirm, weightedDeny, totalWeight)]. *)
Definition accumulate (populated : gmap ObjectId User.t)
    (acc : spec_float * spec_float * spec_float) (e : FraudReport.VerifiedBy)
  : spec_float * spec_float * spec_float :=
  let '(weightedConfirm, weightedDeny, totalWeight) := acc in
  match voterWeight populated e with
  | Some weight =>
      let totalWeight := Number.add totalWeight weight in
      match FraudReport.vote e with
      | FraudReport.confirm =>
          (Number.add weightedConfirm weight, weightedDeny, totalWeight)
      | FraudReport.deny =>
          (weightedConfirm, Number.add weightedDeny weight, totalWeight)
      | FraudReport.uncertain => (weightedConfirm, weightedDeny, totalWeight)
      end
  | None => acc
  end.

Definition status_of (score : spec_float) : FraudReport.VerificationStatus :=
  if Number.ge score (Number.of_Z 80) then FraudReport.verified
  else if Number.le score (Number.of_Z 20) then FraudReport.disputed
  else FraudReport.pending.

(** [fraudReportSchema.methods.calculateTrustScore] *)
Definition calculateTrustScore (populated : gmap ObjectId User.t)
    (this : FraudReport.t) : Assigned :=
  let v := FraudReport.verification this in
  if FraudReport.verificationCount v =? 0 then
    {| trustScore := Number.of_Z 30; status := FraudReport.status v |}
  else
    let confirmVotes :=
      length (filter (λ e, FraudReport.vote e = FraudReport.confirm)
                     (FraudReport.verifiedBy v)) in
    let totalVotes := FraudReport.verificationCount v in
    let '(weightedConfirm, weightedDeny, totalWeight) :=
      fold_left (accumulate populated) (FraudReport.verifiedBy v)
                (Number.zero, Number.zero, Number.zero) in
    let score :=
      if Number.gt totalWeight Number.zero then
        Number.Math_round
          (Number.mul (Number.div weightedConfirm totalWeight) (Number.of_Z 100))
      else
        Number.Math_round
          (Number.mul (Number.div (Number.of_Z (Z.of_nat confirmVotes))
                                  (Number.of_Z totalVotes))
                      (Number.of_Z 100)) in
    {| trustScore := score; status := status_of score |}.

(** *** The formula of the specification, evaluated in doubles *)

(** "for every verification entry whose voter has a known trustScore,
    weight = voterTrustScore/100"; a voter whose score is 0 weighs
    nothing. *)
Definition weights (known : gmap ObjectId User.t)
    (l : list FraudReport.VerifiedBy) : list spec_float :=
  omap (λ e, score ← FraudReport.resolved known e;
             Some (Number.div (Number.of_Z score) (Number.of_Z 100))) l.

(** A sum in the order of the list. *)
Definition sum (l : list spec_float) : spec_float :=
  fold_left Number.add l Number.zero.

Definition weightedConfirm (known : gmap ObjectId User.t)
    (report : FraudReport.t) : spec_float :=
  sum (weights known
         (filter (λ e, FraudReport.vote e = FraudReport.confirm)
                 (FraudReport.verifiedBy (FraudReport.verification report)))).

Definition totalWeight (known : gmap ObjectId User.t)
    (report : FraudReport.t) : spec_float :=
  sum (weights known (FraudReport.verifiedBy (FraudReport.verification report))).

Definition confirmCount (report : FraudReport.t) : Z :=
  Z.of_nat (length (filter (λ e, FraudReport.vote e = FraudReport.confirm)
                     (FraudReport.verifiedBy (FraudReport.verification report)))).

(** "trustScore >= 80 -> verified; trustScore <= 20 -> disputed; else pending" *)
Definition statusFor (score : spec_float) : FraudReport.VerificationStatus :=
  if Number.ge score (Number.of_Z 80) then FraudReport.verified
  else if Number.le score (Number.of_Z 20) then FraudReport.disputed
  else FraudReport.pending.

(** Five voters with the trust scores 82, 72, 78, 78 and 90, as
    [updateTrustScore] gives them for 10, 5, 8, 8 and 14 reports and 4
    verifications each; the first denies, the others confirm. *)
Definition fiveVoters : gmap ObjectId User.t :=
  <[1%N := Examples.member "v1@example.org" None Examples.origin 82 10 4 10%R]>
  (<[2%N := Examples.member "v2@example.org" None Examples.origin 72 5 4 10%R]>
  (<[3%N := Examples.member "v3@example.org" None Examples.origin 78 8 4 10%R]>
  (<[4%N := Examples.member "v4@example.org" None Examples.origin 78 8 4 10%R]>
  (<[5%N := Examples.member "v5@example.org" None Examples.origin 90 14 4 10%R]>
   ∅)))).

Definition fiveVotes : FraudReport.t :=
  Routes.applyVote 5%N FraudReport.confirm None 5000
    (Routes.applyVote 4%N FraudReport.confirm None 4000
       (Routes.applyVote 3%N FraudReport.confirm None 3000
          (Routes.applyVote 2%N FraudReport.confirm None 2000
             (Routes.applyVote 1%N FraudReport.deny None 1000
                Examples.freshReport)))).

(** Forty votes by voters without a user document, the first 23 of them
    confirming. *)
Definition fortyUnresolved : FraudReport.t :=
  FraudReport.set_verification Examples.freshReport
    {| FraudReport.trustScore := 0;
       FraudReport.verificationCount := 40;
       FraudReport.verifiedBy :=
         (λ i, {| FraudReport.user := N.of_nat (100 + i);
                  FraudReport.vote :=
                    if (i <? 23)%nat then FraudReport.confirm
                    else FraudReport.deny;
                  FraudReport.comment := None;
                  FraudReport.verifiedAt := 1000 |}) <$> seq 0 40;
       FraudReport.status := FraudReport.pending |}.

End TrustScore.

(** ** routes/alerts.js: the routes on /:id, from the path segment *)
Module AlertRequest.

Section Cast.

(** Mongoose's cast of [req.params.id] to the [_id] of the alert
    collection.  [None] stands for a segment that is no ObjectId: the query
    then throws a [CastError], which the handler catches and answers
    with 500. *)
Variable castObjectId : string -> option nat.

(** GET /:id *)
Definition getAlert (reqUser : ObjectId) (id : string) (s : AlertRoutes.Store)
  : AlertRoutes.Response (Alert.t * option FraudReport.t) :=
  match castObjectId id with
  | None => AlertRoutes.ServerError500
  | Some _id => AlertRoutes.getAlert reqUser _id s
  end.

(** PUT /:id/read *)
Definition putRead (now : Date) (reqUser : ObjectId) (id : string)
    (s : AlertRoutes.Store) : AlertRoutes.Response unit * AlertRoutes.Store :=
  match castObjectId id with
  | None => (AlertRoutes.ServerError500, s)
  | Some _id => AlertRoutes.putRead now reqUser _id s
  end.

(** DELETE /:id *)
Definition deleteAlert (reqUser : ObjectId) (id : string) (s : AlertRoutes.Store)
  : AlertRoutes.Response unit * AlertRoutes.Store :=
  match castObjectId id with
  | None => (AlertRoutes.ServerError500, s)
  | Some _id => AlertRoutes.deleteAlert reqUser _id s
  end.

End Cast.

End AlertRequest.

(** * Verification *)

(** ** Reputation (models/User.js) *)

Lemma updateTrustScore_score (u : User.t) :
  User.trustScore (User.updateTrustScore u)
  = Spec.reputationScore (User.reportCount u) (User.verificationCount u).
Proof. reflexivity. Qed.

Lemma reputationScore_bounds (r v : Z) :
  0 <= r → 0 <= v → 50 <= Spec.reputationScore r v <= 100.
Proof. unfold Spec.reputationScore. lia. Qed.

Lemma reputationScore_mono (r r' v v' : Z) :
  r <= r' → v <= v' → Spec.reputationScore r v <= Spec.reputationScore r' v'.
Proof. unfold Spec.reputationScore. lia. Qed.

Lemma updateTrustScore_tier (u : User.t) :
  User.reputation (User.updateTrustScore u)
  = Spec.tier (User.trustScore (User.updateTrustScore u)).
Proof.
  unfold User.updateTrustScore, Spec.tier.
  cbn [User.reputation User.trustScore].
  generalize (Z.min (50 + Z.min (User.reportCount u * 2) 30
                        + Z.min (User.verificationCount u * 3) 40) 100).
  intros s.
  destruct (Z.leb_spec 90 s), (Z.leb_spec 75 s), (Z.leb_spec 60 s);
    repeat case_decide; try reflexivity; lia.
Qed.

(** C9: for non-negative counters, [updateTrustScore] sets
    [trustScore = min(50 + min(reportCount*2, 30) + min(verificationCount*3, 40), 100)];
    the score never exceeds 100, it does not decrease when either counter
    grows, and the tier is expert from 90, verified from 75, trusted from 60
    and new below. *)
Theorem C9_reputation_formula (u : User.t) :
  0 <= User.reportCount u →
  0 <= User.verificationCount u →
  let u' := User.updateTrustScore u in
  User.trustScore u'
  = Z.min (50 + Z.min (User.reportCount u * 2) 30
              + Z.min (User.verificationCount u * 3) 40) 100
  ∧ User.trustScore u' <= 100
  ∧ (∀ w : User.t,
       User.reportCount u <= User.reportCount w →
       User.verificationCount u <= User.verificationCount w →
       User.trustScore u' <= User.trustScore (User.updateTrustScore w))
  ∧ (User.reputation u' = User.expert ↔ 90 <= User.trustScore u')
  ∧ (User.reputation u' = User.verified ↔ 75 <= User.trustScore u' < 90)
  ∧ (User.reputation u' = User.trusted ↔ 60 <= User.trustScore u' < 75)
  ∧ (User.reputation u' = User.new ↔ User.trustScore u' < 60).
Proof.
  intros Hr Hv u'. subst u'.
  split; [reflexivity|].
  split; [rewrite updateTrustScore_score; unfold Spec.reputationScore; lia|].
  split.
  - intros w H1 H2. rewrite !updateTrustScore_score.
    by apply reputationScore_mono.
  - rewrite updateTrustScore_tier. unfold Spec.tier.
    repeat case_decide; repeat split; intros; try discriminate; try lia;
      reflexivity.
Qed.

Lemma C9_reputation_formula_witness :
  let u := User.updateTrustScore Examples.voterA in
  User.trustScore u = 80 ∧ User.reputation u = User.verified.
Proof.
  destruct (C9_reputation_formula Examples.voterA)
    as (Hs & _ & _ & _ & Hv & _); [simpl; lia | simpl; lia |].
  split; [reflexivity | apply Hv; change (75 <= 80 < 90); lia].
Defined.

Lemma weight_of_score (populated : gmap ObjectId User.t)
    (e : FraudReport.VerifiedBy) (voter : User.t) :
  populated !! FraudReport.user e = Some voter →
  User.trustScore voter ≠ 0 →
  FraudReport.voterWeight populated e
  = Some (inject_Z (User.trustScore voter) / 100)%Q.
Proof.
  intros Hl Hs. unfold FraudReport.voterWeight, FraudReport.resolved.
  rewrite Hl. destruct (Z.eqb_spec (User.trustScore voter) 0); [done|].
  reflexivity.
Qed.

Lemma half_le_weight (score : Z) : 50 <= score → (1 # 2 <= inject_Z score / 100)%Q.
Proof.
  intros H. unfold Qle, Qdiv, Qmult, Qinv, inject_Z; simpl. lia.
Qed.

(** C10: for non-negative counters the recomputed user trust score is at
    least 50, hence in [50,100], and a voter carrying such a score enters
    the weighted report score with a weight of at least 1/2. *)
Theorem C10_reputation_floor (u : User.t) :
  0 <= User.reportCount u →
  0 <= User.verificationCount u →
  50 <= User.trustScore (User.updateTrustScore u) <= 100
  ∧ ∀ (populated : gmap ObjectId User.t) (e : FraudReport.VerifiedBy),
      populated !! FraudReport.user e = Some (User.updateTrustScore u) →
      ∃ w, FraudReport.voterWeight populated e = Some w ∧ (1 # 2 <= w)%Q.
Proof.
  intros Hr Hv.
  assert (50 <= User.trustScore (User.updateTrustScore u) <= 100) as Hb
    by (rewrite updateTrustScore_score; by apply reputationScore_bounds).
  split; [exact Hb|].
  intros populated e Hl. eexists. split.
  - apply (weight_of_score _ _ _ Hl). lia.
  - apply half_le_weight. lia.
Qed.

Lemma C10_reputation_floor_witness :
  50 <= User.trustScore (User.updateTrustScore Examples.voterB) <= 100.
Proof.
  apply (C10_reputation_floor Examples.voterB); simpl; lia.
Defined.

(** ** Channel routing (models/Alert.js) *)

Lemma shouldSendViaChannel_spec (alert : Alert.t) (prefs : User.Preferences)
    (channel : Channel.t) :
  Alert.shouldSendViaChannel alert channel prefs = true
  ↔ Spec.eligible alert prefs channel.
Proof.
  unfold Alert.shouldSendViaChannel, Spec.eligible.
  destruct (User.notifications prefs channel); simpl;
    [|split; [discriminate | intros [? _]; discriminate]].
  destruct (Alert.sent (Alert.channels alert channel)); simpl;
    [split; [discriminate | intros (_ & ? & _); discriminate]|].
  repeat case_bool_decide; simpl; split; try done; try tauto.
Qed.

(** C8: a channel is eligible exactly when the recipient enabled it, the
    alert's state for it is still not sent, and, for SMS, the severity is
    not low; so SMS is never eligible for a low alert, and a channel that
    is or has just been marked sent is not eligible again. *)
Theorem C8_channel_eligibility (alert : Alert.t) (prefs : User.Preferences)
    (channel : Channel.t) :
  (Alert.shouldSendViaChannel alert channel prefs = true
   ↔ User.notifications prefs channel = true
     ∧ Alert.sent (Alert.channels alert channel) = false
     ∧ (channel = Channel.sms → Alert.severity alert ≠ Alert.low))
  ∧ (Alert.severity alert = Alert.low →
     Alert.shouldSendViaChannel alert Channel.sms prefs = false)
  ∧ (Alert.sent (Alert.channels alert channel) = true →
     Alert.shouldSendViaChannel alert channel prefs = false)
  ∧ (∀ now : Date,
       Alert.shouldSendViaChannel (Alert.mark_sent alert channel now) channel prefs
       = false).
Proof.
  split; [apply shouldSendViaChannel_spec|].
  split; [|split].
  - intros Hlow. apply not_true_is_false. intros H.
    apply shouldSendViaChannel_spec in H as (_ & _ & H). by apply H.
  - intros Hsent. apply not_true_is_false. intros H.
    apply shouldSendViaChannel_spec in H as (_ & H & _). congruence.
  - intros now. apply not_true_is_false. intros H.
    apply shouldSendViaChannel_spec in H as (_ & H & _).
    simpl in H. by rewrite decide_True in H.
Qed.

Lemma C8_channel_eligibility_witness :
  let alert :=
    Alert.create 1%N 2%N Alert.proximity "🚨 Fraud Alert Nearby" Alert.low
      {| Alert.distance := None; Alert.phoneNumber := None; Alert.email := None |} in
  let prefs := User.preferences Examples.voterA in
  Alert.shouldSendViaChannel alert Channel.sms (User.preferences Examples.voterA)
  = false
  ∧ Alert.shouldSendViaChannel alert Channel.push prefs = true.
Proof.
  intros alert prefs. split.
  - destruct (C8_channel_eligibility alert prefs Channel.sms) as (_ & H & _).
    apply H. reflexivity.
  - destruct (C8_channel_eligibility alert prefs Channel.push) as (H & _).
    apply H. split; [reflexivity | split; [reflexivity | discriminate]].
Defined.

(** ** Report trust score (models/FraudReport.js) *)

Lemma Qsum_cons (x : Q) (l : list Q) : Spec.Qsum (x :: l) = (x + Spec.Qsum l)%Q.
Proof. reflexivity. Qed.

(** A voter the code skips weighs nothing in the specification's sums
    either: either the voter is unknown, or its score is zero. *)
Lemma voterWeight_spec (populated : gmap ObjectId User.t)
    (e : FraudReport.VerifiedBy) :
  match FraudReport.voterWeight populated e with
  | Some w => w = Spec.weight populated e
  | None => (Spec.weight populated e == 0)%Q
  end.
Proof.
  unfold FraudReport.voterWeight, FraudReport.resolved, Spec.weight.
  destruct (populated !! FraudReport.user e) as [u|]; simpl; [|reflexivity].
  destruct (Z.eqb_spec (User.trustScore u) 0) as [->|]; simpl; reflexivity.
Qed.

(** The accumulators of the [forEach] are the sums the specification
    names, on top of their initial values. *)
Lemma fold_accumulate (populated : gmap ObjectId User.t)
    (l : list FraudReport.VerifiedBy) (acc : Q * Q * Q) :
  let out := fold_left (FraudReport.accumulate populated) l acc in
  (out.1.1 == acc.1.1 + Spec.Qsum (Spec.weight populated <$>
               filter (λ e, FraudReport.vote e = FraudReport.confirm) l))%Q
  ∧ (out.2 == acc.2 + Spec.Qsum (Spec.weight populated <$> l))%Q.
Proof.
  revert acc. induction l as [|e l IH]; intros [[wc wd] tw].
  - simpl. split; ring.
  - cbn [fold_left].
    specialize (IH (FraudReport.accumulate populated (wc, wd, tw) e)).
    destruct IH as [IH1 IH2]. cbn zeta in IH1, IH2. rewrite IH1, IH2.
    clear IH1 IH2.
    unfold FraudReport.accumulate.
    pose proof (voterWeight_spec populated e) as Hw.
    rewrite filter_cons, fmap_cons.
    destruct (FraudReport.voterWeight populated e) as [w|];
      [subst w|]; destruct (FraudReport.vote e) eqn:Hv;
      case_decide; try congruence; cbn [fst snd];
      rewrite ?fmap_cons, ?Qsum_cons, ?Hw; split; ring.
Qed.

Lemma status_of_statusFor (score : Z) :
  FraudReport.status_of score = Spec.statusFor score.
Proof.
  unfold FraudReport.status_of, Spec.statusFor.
  destruct (Z.leb_spec 80 score), (Z.leb_spec score 20);
    repeat case_decide; try reflexivity; lia.
Qed.

Lemma Math_round_proper (x y : Q) : (x == y)%Q → JS.Math_round x = JS.Math_round y.
Proof. intros H. unfold JS.Math_round. by rewrite H. Qed.

Lemma div_nonzero (a b : Q) : ¬ (b == 0)%Q → JS.div a b = Some (a / b)%Q.
Proof.
  intros Hb. unfold JS.div.
  destruct (Qeq_bool b 0) eqn:E; [|reflexivity].
  by apply Qeq_bool_iff in E.
Qed.

Lemma inject_Z_nonzero (z : Z) : z ≠ 0 → ¬ (inject_Z z == 0)%Q.
Proof. unfold Qeq, inject_Z; simpl. lia. Qed.

(** What [calculateTrustScore] stores, in the specification's terms: the
    method never meets a zero divisor, and its score is
    [Spec.computeTrustScore]. *)
Lemma calculateTrustScore_refines (populated : gmap ObjectId User.t)
    (this : FraudReport.t) :
  let v := FraudReport.verification this in
  let score := Spec.computeTrustScore populated this in
  FraudReport.calculateTrustScore populated this
  = Some (FraudReport.set_verification this
            {| FraudReport.trustScore := score;
               FraudReport.verificationCount := FraudReport.verificationCount v;
               FraudReport.verifiedBy := FraudReport.verifiedBy v;
               FraudReport.status :=
                 if decide (FraudReport.verificationCount v = 0)
                 then FraudReport.status v else Spec.statusFor score |}).
Proof.
  intros v score. subst score.
  unfold FraudReport.calculateTrustScore, Spec.computeTrustScore. fold v.
  destruct (Z.eqb_spec (FraudReport.verificationCount v) 0) as [E|E];
    case_decide; try done.
  pose proof (fold_accumulate populated (FraudReport.verifiedBy v) (0, 0, 0)%Q)
    as [Hc Ht].
  destruct (fold_left _ _ _) as [[wc wd] tw]. cbn [fst snd] in Hc, Ht.
  rewrite Qplus_0_l in Hc, Ht.
  change (wc == Spec.weightedConfirm populated this)%Q in Hc.
  change (tw == Spec.totalWeight populated this)%Q in Ht.
  destruct (Qlt_le_dec 0 tw) as [Hpos|Hle];
    destruct (Qlt_le_dec 0 (Spec.totalWeight populated this)) as [Hpos'|Hle'].
  - rewrite div_nonzero by (intros E0; rewrite E0 in Hpos; by apply Qlt_irrefl in Hpos).
    cbn [mbind option_bind].
    rewrite status_of_statusFor.
    rewrite (Math_round_proper (wc / tw * 100)
               (100 * Spec.weightedConfirm populated this
                / Spec.totalWeight populated this)); [reflexivity|].
    rewrite Hc, Ht. field. intros E0. rewrite E0 in Hpos'.
    by apply Qlt_irrefl in Hpos'.
  - exfalso. rewrite Ht in Hpos. by apply Qlt_not_le in Hpos.
  - exfalso. rewrite <- Ht in Hpos'. by apply Qlt_not_le in Hpos'.
  - rewrite div_nonzero by by apply inject_Z_nonzero.
    cbn [mbind option_bind].
    rewrite status_of_statusFor.
    rewrite (Math_round_proper
               (inject_Z (Z.of_nat (length (filter
                  (λ e, FraudReport.vote e = FraudReport.confirm)
                  (FraudReport.verifiedBy v))))
                / inject_Z (FraudReport.verificationCount v) * 100)
               (100 * inject_Z (Spec.confirmCount this)
                / inject_Z (FraudReport.verificationCount v))); [reflexivity|].
    unfold Spec.confirmCount, Spec.entries. fold v. field.
    by apply inject_Z_nonzero.
Qed.

Lemma weight_nonneg (populated : gmap ObjectId User.t)
    (e : FraudReport.VerifiedBy) :
  map_Forall (λ _ u, User.schema_ok u) populated →
  (0 <= Spec.weight populated e)%Q.
Proof.
  intros Hok. unfold Spec.weight.
  destruct (populated !! FraudReport.user e) as [u|] eqn:E; [|apply Qle_refl].
  apply Hok in E. destruct E as [E _].
  unfold Qle, Qdiv, Qmult, Qinv, inject_Z; simpl. lia.
Qed.

Lemma Qsum_weights (populated : gmap ObjectId User.t)
    (l : list FraudReport.VerifiedBy) :
  map_Forall (λ _ u, User.schema_ok u) populated →
  (0 <= Spec.Qsum (Spec.weight populated <$>
         filter (λ e, FraudReport.vote e = FraudReport.confirm) l)
   <= Spec.Qsum (Spec.weight populated <$> l))%Q.
Proof.
  intros Hok. induction l as [|e l [IH1 IH2]]; [split; apply Qle_refl|].
  pose proof (weight_nonneg populated e Hok) as He.
  rewrite filter_cons. case_decide; rewrite ?fmap_cons, ?Qsum_cons; split; lra.
Qed.

Lemma confirmCount_bounds (report : FraudReport.t) :
  0 <= Spec.confirmCount report <= Z.of_nat (length (Spec.entries report)).
Proof.
  unfold Spec.confirmCount. split; [lia|].
  apply inj_le, length_filter.
Qed.

Lemma Math_round_bounds (x : Q) :
  (0 <= x <= 100)%Q → 0 <= JS.Math_round x <= 100.
Proof.
  intros [H0 H1]. unfold JS.Math_round. split.
  - change 0 with (Qfloor (1 # 2)). apply Qfloor_resp_le. lra.
  - change 100 with (Qfloor (201 # 2)). apply Qfloor_resp_le. lra.
Qed.

Lemma percent_bounds (a b : Q) :
  (0 <= a <= b)%Q → (0 < b)%Q → (0 <= 100 * a / b <= 100)%Q.
Proof.
  intros [Ha Hab] Hb. split.
  - apply Qle_shift_div_l; [exact Hb | lra].
  - apply Qle_shift_div_r; [exact Hb | lra].
Qed.

Lemma computeTrustScore_bounds (populated : gmap ObjectId User.t)
    (report : FraudReport.t) :
  Spec.counted report →
  map_Forall (λ _ u, User.schema_ok u) populated →
  0 <= Spec.computeTrustScore populated report <= 100.
Proof.
  intros Hc Hok. unfold Spec.computeTrustScore.
  case_decide as Hz; [lia|].
  destruct (Qlt_le_dec _ _) as [Hpos|_].
  - apply Math_round_bounds, percent_bounds; [|exact Hpos].
    apply Qsum_weights, Hok.
  - apply Math_round_bounds, percent_bounds.
    + pose proof (confirmCount_bounds report) as [H0 H1].
      rewrite <- Hc in H1.
      split; [change 0%Q with (inject_Z 0)|]; rewrite <- Zle_Qle; lia.
    + pose proof (confirmCount_bounds report) as [H0 H1].
      rewrite <- Hc in H1. change 0%Q with (inject_Z 0). rewrite <- Zlt_Qlt. lia.
Qed.


Lemma unresolved_skipped (populated : gmap ObjectId User.t)
    (e : FraudReport.VerifiedBy) (acc : Q * Q * Q) :
  FraudReport.resolved populated e = None →
  FraudReport.accumulate populated acc e = acc.
Proof.
  intros H. destruct acc as [[wc wd] tw].
  unfold FraudReport.accumulate, FraudReport.voterWeight. by rewrite H.
Qed.

Lemma unresolved_weight (populated : gmap ObjectId User.t)
    (e : FraudReport.VerifiedBy) :
  FraudReport.resolved populated e = None → (Spec.weight populated e == 0)%Q.
Proof.
  intros H. pose proof (voterWeight_spec populated e) as Hw.
  unfold FraudReport.voterWeight in Hw. by rewrite H in Hw.
Qed.

Lemma unresolved_totalWeight (populated : gmap ObjectId User.t)
    (report : FraudReport.t) :
  (∀ e, e ∈ Spec.entries report → FraudReport.resolved populated e = None) →
  (Spec.totalWeight populated report == 0)%Q.
Proof.
  unfold Spec.totalWeight. induction (Spec.entries report) as [|e l IH]; intros H.
  - reflexivity.
  - rewrite fmap_cons, Qsum_cons, IH, unresolved_weight.
    + ring.
    + apply H. left.
    + intros e' He'. apply H. by right.
Qed.

Lemma fold_accumulate_resolved (populated : gmap ObjectId User.t)
    (l : list FraudReport.VerifiedBy) (acc : Q * Q * Q) :
  fold_left (FraudReport.accumulate populated) l acc
  = fold_left (FraudReport.accumulate populated)
      (filter (λ e, is_Some (FraudReport.resolved populated e)) l) acc.
Proof.
  revert acc. induction l as [|e l IH]; intros acc; [reflexivity|].
  rewrite filter_cons. case_decide as He; cbn [fold_left].
  - apply IH.
  - rewrite unresolved_skipped; [apply IH|].
    by destruct (FraudReport.resolved populated e); [destruct He|].
Qed.

Lemma totalWeight_pos_voted (populated : gmap ObjectId User.t)
    (report : FraudReport.t) :
  Spec.counted report →
  (0 < Spec.totalWeight populated report)%Q →
  FraudReport.verificationCount (FraudReport.verification report) ≠ 0.
Proof.
  unfold Spec.counted, Spec.totalWeight. intros -> Hpos.
  destruct (Spec.entries report); [|simpl; lia].
  by apply Qlt_irrefl in Hpos.
Qed.

(** *** The trust score in double precision *)

Lemma fold_accumulate_double (populated : gmap ObjectId User.t)
    (l : list FraudReport.VerifiedBy) (wc wd tw : spec_float) :
  fold_left (TrustScore.accumulate populated) l (wc, wd, tw)
  = (fold_left Number.add
       (TrustScore.weights populated
          (filter (λ e, FraudReport.vote e = FraudReport.confirm) l)) wc,
     fold_left Number.add
       (TrustScore.weights populated
          (filter (λ e, FraudReport.vote e = FraudReport.deny) l)) wd,
     fold_left Number.add (TrustScore.weights populated l) tw).
Proof.
  revert wc wd tw. induction l as [|e l IH]; intros wc wd tw; [reflexivity|].
  cbn [fold_left]. unfold TrustScore.accumulate at 2.
  unfold TrustScore.voterWeight, TrustScore.weights.
  rewrite !filter_cons.
  destruct (FraudReport.resolved populated e) as [score|] eqn:Hres;
    cbn [mbind option_bind].
  - destruct (FraudReport.vote e) eqn:Hv;
      rewrite IH; unfold TrustScore.weights;
      repeat (case_decide; try discriminate; try congruence);
      cbn [omap list_omap]; rewrite Hres; cbn [mbind option_bind fold_left];
      reflexivity.
  - rewrite IH. unfold TrustScore.weights.
    repeat case_decide; cbn [omap list_omap]; rewrite ?Hres;
      cbn [mbind option_bind]; reflexivity.
Qed.

Lemma calculateTrustScore_double (populated : gmap ObjectId User.t)
    (report : FraudReport.t) :
  FraudReport.verificationCount (FraudReport.verification report) <> 0 ->
  TrustScore.calculateTrustScore populated report
  = let score :=
      if Number.gt (TrustScore.totalWeight populated report) Number.zero
      then Number.Math_round
             (Number.mul
                (Number.div (TrustScore.weightedConfirm populated report)
                            (TrustScore.totalWeight populated report))
                (Number.of_Z 100))
      else Number.Math_round
             (Number.mul
                (Number.div
                   (Number.of_Z (TrustScore.confirmCount report))
                   (Number.of_Z (FraudReport.verificationCount
                                   (FraudReport.verification report))))
                (Number.of_Z 100)) in
    {| TrustScore.trustScore := score;
       TrustScore.status := TrustScore.statusFor score |}.
Proof.
  intros Hv. unfold TrustScore.calculateTrustScore. cbn zeta.
  destruct (Z.eqb_spec (FraudReport.verificationCount
                          (FraudReport.verification report)) 0) as [E|_];
    [contradiction|].
  rewrite fold_accumulate_double. reflexivity.
Qed.

(** C3, counterexample: the exact formula of the specification does not
    describe the code: for the voters 82 (deny), 72, 78, 78 and 90 (confirm) the quotient of
    the weights is 79.5 per cent, so [round(100 * weightedConfirm /
    totalWeight)] is 80 and the derived status verified, while the doubles
    of the code give 79.49999999999999: the method stores 79 and the status
    pending. *)
Theorem C3_exact_formula_refuted :
  Spec.counted TrustScore.fiveVotes
  /\ (0 < Spec.totalWeight TrustScore.fiveVoters TrustScore.fiveVotes)%Q
  /\ JS.Math_round (100 * Spec.weightedConfirm TrustScore.fiveVoters
                            TrustScore.fiveVotes
                    / Spec.totalWeight TrustScore.fiveVoters TrustScore.fiveVotes)
     = 80
  /\ Spec.statusFor 80 = FraudReport.verified
  /\ TrustScore.trustScore
       (TrustScore.calculateTrustScore TrustScore.fiveVoters TrustScore.fiveVotes)
     = Number.of_Z 79
  /\ TrustScore.status
       (TrustScore.calculateTrustScore TrustScore.fiveVoters TrustScore.fiveVotes)
     = FraudReport.pending
  /\ Number.of_Z 79 <> Number.of_Z 80.
Proof.
  split; [reflexivity|]. split; [vm_compute; reflexivity|].
  split; [vm_compute; reflexivity|]. split; [reflexivity|].
  split; [vm_compute; reflexivity|]. split; [vm_compute; reflexivity|].
  vm_compute. discriminate.
Qed.

(** C3 (amended): the method computes in double precision.  On a report
    with a non-zero counter whose known voters carry a total weight above
    zero, it stores [Math.round((weightedConfirm / totalWeight) * 100)],
    where each known voter weighs the double [trustScore / 100],
    [weightedConfirm] is the sum, in the order of the entries, of the
    weights of the confirm votes and [totalWeight] that of all known
    voters; the status follows from the stored score; an uncertain vote
    raises only [totalWeight].  Voters A (80, confirm) and B (40, deny) give
    67 and status pending. *)
Theorem C3_weighted_trust_score_in_doubles :
  (forall (populated : gmap ObjectId User.t) (report : FraudReport.t),
     FraudReport.verificationCount (FraudReport.verification report) <> 0 ->
     Number.gt (TrustScore.totalWeight populated report) Number.zero = true ->
     TrustScore.trustScore (TrustScore.calculateTrustScore populated report)
     = Number.Math_round
         (Number.mul
            (Number.div (TrustScore.weightedConfirm populated report)
                        (TrustScore.totalWeight populated report))
            (Number.of_Z 100))
     /\ TrustScore.status (TrustScore.calculateTrustScore populated report)
        = TrustScore.statusFor
            (TrustScore.trustScore
               (TrustScore.calculateTrustScore populated report)))
  /\ (forall (populated : gmap ObjectId User.t) (e : FraudReport.VerifiedBy)
        (w wc wd tw : spec_float),
        TrustScore.voterWeight populated e = Some w ->
        FraudReport.vote e = FraudReport.uncertain ->
        TrustScore.accumulate populated (wc, wd, tw) e
        = (wc, wd, Number.add tw w))
  /\ TrustScore.trustScore
       (TrustScore.calculateTrustScore Examples.votersAB Examples.reportAB)
     = Number.of_Z 67
  /\ TrustScore.status
       (TrustScore.calculateTrustScore Examples.votersAB Examples.reportAB)
     = FraudReport.pending.
Proof.
  split; [|split; [|split]].
  - intros populated report Hv Hpos.
    rewrite (calculateTrustScore_double populated report Hv). cbn zeta.
    rewrite Hpos. split; reflexivity.
  - intros populated e w wc wd tw Hw Hu.
    unfold TrustScore.accumulate. now rewrite Hw, Hu.
  - vm_compute. reflexivity.
  - vm_compute. reflexivity.
Qed.

(** A confirms with weight 0.8, B denies with weight 0.4: the doubles give
    0.8 / 1.2000000000000002 * 100, which rounds to 67. *)
Lemma C3_weighted_trust_score_in_doubles_witness :
  TrustScore.trustScore
    (TrustScore.calculateTrustScore Examples.votersAB Examples.reportAB)
  = Number.Math_round
      (Number.mul
         (Number.div
            (Number.div (Number.of_Z 80) (Number.of_Z 100))
            (Number.add (Number.div (Number.of_Z 80) (Number.of_Z 100))
                        (Number.div (Number.of_Z 40) (Number.of_Z 100))))
         (Number.of_Z 100)).
Proof.
  destruct C3_weighted_trust_score_in_doubles as [H _].
  destruct (H Examples.votersAB Examples.reportAB) as [Hs _].
  - vm_compute. discriminate.
  - vm_compute. reflexivity.
  - rewrite Hs. vm_compute. reflexivity.
Defined.

Lemma weights_unresolved (populated : gmap ObjectId User.t)
    (l : list FraudReport.VerifiedBy) :
  (forall e, e ∈ l -> FraudReport.resolved populated e = None) ->
  TrustScore.weights populated l = [].
Proof.
  induction l as [|e l IH]; intros H; [reflexivity|].
  unfold TrustScore.weights. cbn [omap list_omap].
  rewrite (H e) by left. cbn [mbind option_bind].
  apply IH. intros e' He'. apply H. now right.
Qed.

Lemma accumulate_double_unresolved (populated : gmap ObjectId User.t)
    (e : FraudReport.VerifiedBy) (acc : spec_float * spec_float * spec_float) :
  FraudReport.resolved populated e = None ->
  TrustScore.accumulate populated acc e = acc.
Proof.
  intros H. destruct acc as [[wc wd] tw].
  unfold TrustScore.accumulate, TrustScore.voterWeight. now rewrite H.
Qed.

Lemma fold_accumulate_double_resolved (populated : gmap ObjectId User.t)
    (l : list FraudReport.VerifiedBy) (acc : spec_float * spec_float * spec_float) :
  fold_left (TrustScore.accumulate populated) l acc
  = fold_left (TrustScore.accumulate populated)
      (filter (λ e, is_Some (FraudReport.resolved populated e)) l) acc.
Proof.
  revert acc. induction l as [|e l IH]; intros acc; [reflexivity|].
  rewrite filter_cons. case_decide as He; cbn [fold_left].
  - apply IH.
  - rewrite accumulate_double_unresolved; [apply IH|].
    destruct (FraudReport.resolved populated e); [destruct He; eauto | reflexivity].
Qed.

(** C5, counterexample: the unweighted fallback is not
    [round(100 * confirmCount / totalVotes)] either: for 23 confirms among 40 votes of voters without a user
    document that formula gives 58, while the doubles of the code give
    57.49999999999999 and the method stores 57. *)
Theorem C5_exact_fallback_refuted :
  0 < FraudReport.verificationCount
        (FraudReport.verification TrustScore.fortyUnresolved)
  /\ (forall e, e ∈ Spec.entries TrustScore.fortyUnresolved ->
                FraudReport.resolved ∅ e = None)
  /\ JS.Math_round
       (100 * inject_Z (Spec.confirmCount TrustScore.fortyUnresolved)
        / inject_Z (FraudReport.verificationCount
                      (FraudReport.verification TrustScore.fortyUnresolved)))
     = 58
  /\ TrustScore.trustScore
       (TrustScore.calculateTrustScore ∅ TrustScore.fortyUnresolved)
     = Number.of_Z 57
  /\ Number.of_Z 57 <> Number.of_Z 58.
Proof.
  split; [reflexivity|].
  split; [intros e _; unfold FraudReport.resolved; now rewrite lookup_empty|].
  split; [vm_compute; reflexivity|].
  split; [vm_compute; reflexivity|].
  vm_compute. discriminate.
Qed.

(** C5 (amended): the method always assigns a score, in double precision.
    The weighted quotient is taken only when [totalWeight] is above zero;
    otherwise, on a report with a non-zero counter, the divisor is that
    counter and the method stores
    [Math.round((confirmVotes / totalVotes) * 100)].  That is the case in
    particular when no entry has a resolvable voter; an entry whose voter
    is missing or unresolved is passed over without failing and leaves the
    weighted accumulators untouched, so the weighted path runs over the
    resolvable entries only. *)
Theorem C5_fallback_in_doubles (populated : gmap ObjectId User.t)
    (report : FraudReport.t) :
  FraudReport.verificationCount (FraudReport.verification report) <> 0 ->
  (Number.gt (TrustScore.totalWeight populated report) Number.zero = false ->
   TrustScore.trustScore (TrustScore.calculateTrustScore populated report)
   = Number.Math_round
       (Number.mul
          (Number.div
             (Number.of_Z (TrustScore.confirmCount report))
             (Number.of_Z (FraudReport.verificationCount
                             (FraudReport.verification report))))
          (Number.of_Z 100)))
  /\ ((forall e, e ∈ Spec.entries report ->
                 FraudReport.resolved populated e = None) ->
      TrustScore.totalWeight populated report = Number.zero
      /\ Number.gt (TrustScore.totalWeight populated report) Number.zero = false)
  /\ (forall (e : FraudReport.VerifiedBy)
        (acc : spec_float * spec_float * spec_float),
        populated !! FraudReport.user e = None ->
        TrustScore.accumulate populated acc e = acc)
  /\ fold_left (TrustScore.accumulate populated) (Spec.entries report)
       (Number.zero, Number.zero, Number.zero)
     = fold_left (TrustScore.accumulate populated)
         (filter (λ e, is_Some (FraudReport.resolved populated e))
                 (Spec.entries report))
         (Number.zero, Number.zero, Number.zero).
Proof.
  intros Hv. split; [|split; [|split]].
  - intros Hz. rewrite (calculateTrustScore_double populated report Hv).
    cbn zeta. now rewrite Hz.
  - intros Hnone. unfold TrustScore.totalWeight.
    unfold Spec.entries in Hnone. rewrite (weights_unresolved _ _ Hnone).
    split; reflexivity.
  - intros e acc Hmiss. apply accumulate_double_unresolved.
    unfold FraudReport.resolved. now rewrite Hmiss.
  - apply fold_accumulate_double_resolved.
Qed.

(** With nobody registered, A's confirm and B's deny fall back to one
    confirm out of two votes: 50. *)
Lemma C5_fallback_in_doubles_witness :
  TrustScore.trustScore (TrustScore.calculateTrustScore ∅ Examples.reportAB)
  = Number.of_Z 50.
Proof.
  destruct (C5_fallback_in_doubles ∅ Examples.reportAB) as (H & _).
  - vm_compute. discriminate.
  - rewrite H; vm_compute; reflexivity.
Defined.



(** ** Votes (POST /reports/:id/verify) *)

Lemma applyVote_existing (userId : ObjectId) (vote : FraudReport.Vote)
    (comment : option string) (now : Date) (report : FraudReport.t) :
  userId ∈ Spec.voters report →
  ∃ i old,
    Spec.entries report !! i = Some old
    ∧ FraudReport.user old = userId
    ∧ (∀ j e, Spec.entries report !! j = Some e → (j < i)%nat →
              FraudReport.user e ≠ userId)
    ∧ Spec.entries (Routes.applyVote userId vote comment now report)
      = <[i := Spec.entry now userId vote comment]> (Spec.entries report)
    ∧ FraudReport.verificationCount
        (FraudReport.verification (Routes.applyVote userId vote comment now report))
      = FraudReport.verificationCount (FraudReport.verification report).
Proof.
  intros Hin. unfold Routes.applyVote.
  destruct (list_find _ _) as [[i old]|] eqn:E.
  - apply list_find_Some in E as (Hi & Ho & Hfirst).
    exists i, old. repeat split; try done.
    unfold Spec.entry. by rewrite Ho.
  - apply list_find_None in E.
    apply list_elem_of_fmap in Hin as (e & -> & He).
    rewrite Forall_forall in E. by destruct (E e He).
Qed.

Lemma applyVote_new (userId : ObjectId) (vote : FraudReport.Vote)
    (comment : option string) (now : Date) (report : FraudReport.t) :
  userId ∉ Spec.voters report →
  Spec.entries (Routes.applyVote userId vote comment now report)
  = Spec.entries report ++ [Spec.entry now userId vote comment]
  ∧ FraudReport.verificationCount
      (FraudReport.verification (Routes.applyVote userId vote comment now report))
    = FraudReport.verificationCount (FraudReport.verification report) + 1.
Proof.
  intros Hnin. unfold Routes.applyVote.
  destruct (list_find _ _) as [[i old]|] eqn:E; [|done].
  apply list_find_Some in E as (Hi & Ho & _).
  destruct Hnin. apply list_elem_of_fmap. exists old.
  split; [done|]. by eapply list_elem_of_lookup_2.
Qed.

Lemma applyVote_voters (userId : ObjectId) (vote : FraudReport.Vote)
    (comment : option string) (now : Date) (report : FraudReport.t) :
  Spec.voters (Routes.applyVote userId vote comment now report)
  = if decide (userId ∈ Spec.voters report) then Spec.voters report
    else Spec.voters report ++ [userId].
Proof.
  case_decide as Hin; unfold Spec.voters.
  - destruct (applyVote_existing userId vote comment now report Hin)
      as (i & old & Hi & Ho & _ & -> & _).
    rewrite list_fmap_insert. apply list_insert_id.
    rewrite list_lookup_fmap, Hi. simpl. by rewrite Ho.
  - destruct (applyVote_new userId vote comment now report Hin) as [-> _].
    by rewrite fmap_app.
Qed.

Lemma applyVote_NoDup (userId : ObjectId) (vote : FraudReport.Vote)
    (comment : option string) (now : Date) (report : FraudReport.t) :
  NoDup (Spec.voters report) →
  NoDup (Spec.voters (Routes.applyVote userId vote comment now report)).
Proof.
  intros Hnd. rewrite applyVote_voters. case_decide as Hin; [done|].
  apply NoDup_app. split; [done|]. split; [|apply NoDup_singleton].
  intros x Hx ->%list_elem_of_singleton. done.
Qed.

Lemma applyVote_counted (userId : ObjectId) (vote : FraudReport.Vote)
    (comment : option string) (now : Date) (report : FraudReport.t) :
  Spec.counted report →
  Spec.counted (Routes.applyVote userId vote comment now report).
Proof.
  unfold Spec.counted. intros Hc.
  destruct (decide (userId ∈ Spec.voters report)) as [Hin|Hnin].
  - destruct (applyVote_existing userId vote comment now report Hin)
      as (i & old & _ & _ & _ & -> & ->).
    by rewrite length_insert.
  - destruct (applyVote_new userId vote comment now report Hnin) as [-> ->].
    rewrite length_app. simpl. lia.
Qed.

(** The report the verify handler stores: the votes of [applyVote], scored
    by [calculateTrustScore] against the users as they were. *)
Lemma postVerify_report (now : Date) (reportId userId : ObjectId)
    (vote : FraudReport.Vote) (comment : option string) (db : Routes.Db)
    (report : FraudReport.t) :
  Routes.reports db !! reportId = Some report →
  ∃ report',
    Routes.reports (Routes.postVerify now reportId userId vote comment db).2
      !! reportId = Some report'
    ∧ FraudReport.calculateTrustScore (Routes.users db)
        (Routes.applyVote userId vote comment now report) = Some report'
    ∧ Spec.entries report'
      = Spec.entries (Routes.applyVote userId vote comment now report)
    ∧ FraudReport.verificationCount (FraudReport.verification report')
      = FraudReport.verificationCount
          (FraudReport.verification
             (Routes.applyVote userId vote comment now report)).
Proof.
  intros Hr. unfold Routes.postVerify. rewrite Hr.
  rewrite calculateTrustScore_refines.
  eexists. split; [|split; [reflexivity|split; reflexivity]].
  destruct (list_find _ _) as [[i old]|]; [|destruct (_ !! userId)]; simpl;
    apply lookup_insert_eq.
Qed.

Lemma postVerify_voters (now : Date) (reportId userId : ObjectId)
    (vote : FraudReport.Vote) (comment : option string) (db : Routes.Db)
    (report : FraudReport.t) :
  Routes.reports db !! reportId = Some report →
  NoDup (Spec.voters report) →
  ∃ report',
    Routes.reports (Routes.postVerify now reportId userId vote comment db).2
      !! reportId = Some report'
    ∧ NoDup (Spec.voters report').
Proof.
  intros Hr Hnd.
  destruct (postVerify_report now reportId userId vote comment db report Hr)
    as (report' & Hr' & _ & He & _).
  exists report'. split; [exact Hr'|].
  unfold Spec.voters. rewrite He. by apply applyVote_NoDup.
Qed.

Lemma postVerifyAll_voters (reportId : ObjectId) (ballots : list Routes.Ballot)
    (db : Routes.Db) (report : FraudReport.t) :
  Routes.reports db !! reportId = Some report →
  NoDup (Spec.voters report) →
  ∃ report',
    Routes.reports (Routes.postVerifyAll reportId ballots db) !! reportId
    = Some report'
    ∧ NoDup (Spec.voters report').
Proof.
  revert db report. induction ballots as [|b ballots IH]; intros db report Hr Hnd.
  - by exists report.
  - destruct (postVerify_voters (Routes.castAt b) reportId (Routes.voter b)
                (Routes.choice b) (Routes.remark b) db report Hr Hnd)
      as (report1 & Hr1 & Hnd1).
    exact (IH _ report1 Hr1 Hnd1).
Qed.

(** C2: the verify handler keeps one verification entry per voter, over any
    sequence of votes on a report.  A voter who already has an entry gets
    it overwritten in place with the new vote, comment and time: the list
    keeps its length and the counter its value.  A voter without an entry
    gets one appended, and the counter grows by one. *)
Theorem C2_one_entry_per_voter (reportId : ObjectId) (db : Routes.Db)
    (report : FraudReport.t) :
  Routes.reports db !! reportId = Some report →
  NoDup (Spec.voters report) →
  (∀ ballots : list Routes.Ballot,
     ∃ report',
       Routes.reports (Routes.postVerifyAll reportId ballots db) !! reportId
       = Some report'
       ∧ NoDup (Spec.voters report'))
  ∧ (∀ (now : Date) (userId : ObjectId) (vote : FraudReport.Vote)
       (comment : option string),
       ∃ report',
         Routes.reports (Routes.postVerify now reportId userId vote comment db).2
           !! reportId = Some report'
         ∧ (userId ∈ Spec.voters report →
            (∃ i old,
               Spec.entries report !! i = Some old
               ∧ FraudReport.user old = userId
               ∧ Spec.entries report'
                 = <[i := Spec.entry now userId vote comment]> (Spec.entries report))
            ∧ length (Spec.entries report') = length (Spec.entries report)
            ∧ FraudReport.verificationCount (FraudReport.verification report')
              = FraudReport.verificationCount (FraudReport.verification report)
            ∧ (∀ e, e ∈ Spec.entries report' → FraudReport.user e = userId →
                    e = Spec.entry now userId vote comment))
         ∧ (userId ∉ Spec.voters report →
            Spec.entries report'
            = Spec.entries report ++ [Spec.entry now userId vote comment]
            ∧ FraudReport.verificationCount (FraudReport.verification report')
              = FraudReport.verificationCount (FraudReport.verification report) + 1)).
Proof.
  intros Hr Hnd. split.
  - intros ballots. exact (postVerifyAll_voters reportId ballots db report Hr Hnd).
  - intros now userId vote comment.
    destruct (postVerify_report now reportId userId vote comment db report Hr)
      as (report' & Hr' & _ & He & Hc).
    exists report'. split; [exact Hr'|]. rewrite He, Hc. split.
    + intros Hin.
      destruct (applyVote_existing userId vote comment now report Hin)
        as (i & old & Hi & Ho & _ & Hins & Hcnt).
      split; [by exists i, old|]. rewrite Hins, Hcnt.
      split; [apply length_insert|]. split; [reflexivity|].
      intros e Hel Hu.
      apply list_elem_of_lookup in Hel as [j Hj].
      destruct (decide (j = i)) as [->|Hne].
      * rewrite list_lookup_insert_eq in Hj by by eapply lookup_lt_Some.
        congruence.
      * rewrite list_lookup_insert_ne in Hj by done.
        exfalso. apply Hne.
        apply (NoDup_lookup (Spec.voters report) j i userId Hnd);
          unfold Spec.voters; rewrite list_lookup_fmap.
        -- rewrite Hj. simpl. by rewrite Hu.
        -- rewrite Hi. simpl. by rewrite Ho.
    + intros Hnin. by apply applyVote_new.
Qed.

(** A confirms, B denies, then A changes to uncertain: two entries remain
    and the counter stays at 2. *)
Lemma C2_one_entry_per_voter_witness :
  ∃ report',
    Routes.reports
      (Routes.postVerifyAll 7%N
         [ {| Routes.castAt := 1000; Routes.voter := 1%N;
              Routes.choice := FraudReport.confirm; Routes.remark := None |};
           {| Routes.castAt := 2000; Routes.voter := 2%N;
              Routes.choice := FraudReport.deny; Routes.remark := None |};
           {| Routes.castAt := 3000; Routes.voter := 1%N;
              Routes.choice := FraudReport.uncertain; Routes.remark := None |} ]
         Examples.dbAB) !! 7%N = Some report'
    ∧ NoDup (Spec.voters report').
Proof.
  destruct (C2_one_entry_per_voter 7%N Examples.dbAB Examples.freshReport)
    as [H _].
  - reflexivity.
  - apply NoDup_nil_2.
  - apply H.
Defined.

(** The same three requests, evaluated: A's entry carries the latest vote
    and time, B's is untouched, and nobody confirms any more. *)
Example three_votes_two_entries :
  FraudReport.verification <$>
    (Routes.reports
       (Routes.postVerifyAll 7%N
          [ {| Routes.castAt := 1000; Routes.voter := 1%N;
               Routes.choice := FraudReport.confirm; Routes.remark := None |};
            {| Routes.castAt := 2000; Routes.voter := 2%N;
               Routes.choice := FraudReport.deny; Routes.remark := None |};
            {| Routes.castAt := 3000; Routes.voter := 1%N;
               Routes.choice := FraudReport.uncertain; Routes.remark := None |} ]
          Examples.dbAB) !! 7%N)
  = Some {| FraudReport.trustScore := 0;
            FraudReport.verificationCount := 2;
            FraudReport.verifiedBy :=
              [ Spec.entry 3000 1%N FraudReport.uncertain None;
                Spec.entry 2000 2%N FraudReport.deny None ];
            FraudReport.status := FraudReport.disputed |}.
Proof. vm_compute. reflexivity. Qed.

(** After A's first vote the score is 100: A alone, confirming. *)
Example first_vote_response :
  (Routes.postVerify 1000 7%N 1%N FraudReport.confirm None Examples.dbAB).1
  = Routes.Ok200 100 1.
Proof. vm_compute. reflexivity. Qed.

(** ** New reports (POST /report) *)

Lemma newFraudReport_verification (reqUser : ObjectId) (body : Routes.ReportBody) :
  FraudReport.verification (Routes.newFraudReport reqUser body)
  = FraudReport.default_verification.
Proof.
  unfold Routes.newFraudReport.
  destruct (_ || _); [reflexivity|].
  destruct (Routes.impact body) as [i|]; [|reflexivity].
  destruct (_ <? _); [reflexivity|]. destruct (_ <? _); reflexivity.
Qed.

Lemma newFraudReport_counted (reqUser : ObjectId) (body : Routes.ReportBody) :
  Spec.counted (Routes.newFraudReport reqUser body).
Proof.
  unfold Spec.counted, Spec.entries.
  by rewrite newFraudReport_verification.
Qed.

Lemma postReport_report (transport : NotificationService.Transport)
    (geo : NotificationService.GeoIndex) (now : Date)
    (reportId reqUser : ObjectId) (body : Routes.ReportBody) (db : Routes.Db) :
  Routes.reports (Routes.postReport transport geo now reportId reqUser body db).2
    !! reportId
  = Some (Routes.newFraudReport reqUser body).
Proof.
  unfold Routes.postReport.
  destruct (Routes.users _ !! reqUser); simpl; apply lookup_insert_eq.
Qed.

(** Once a vote has been served, the counter of a counted report is
    positive: the handlers never score a report through the baseline of
    [calculateTrustScore]. *)
Lemma postVerify_voted (now : Date) (reportId userId : ObjectId)
    (vote : FraudReport.Vote) (comment : option string) (db : Routes.Db)
    (report : FraudReport.t) :
  Routes.reports db !! reportId = Some report →
  Spec.counted report →
  ∃ report',
    Routes.reports (Routes.postVerify now reportId userId vote comment db).2
      !! reportId = Some report'
    ∧ Spec.counted report'
    ∧ 0 < FraudReport.verificationCount (FraudReport.verification report').
Proof.
  intros Hr Hc.
  destruct (postVerify_report now reportId userId vote comment db report Hr)
    as (report' & Hr' & _ & He & Hn).
  exists report'. split; [exact Hr'|].
  pose proof (applyVote_counted userId vote comment now report Hc) as Hc'.
  unfold Spec.counted in *. rewrite Hn, He. split; [exact Hc'|].
  rewrite Hc'.
  destruct (decide (userId ∈ Spec.voters report)) as [Hin|Hnin].
  - destruct (applyVote_existing userId vote comment now report Hin)
      as (i & old & Hi & _ & _ & -> & _).
    rewrite length_insert. apply lookup_lt_Some in Hi. lia.
  - destruct (applyVote_new userId vote comment now report Hnin) as [-> _].
    rewrite length_app. simpl. lia.
Qed.

(** C4 (as the code behaves): the report POST /report stores has no
    verification and the schema's default score 0, not 30; the handler
    never calls [calculateTrustScore], which would set 30 on that very
    report. *)
Theorem C4_fresh_report_scores_zero (transport : NotificationService.Transport)
    (geo : NotificationService.GeoIndex) (now : Date)
    (reportId reqUser : ObjectId) (body : Routes.ReportBody) (db : Routes.Db) :
  ∃ report,
    Routes.reports (Routes.postReport transport geo now reportId reqUser body db).2
      !! reportId = Some report
    ∧ FraudReport.verificationCount (FraudReport.verification report) = 0
    ∧ FraudReport.trustScore (FraudReport.verification report) = 0
    ∧ ∃ report',
        FraudReport.calculateTrustScore (Routes.users db) report = Some report'
        ∧ FraudReport.trustScore (FraudReport.verification report') = 30.
Proof.
  exists (Routes.newFraudReport reqUser body).
  split; [apply postReport_report|].
  rewrite newFraudReport_verification. split; [reflexivity|].
  split; [reflexivity|].
  eexists. split; [apply calculateTrustScore_refines|].
  cbn [FraudReport.set_verification FraudReport.verification
       FraudReport.trustScore].
  unfold Spec.computeTrustScore.
  by rewrite newFraudReport_verification.
Qed.

(** ** Alert creation (services/notificationService.js) *)

Section AlertCreation.

Variable transport : NotificationService.Transport.
Variable geo : NotificationService.GeoIndex.
Variable now : Date.

Lemma sendAlertNotifications_triple (user : User.t) (alert : Alert.t) :
  Alert.triple (NotificationService.sendAlertNotifications transport now user alert)
  = Alert.triple alert.
Proof.
  unfold NotificationService.sendAlertNotifications. cbv zeta.
  repeat case_match; reflexivity.
Qed.

Lemma createProximityAlerts_app (users : gmap ObjectId User.t)
    (reportId : ObjectId) (fraudReport : FraudReport.t) (alerts : list Alert.t) :
  NotificationService.createProximityAlerts transport geo now users reportId
    fraudReport alerts
  = alerts ++ NotificationService.createProximityAlerts transport geo now users
                reportId fraudReport [].
Proof. reflexivity. Qed.

Lemma fold_left_app_bind {A B : Type} (g : A → list B) (l : list A) (acc : list B) :
  fold_left (λ acc x, acc ++ g x) l acc = acc ++ (l ≫= g).
Proof.
  revert acc. induction l as [|x l IH]; intros acc.
  - simpl. by rewrite app_nil_r.
  - cbn [fold_left]. by rewrite IH, bind_cons, app_assoc.
Qed.

Lemma createMatchAlerts_app (users : gmap ObjectId User.t)
    (reportId : ObjectId) (fraudReport : FraudReport.t) (alerts : list Alert.t) :
  NotificationService.createMatchAlerts transport now users reportId
    fraudReport alerts
  = alerts ++ NotificationService.createMatchAlerts transport now users
                reportId fraudReport [].
Proof.
  unfold NotificationService.createMatchAlerts. by rewrite !fold_left_app_bind.
Qed.

Lemma proximityAlert_triple (reportId : ObjectId) (fraudReport : FraudReport.t)
    (entry : ObjectId * User.t) (a : Alert.t) :
  NotificationService.proximityAlert transport now reportId fraudReport entry
  = Some a →
  Alert.triple a = (entry.1, reportId, Alert.proximity).
Proof.
  destruct entry as [id user]. unfold NotificationService.proximityAlert.
  repeat case_match; try discriminate.
  intros [= <-]. by rewrite sendAlertNotifications_triple.
Qed.

Lemma matchData_types (fraudReport : FraudReport.t) (user : User.t) :
  (λ d : Alert.AlertType * string * Alert.MatchCriteria, d.1.1)
    <$> NotificationService.matchData fraudReport user
  `sublist_of` [Alert.phone_match; Alert.email_match].
Proof.
  unfold NotificationService.matchData.
  destruct (_ && _); destruct (_ && _); simpl;
    repeat first [apply sublist_nil | apply sublist_skip | apply sublist_cons].
Qed.

Lemma matchAlerts_triples (reportId : ObjectId) (fraudReport : FraudReport.t)
    (entry : ObjectId * User.t) :
  Alert.triple <$>
    NotificationService.matchAlerts transport now reportId fraudReport entry
  = (λ ty, (entry.1, reportId, ty)) <$>
      ((λ d : Alert.AlertType * string * Alert.MatchCriteria, d.1.1)
         <$> NotificationService.matchData fraudReport entry.2).
Proof.
  unfold NotificationService.matchAlerts.
  rewrite <- !list_fmap_compose. apply list_fmap_ext.
  intros i d _. simpl. by rewrite sendAlertNotifications_triple.
Qed.

(** Alerts made for entries with pairwise distinct identifiers, each
    entry's alerts addressed to that entry and distinct among themselves,
    are pairwise distinct. *)
Lemma NoDup_triples_bind (g : ObjectId * User.t → list Alert.t)
    (l : list (ObjectId * User.t)) :
  NoDup l.*1 →
  (∀ e a, a ∈ g e → Alert.user a = e.1) →
  (∀ e, NoDup (Alert.triple <$> g e)) →
  NoDup (Alert.triple <$> (l ≫= g)).
Proof.
  intros Hnd Huser Hg. induction l as [|e l IH]; [constructor|].
  rewrite bind_cons, fmap_app. apply NoDup_app.
  rewrite fmap_cons in Hnd. apply NoDup_cons in Hnd as [Hfresh Hnd].
  split; [apply Hg|]. split; [|by apply IH].
  intros t Ht Ht'.
  apply list_elem_of_fmap in Ht as (a & -> & Ha).
  apply list_elem_of_fmap in Ht' as (a' & Heq & Ha').
  apply list_elem_of_bind in Ha' as (e' & Ha' & He').
  apply Hfresh. apply list_elem_of_fmap. exists e'. split; [|exact He'].
  rewrite <- (Huser e a Ha), <- (Huser e' a' Ha').
  unfold Alert.triple in Heq. congruence.
Qed.

Lemma omap_bind {A B : Type} (f : A → option B) (l : list A) :
  omap f l = l ≫= (λ x, option_list (f x)).
Proof.
  induction l as [|x l IH]; [reflexivity|].
  rewrite bind_cons, <- IH. simpl. by destruct (f x).
Qed.

Lemma NoDup_fst_filter_map_to_list (users : gmap ObjectId User.t)
    (P : ObjectId * User.t → Prop) `{!∀ e, Decision (P e)} :
  NoDup (filter P (map_to_list users)).*1.
Proof.
  eapply sublist_NoDup; [apply (NoDup_fst_map_to_list users)|].
  apply fmap_sublist, sublist_filter.
Qed.

Lemma proximity_new (users : gmap ObjectId User.t) (reportId : ObjectId)
    (fraudReport : FraudReport.t) :
  NoDup (Alert.triple <$>
           NotificationService.createProximityAlerts transport geo now users
             reportId fraudReport [])
  ∧ ∀ a, a ∈ NotificationService.createProximityAlerts transport geo now users
               reportId fraudReport [] →
         Alert.fraudReport a = reportId ∧ Alert.alertType a = Alert.proximity.
Proof.
  unfold NotificationService.createProximityAlerts. cbv zeta.
  rewrite app_nil_l, omap_bind. split.
  - apply NoDup_triples_bind.
    + apply NoDup_fst_filter_map_to_list.
    + intros e a Ha. destruct (NotificationService.proximityAlert _ _ _ _ e) eqn:E;
        [|by apply elem_of_nil in Ha].
      apply list_elem_of_singleton in Ha as ->.
      apply proximityAlert_triple in E. unfold Alert.triple in E. congruence.
    + intros e. destruct (NotificationService.proximityAlert _ _ _ _ e); simpl;
        [apply NoDup_singleton | constructor].
  - intros a Ha. apply list_elem_of_bind in Ha as (e & Ha & _).
    destruct (NotificationService.proximityAlert _ _ _ _ e) eqn:E;
      [|by apply elem_of_nil in Ha].
    apply list_elem_of_singleton in Ha as ->.
    apply proximityAlert_triple in E. unfold Alert.triple in E.
    split; congruence.
Qed.

Lemma matchAlerts_member (reportId : ObjectId) (fraudReport : FraudReport.t)
    (entry : ObjectId * User.t) (a : Alert.t) :
  a ∈ NotificationService.matchAlerts transport now reportId fraudReport entry →
  Alert.user a = entry.1 ∧ Alert.fraudReport a = reportId
  ∧ Alert.alertType a ∈ [Alert.phone_match; Alert.email_match].
Proof.
  intros Ha.
  assert (Alert.triple a ∈ Alert.triple <$>
            NotificationService.matchAlerts transport now reportId fraudReport entry)
    as Ht by (apply list_elem_of_fmap; by exists a).
  rewrite matchAlerts_triples in Ht.
  apply list_elem_of_fmap in Ht as (ty & Heq & Hty).
  unfold Alert.triple in Heq. injection Heq as -> -> ->.
  repeat split. eapply elem_of_sublist; [exact Hty|apply matchData_types].
Qed.

Lemma match_new (users : gmap ObjectId User.t) (reportId : ObjectId)
    (fraudReport : FraudReport.t) :
  NoDup (Alert.triple <$>
           NotificationService.createMatchAlerts transport now users
             reportId fraudReport [])
  ∧ ∀ a, a ∈ NotificationService.createMatchAlerts transport now users
               reportId fraudReport [] →
         Alert.fraudReport a = reportId
         ∧ Alert.alertType a ∈ [Alert.phone_match; Alert.email_match].
Proof.
  unfold NotificationService.createMatchAlerts. cbv zeta.
  rewrite fold_left_app_bind, app_nil_l. split.
  - apply NoDup_triples_bind.
    + apply NoDup_fst_filter_map_to_list.
    + intros e a Ha. by apply matchAlerts_member in Ha as (? & _).
    + intros e. rewrite matchAlerts_triples.
      apply NoDup_fmap_2; [intros x y; congruence|].
      eapply sublist_NoDup; [|apply matchData_types].
      apply NoDup_cons. split; [|apply NoDup_singleton].
      intros H%list_elem_of_singleton. discriminate.
  - intros a Ha. apply list_elem_of_bind in Ha as (e & Ha & _).
    by apply matchAlerts_member in Ha as (_ & ? & ?).
Qed.

(** Appending alerts for [reportId] to a collection without duplicates
    that holds none for it yet leaves it without duplicates. *)
Lemma NoDup_triples_app (reportId : ObjectId) (alerts fresh : list Alert.t) :
  NoDup (Alert.triple <$> alerts) →
  (∀ a, a ∈ alerts → Alert.fraudReport a ≠ reportId) →
  NoDup (Alert.triple <$> fresh) →
  (∀ a, a ∈ fresh → Alert.fraudReport a = reportId) →
  NoDup (Alert.triple <$> (alerts ++ fresh)).
Proof.
  intros Hold Hother Hnew Hthis. rewrite fmap_app. apply NoDup_app.
  split; [exact Hold|]. split; [|exact Hnew].
  intros t Ht Ht'.
  apply list_elem_of_fmap in Ht as (a & -> & Ha).
  apply list_elem_of_fmap in Ht' as (a' & Heq & Ha').
  apply (Hother a Ha). rewrite <- (Hthis a' Ha').
  unfold Alert.triple in Heq. congruence.
Qed.

End AlertCreation.

(** C1 fails as stated: a second [createMatchAlerts] for the same report
    stores a second alert with the triple the first call already used. *)
Lemma C1_second_call_duplicates :
  let once :=
    NotificationService.createMatchAlerts Examples.quiet 0 Examples.usersV 8%N
      Examples.phoneReport [] in
  let twice :=
    NotificationService.createMatchAlerts Examples.quiet 0 Examples.usersV 8%N
      Examples.phoneReport once in
  Alert.triple <$> once = [(3%N, 8%N, Alert.phone_match)]
  ∧ Alert.triple <$> twice
    = [(3%N, 8%N, Alert.phone_match); (3%N, 8%N, Alert.phone_match)]
  ∧ ¬ NoDup (Alert.triple <$> twice).
Proof.
  assert (Alert.triple <$>
            NotificationService.createMatchAlerts Examples.quiet 0
              Examples.usersV 8%N Examples.phoneReport
              (NotificationService.createMatchAlerts Examples.quiet 0
                 Examples.usersV 8%N Examples.phoneReport [])
          = [(3%N, 8%N, Alert.phone_match); (3%N, 8%N, Alert.phone_match)]) as E
    by (vm_compute; reflexivity).
  cbv zeta. split; [vm_compute; reflexivity|]. split; [exact E|].
  rewrite E. intros H. apply NoDup_cons in H as [H _].
  apply H. left.
Qed.

(** C1, amended: alert creation never looks the collection up, it appends;
    what it appends in one pass for a report holds at most one alert per
    (recipient, report, alertType), so a collection without duplicates that
    holds no alert for that report yet has none afterwards either. *)
Theorem C1_unique_within_one_pass (transport : NotificationService.Transport)
    (geo : NotificationService.GeoIndex) (now : Date)
    (users : gmap ObjectId User.t) (reportId : ObjectId)
    (fraudReport : FraudReport.t) (alerts : list Alert.t) :
  NoDup (Alert.triple <$> alerts) →
  (∀ a, a ∈ alerts → Alert.fraudReport a ≠ reportId) →
  let near :=
    NotificationService.createProximityAlerts transport geo now users reportId
      fraudReport alerts in
  near = alerts ++ NotificationService.createProximityAlerts transport geo now
                     users reportId fraudReport []
  ∧ NotificationService.createMatchAlerts transport now users reportId
      fraudReport alerts
    = alerts ++ NotificationService.createMatchAlerts transport now users
                  reportId fraudReport []
  ∧ NoDup (Alert.triple <$> near)
  ∧ NoDup (Alert.triple <$>
             NotificationService.createMatchAlerts transport now users reportId
               fraudReport alerts)
  ∧ NoDup (Alert.triple <$>
             NotificationService.createMatchAlerts transport now users reportId
               fraudReport near).
Proof.
  intros Hnd Hother near.
  destruct (proximity_new transport geo now users reportId fraudReport)
    as [Hp Hp'].
  destruct (match_new transport now users reportId fraudReport) as [Hm Hm'].
  assert (NoDup (Alert.triple <$> near)) as Hnear.
  { subst near. rewrite createProximityAlerts_app.
    apply (NoDup_triples_app reportId); try done.
    intros a Ha. by apply Hp'. }
  split; [apply createProximityAlerts_app|].
  split; [apply createMatchAlerts_app|].
  split; [exact Hnear|]. split.
  - rewrite createMatchAlerts_app.
    apply (NoDup_triples_app reportId); try done.
    intros a Ha. by apply Hm'.
  - rewrite createMatchAlerts_app, fmap_app. apply NoDup_app.
    split; [exact Hnear|]. split; [|exact Hm].
    intros t Ht Ht'.
    apply list_elem_of_fmap in Ht as (a & -> & Ha).
    apply list_elem_of_fmap in Ht' as (a' & Heq & Ha').
    destruct (Hm' a' Ha') as [Hr' Hty'].
    unfold Alert.triple in Heq. injection Heq as Hu Hr Hty.
    subst near. rewrite createProximityAlerts_app in Ha.
    apply elem_of_app in Ha as [Ha|Ha].
    + apply (Hother a Ha). congruence.
    + destruct (Hp' a Ha) as [_ Hprox]. rewrite <- Hty, Hprox in Hty'.
      apply elem_of_cons in Hty' as [?|Hty']; [discriminate|].
      apply list_elem_of_singleton in Hty'. discriminate.
Qed.

Lemma C1_unique_within_one_pass_witness :
  NoDup (Alert.triple <$>
           NotificationService.createMatchAlerts Examples.quiet 0
             Examples.usersV 8%N Examples.phoneReport []).
Proof.
  destruct (C1_unique_within_one_pass Examples.quiet Examples.sphere 0
              Examples.usersV 8%N Examples.phoneReport [])
    as (_ & _ & _ & H & _).
  - apply NoDup_nil_2.
  - intros a Ha. by apply elem_of_nil in Ha.
  - exact H.
Defined.

(** ** Proximity matching *)

(** Along the equator the haversine formula gives the arc length: for
    points [d] degrees of longitude apart, less than half a turn, the
    distance is [6371 * d * PI / 180] kilometres. *)
Lemma calculateDistance_equator (d : R) :
  (0 <= d < 180)%R →
  NotificationService.calculateDistance (0%R, 0%R) (d, 0%R)
  = (6371 * (d * (PI / 180)))%R.
Proof.
  intros [Hd0 Hd1].
  unfold NotificationService.calculateDistance, NotificationService.toRadians.
  pose proof PI_RGT_0 as Hpi.
  set (x := ((d - 0) * (PI / 180) / 2)%R).
  assert (0 <= x < PI / 2)%R as [Hx0 Hx1] by (unfold x; split; nra).
  replace ((0 - 0) * (PI / 180) / 2)%R with 0%R by lra.
  replace (0 * (PI / 180))%R with 0%R by lra.
  rewrite sin_0, cos_0.
  replace (0 * 0 + 1 * 1 * sin x * sin x)%R with (sin x * sin x)%R by ring.
  assert (0 <= sin x)%R as Hsin by (apply sin_ge_0; lra).
  assert (0 < cos x)%R as Hcos by (apply cos_gt_0; lra).
  rewrite sqrt_square by exact Hsin.
  replace (1 - sin x * sin x)%R with (cos x * cos x)%R
    by (pose proof (sin2_cos2 x) as H; unfold Rsqr in H; lra).
  rewrite sqrt_square by lra.
  unfold JS.Math_atan2. destruct (Rlt_dec 0 (cos x)) as [_|Hn]; [|lra].
  change (sin x / cos x)%R with (tan x). rewrite atan_tan by lra.
  unfold x. lra.
Qed.

Lemma newFraudReport_fields (reqUser : ObjectId) (body : Routes.ReportBody) :
  FraudReport.reportedBy (Routes.newFraudReport reqUser body) = reqUser
  ∧ FraudReport.fraudType (Routes.newFraudReport reqUser body)
    = Routes.fraudType body
  ∧ FraudReport.coordinates (Routes.newFraudReport reqUser body)
    = Routes.coordinates body.
Proof.
  unfold Routes.newFraudReport.
  destruct (_ || _); [done|].
  destruct (Routes.impact body) as [i|]; [|done].
  destruct (_ <? _); [done|]. by destruct (_ <? _).
Qed.

Section Proximity.

Variable transport : NotificationService.Transport.
Variable geo : NotificationService.GeoIndex.
Variable now : Date.

(** The callback produces an alert exactly for the users the
    specification's three conditions admit. *)
Lemma proximityAlert_qualifies (reportId : ObjectId)
    (fraudReport : FraudReport.t) (id : ObjectId) (user : User.t) :
  is_Some (NotificationService.proximityAlert transport now reportId
             fraudReport (id, user))
  ↔ Spec.qualifies id user fraudReport.
Proof.
  unfold NotificationService.proximityAlert, Spec.qualifies.
  destruct (decide (id = FraudReport.reportedBy fraudReport)) as [Heq|Hne].
  { split; [intros [? [=]] | intros (_ & _ & ?); done]. }
  destruct (bool_decide _ && negb (bool_decide _)) eqn:Htypes.
  { apply andb_true_iff in Htypes as [H1 H2].
    apply bool_decide_eq_true in H1. apply negb_true_iff in H2.
    apply bool_decide_eq_false in H2.
    split; [intros [? [=]] | intros (_ & [?|?] & _); done]. }
  apply andb_false_iff in Htypes.
  assert (User.fraudTypes (User.preferences user) = []
          ∨ FraudReport.fraudType fraudReport
            ∈ User.fraudTypes (User.preferences user)) as Hsub.
  { destruct Htypes as [H|H].
    - apply bool_decide_eq_false in H. left.
      by destruct (User.fraudTypes (User.preferences user)); [|destruct H].
    - apply negb_false_iff, bool_decide_eq_true in H. by right. }
  clear Htypes. cbv zeta. destruct (decide (_ > _)%R) as [Hfar|Hfar].
  - split; [intros [? [=]] | intros (Hle & _); exfalso; lra].
  - split; [intros _; repeat split; [lra | exact Hsub | exact Hne] | by eexists].
Qed.

(** Who gets a proximity alert: the users the store's query returns, the
    reporter and the uninterested left out, inside their own radius. *)
Lemma createProximityAlerts_recipient (users : gmap ObjectId User.t)
    (reportId : ObjectId) (fraudReport : FraudReport.t) (id : ObjectId) :
  (∃ a, a ∈ NotificationService.createProximityAlerts transport geo now users
              reportId fraudReport []
        ∧ Alert.user a = id)
  ↔ ∃ user,
      users !! id = Some user
      ∧ NotificationService.nearbyQuery geo fraudReport (10 * 1000)%R (id, user)
      ∧ Spec.qualifies id user fraudReport.
Proof.
  unfold NotificationService.createProximityAlerts. cbv zeta.
  rewrite app_nil_l. split.
  - intros (a & Ha & Hu).
    apply list_elem_of_omap in Ha as ([id' user] & He & Ha).
    apply list_elem_of_filter in He as [Hq He].
    apply elem_of_map_to_list in He.
    pose proof (proximityAlert_triple _ _ _ _ _ _ Ha) as Ht.
    unfold Alert.triple in Ht. simpl in Ht.
    assert (id' = id) as -> by congruence.
    exists user. split; [exact He|]. split; [exact Hq|].
    apply (proj1 (proximityAlert_qualifies reportId fraudReport id user)).
    by eexists.
  - intros (user & Hl & Hq & Hs).
    destruct (proj2 (proximityAlert_qualifies reportId fraudReport id user) Hs)
      as [a Ha].
    exists a. split.
    + apply list_elem_of_omap. exists (id, user). split; [|exact Ha].
      apply list_elem_of_filter. split; [exact Hq|].
      by apply elem_of_map_to_list.
    + apply proximityAlert_triple in Ha. unfold Alert.triple in Ha.
      simpl in Ha. congruence.
Qed.

End Proximity.

(** C7 fails as stated: a user 22 km from the report with a 50 km radius
    meets all three conditions of the claim, yet the store's query, capped
    at 10 km, never returns that user and no alert is made. *)
Lemma C7_capped_at_ten_km :
  User.isActive Examples.farUser = true
  ∧ User.notifications (User.preferences Examples.farUser) Channel.push = true
  ∧ Spec.qualifies 4%N Examples.farUser Examples.farReport
  ∧ NotificationService.createProximityAlerts Examples.quiet Examples.sphere 0
      {[ 4%N := Examples.farUser ]} 8%N Examples.farReport []
    = [].
Proof.
  pose proof PI2_1 as Hlo. pose proof PI_4 as Hhi.
  destruct (newFraudReport_fields 9%N (Examples.body None ((1 / 5)%R, 0%R)))
    as (Hby & Hty & Hco).
  assert (NotificationService.calculateDistance
            (User.coordinates Examples.farUser)
            (FraudReport.coordinates Examples.farReport)
          = (6371 * (1 / 5 * (PI / 180)))%R) as Hd.
  { unfold Examples.farReport. rewrite Hco. simpl.
    apply calculateDistance_equator. lra. }
  split; [reflexivity|]. split; [reflexivity|]. split.
  - unfold Spec.qualifies. rewrite Hd. split; [simpl; lra|].
    split; [by left|]. unfold Examples.farReport. rewrite Hby. discriminate.
  - unfold NotificationService.createProximityAlerts. cbv zeta.
    rewrite map_to_list_singleton, filter_cons, decide_False; [reflexivity|].
    intros (Hnear & _). simpl in Hnear. 
    change (1000 * NotificationService.calculateDistance
                     (User.coordinates Examples.farUser)
                     (FraudReport.coordinates Examples.farReport)
            <= 10 * 1000)%R in Hnear.
    rewrite Hd in Hnear. lra.
Qed.

(** C7, amended: an active user with push enabled gets a proximity alert
    for a new report exactly when the store's [$near] query, capped at
    10 km around the report, returns the user, AND the haversine distance is
    at most the user's own [alertRadius] (boundary included), AND the user's
    fraud types are empty or contain the report's, AND the user is not the
    reporter; the reporter never gets one. *)
Theorem C7_proximity_recipients (transport : NotificationService.Transport)
    (geo : NotificationService.GeoIndex) (now : Date)
    (users : gmap ObjectId User.t) (reportId : ObjectId)
    (fraudReport : FraudReport.t) (id : ObjectId) (user : User.t) :
  users !! id = Some user →
  User.isActive user = true →
  User.notifications (User.preferences user) Channel.push = true →
  ((∃ a, a ∈ NotificationService.createProximityAlerts transport geo now users
               reportId fraudReport []
         ∧ Alert.user a = id)
   ↔ (NotificationService.nearMetres geo (User.coordinates user)
        (FraudReport.coordinates fraudReport) <= 10 * 1000)%R
     ∧ (NotificationService.calculateDistance (User.coordinates user)
          (FraudReport.coordinates fraudReport)
        <= User.alertRadius (User.preferences user))%R
     ∧ (User.fraudTypes (User.preferences user) = []
        ∨ FraudReport.fraudType fraudReport
          ∈ User.fraudTypes (User.preferences user))
     ∧ id ≠ FraudReport.reportedBy fraudReport)
  ∧ (id = FraudReport.reportedBy fraudReport →
     ¬ ∃ a, a ∈ NotificationService.createProximityAlerts transport geo now
                  users reportId fraudReport []
            ∧ Alert.user a = id).
Proof.
  intros Hl Hact Hpush.
  pose proof (createProximityAlerts_recipient transport geo now users reportId
                fraudReport id) as Hrec.
  split.
  - rewrite Hrec. split.
    + intros (user' & Hl' & (Hnear & _) & Hq).
      assert (user' = user) as -> by congruence.
      split; [exact Hnear | exact Hq].
    + intros (Hnear & Hq). exists user. split; [exact Hl|].
      split; [|exact Hq]. repeat split; assumption.
  - intros Heq Ha. apply Hrec in Ha as (user' & _ & _ & (_ & _ & Hne)).
    by apply Hne.
Qed.

(** A report filed at the user's own position by somebody else reaches
    the user. *)
Lemma C7_proximity_recipients_witness :
  ∃ a, a ∈ NotificationService.createProximityAlerts Examples.quiet
             Examples.sphere 0 {[ 4%N := Examples.farUser ]} 8%N
             Examples.hereReport []
       ∧ Alert.user a = 4%N.
Proof.
  destruct (C7_proximity_recipients Examples.quiet Examples.sphere 0
              {[ 4%N := Examples.farUser ]} 8%N Examples.hereReport 4%N
              Examples.farUser) as [H _].
  - apply lookup_singleton_eq.
  - reflexivity.
  - reflexivity.
  - apply H.
    destruct (newFraudReport_fields 9%N (Examples.body None Examples.origin))
      as (Hby & Hty & Hco).
    assert (NotificationService.calculateDistance
              (User.coordinates Examples.farUser)
              (FraudReport.coordinates Examples.hereReport) = 0%R) as Hd.
    { unfold Examples.hereReport. rewrite Hco.
      change (NotificationService.calculateDistance (0%R, 0%R) (0%R, 0%R) = 0%R).
      rewrite calculateDistance_equator by lra. lra. }
    split.
    { change (1000 * NotificationService.calculateDistance
                       (User.coordinates Examples.farUser)
                       (FraudReport.coordinates Examples.hereReport)
              <= 10 * 1000)%R.
      rewrite Hd. lra. }
    split; [rewrite Hd; simpl; lra|].
    split; [by left|]. unfold Examples.hereReport. rewrite Hby. discriminate.
Defined.

(** ** The store invariant *)

Lemma updateTrustScore_ok (u : User.t) (reports verifications : Z) :
  0 <= reports → 0 <= verifications →
  Spec.user_ok (User.updateTrustScore (User.set_counts u reports verifications)).
Proof.
  intros Hr Hv. unfold Spec.user_ok.
  rewrite updateTrustScore_score. simpl.
  split; [exact Hr|]. split; [exact Hv|]. by apply reputationScore_bounds.
Qed.

Lemma postVerify_ok (now : Date) (reportId userId : ObjectId)
    (vote : FraudReport.Vote) (comment : option string) (db : Routes.Db) :
  Spec.db_ok db →
  Spec.db_ok (Routes.postVerify now reportId userId vote comment db).2.
Proof.
  intros [Hreports Husers].
  destruct (Routes.reports db !! reportId) as [report|] eqn:Hr;
    [|unfold Routes.postVerify; by rewrite Hr].
  destruct (Hreports _ _ Hr) as [Hc Hnd].
  destruct (postVerify_report now reportId userId vote comment db report Hr)
    as (report' & _ & Hcalc & He & Hn).
  assert (Spec.counted report' ∧ NoDup (Spec.voters report')) as Hok'.
  { pose proof (applyVote_counted userId vote comment now report Hc) as Hc'.
    pose proof (applyVote_NoDup userId vote comment now report Hnd) as Hnd'.
    unfold Spec.counted, Spec.voters in *. by rewrite Hn, He. }
  unfold Routes.postVerify. rewrite Hr, Hcalc.
  destruct (list_find _ _) as [[i old]|];
    [|destruct (Routes.users _ !! userId) as [u|] eqn:Hu]; simpl.
  - split; [by apply map_Forall_insert_2 | exact Husers].
  - split; [by apply map_Forall_insert_2|].
    apply map_Forall_insert_2; [|exact Husers].
    simpl in Hu. destruct (Husers _ _ Hu) as (? & ? & _).
    apply updateTrustScore_ok; lia.
  - split; [by apply map_Forall_insert_2 | exact Husers].
Qed.

Lemma postReport_ok (transport : NotificationService.Transport)
    (geo : NotificationService.GeoIndex) (now : Date)
    (reportId reqUser : ObjectId) (body : Routes.ReportBody) (db : Routes.Db) :
  Spec.db_ok db →
  Spec.db_ok (Routes.postReport transport geo now reportId reqUser body db).2.
Proof.
  intros [Hreports Husers].
  assert (Spec.counted (Routes.newFraudReport reqUser body)
          ∧ NoDup (Spec.voters (Routes.newFraudReport reqUser body))) as Hnew.
  { split; [apply newFraudReport_counted|].
    unfold Spec.voters, Spec.entries.
    rewrite newFraudReport_verification. constructor. }
  unfold Routes.postReport.
  destruct (Routes.users _ !! reqUser) as [u|] eqn:Hu; simpl.
  - split; [by apply map_Forall_insert_2|].
    apply map_Forall_insert_2; [|exact Husers].
    simpl in Hu. destruct (Husers _ _ Hu) as (? & ? & _).
    apply updateTrustScore_ok; lia.
  - split; [by apply map_Forall_insert_2 | exact Husers].
Qed.

(** In a store the handlers have kept, every score a vote stores lies in
    [0,100]. *)
Lemma postVerify_score_bounds (now : Date) (reportId userId : ObjectId)
    (vote : FraudReport.Vote) (comment : option string) (db : Routes.Db)
    (report : FraudReport.t) :
  Spec.db_ok db →
  Routes.reports db !! reportId = Some report →
  ∃ report',
    Routes.reports (Routes.postVerify now reportId userId vote comment db).2
      !! reportId = Some report'
    ∧ 0 <= FraudReport.trustScore (FraudReport.verification report') <= 100.
Proof.
  intros [Hreports Husers] Hr.
  destruct (Hreports _ _ Hr) as [Hc _].
  destruct (postVerify_report now reportId userId vote comment db report Hr)
    as (report' & Hr' & Hcalc & _).
  exists report'. split; [exact Hr'|].
  rewrite calculateTrustScore_refines in Hcalc. injection Hcalc as <-.
  cbn [FraudReport.set_verification FraudReport.verification
       FraudReport.trustScore].
  apply computeTrustScore_bounds; [by apply applyVote_counted|].
  intros id u Hu. destruct (Husers _ _ Hu) as (_ & _ & ?).
  unfold User.schema_ok. lia.
Qed.

(** There, every voter the score consults weighs at least 1/2. *)
Lemma db_ok_weight (db : Routes.Db) (e : FraudReport.VerifiedBy) (w : Q) :
  Spec.db_ok db →
  FraudReport.voterWeight (Routes.users db) e = Some w →
  (1 # 2 <= w)%Q.
Proof.
  intros [_ Husers] Hw.
  unfold FraudReport.voterWeight, FraudReport.resolved in Hw.
  destruct (Routes.users db !! FraudReport.user e) as [u|] eqn:Hu;
    [|discriminate].
  destruct (Husers _ _ Hu) as (_ & _ & Hs).
  destruct (User.trustScore u =? 0); [discriminate|].
  injection Hw as <-. apply half_le_weight. lia.
Qed.

(** * Further properties of the code *)

(** ** Delivery (sendAlertNotifications) *)

(** The state [sendAlertNotifications] leaves a channel in: marked at [now]
    when the channel passed its tests and the transport answered [true],
    untouched otherwise. *)
Lemma sendAlertNotifications_channels (transport : NotificationService.Transport)
    (now : Date) (user : User.t) (alert : Alert.t) (c : Channel.t) :
  Alert.channels
    (NotificationService.sendAlertNotifications transport now user alert) c
  = if match c with
       | Channel.push =>
           Alert.shouldSendViaChannel alert Channel.push (User.preferences user)
           && JS.truthy (User.fcmToken user)
           && NotificationService.sendPushNotification transport
                (default "" (User.fcmToken user)) alert
       | Channel.email =>
           Alert.shouldSendViaChannel alert Channel.email (User.preferences user)
           && NotificationService.sendEmail transport (User.email user) alert
       | Channel.sms =>
           Alert.shouldSendViaChannel alert Channel.sms (User.preferences user)
           && JS.truthy (User.phone user)
           && bool_decide (Alert.severity alert ∈ [Alert.high; Alert.critical])
           && NotificationService.sendSMS transport
                (default "" (User.phone user)) alert
       end
    then {| Alert.sent := true; Alert.sentAt := Some now |}
    else Alert.channels alert c.
Proof.
  unfold NotificationService.sendAlertNotifications. cbv zeta.
  destruct (Alert.shouldSendViaChannel alert Channel.push _ && _ && _);
    destruct (Alert.shouldSendViaChannel alert Channel.email _ && _);
    destruct (Alert.shouldSendViaChannel alert Channel.sms _ && _ && _ && _);
    destruct c; reflexivity.
Qed.

Lemma sendAlertNotifications_fields (transport : NotificationService.Transport)
    (now : Date) (user : User.t) (alert : Alert.t) :
  let alert' := NotificationService.sendAlertNotifications transport now user alert in
  Alert.triple alert' = Alert.triple alert
  ∧ Alert.title alert' = Alert.title alert
  ∧ Alert.severity alert' = Alert.severity alert
  ∧ Alert.matchCriteria alert' = Alert.matchCriteria alert
  ∧ Alert.isRead alert' = Alert.isRead alert
  ∧ Alert.isActive alert' = Alert.isActive alert.
Proof.
  unfold NotificationService.sendAlertNotifications. cbv zeta.
  repeat case_match; repeat split; reflexivity.
Qed.

(** X1: a delivery pass changes nothing but channel states, and it marks a
    channel sent only when the recipient enabled that channel and the
    transport answered [true]; a channel whose transport answers [false]
    keeps its state, so the alert stays eligible for a later pass. *)
Theorem sendAlertNotifications_marks_on_success
    (transport : NotificationService.Transport) (now : Date)
    (user : User.t) (alert : Alert.t) (c : Channel.t) :
  let alert' := NotificationService.sendAlertNotifications transport now user alert in
  let answered :=
    match c with
    | Channel.push =>
        NotificationService.sendPushNotification transport
          (default "" (User.fcmToken user)) alert
    | Channel.email =>
        NotificationService.sendEmail transport (User.email user) alert
    | Channel.sms =>
        NotificationService.sendSMS transport (default "" (User.phone user)) alert
    end in
  Alert.severity alert' = Alert.severity alert
  ∧ Alert.isRead alert' = Alert.isRead alert
  ∧ Alert.isActive alert' = Alert.isActive alert
  ∧ (Alert.channels alert' c ≠ Alert.channels alert c →
     User.notifications (User.preferences user) c = true
     ∧ Alert.sent (Alert.channels alert c) = false
     ∧ answered = true
     ∧ Alert.channels alert' c = {| Alert.sent := true; Alert.sentAt := Some now |})
  ∧ (answered = false → Alert.channels alert' c = Alert.channels alert c).
Proof.
  intros alert' answered.
  destruct (sendAlertNotifications_fields transport now user alert)
    as (_ & _ & Hsev & _ & Hread & Hact).
  split; [exact Hsev|]. split; [exact Hread|]. split; [exact Hact|].
  subst alert' answered. rewrite sendAlertNotifications_channels.
  split.
  - intros Hne.
    destruct c;
      match goal with
      | |- context [if ?b then _ else _] => destruct b eqn:Hb; [|done]
      end;
      repeat (apply andb_true_iff in Hb as [Hb ?]);
      apply shouldSendViaChannel_spec in Hb as (? & ? & _); done.
  - intros Hans.
    destruct c; rewrite Hans, ?andb_false_r; reflexivity.
Qed.

Lemma sendAlertNotifications_marks_on_success_witness :
  Alert.channels
    (NotificationService.sendAlertNotifications Examples.quiet 5 Examples.victim
       (Alert.create 3%N 8%N Alert.phone_match "⚠️ Your Phone Number Reported"
          Alert.critical
          {| Alert.distance := None; Alert.phoneNumber := Some "+15551234567";
             Alert.email := None |})) Channel.email
  = {| Alert.sent := false; Alert.sentAt := None |}.
Proof.
  destruct (sendAlertNotifications_marks_on_success Examples.quiet 5
              Examples.victim
              (Alert.create 3%N 8%N Alert.phone_match
                 "⚠️ Your Phone Number Reported" Alert.critical
                 {| Alert.distance := None;
                    Alert.phoneNumber := Some "+15551234567";
                    Alert.email := None |}) Channel.email)
    as (_ & _ & _ & _ & H).
  apply H. reflexivity.
Defined.

(** X2: an alert of severity low or medium never goes out by SMS, whatever
    the recipient's preferences and whatever the transport answers: the SMS
    branch asks for severity high or critical on top of
    [shouldSendViaChannel]. *)
Theorem sendAlertNotifications_sms_needs_high
    (transport : NotificationService.Transport) (now : Date)
    (user : User.t) (alert : Alert.t) :
  Alert.severity alert = Alert.low ∨ Alert.severity alert = Alert.medium →
  Alert.channels
    (NotificationService.sendAlertNotifications transport now user alert)
    Channel.sms
  = Alert.channels alert Channel.sms.
Proof.
  intros Hsev. rewrite sendAlertNotifications_channels.
  rewrite bool_decide_eq_false_2; [by rewrite andb_false_r|].
  intros Hin. apply elem_of_cons in Hin as [Hin|Hin]; [destruct Hsev; congruence|].
  apply list_elem_of_singleton in Hin. destruct Hsev; congruence.
Qed.

(** A medium alert for a user who enabled SMS and has a phone number, over
    a transport that would deliver it. *)
Lemma sendAlertNotifications_sms_needs_high_witness :
  let eager :=
    {| NotificationService.sendEmail := λ _ _, true;
       NotificationService.sendSMS := λ _ _, true;
       NotificationService.sendPushNotification := λ _ _, true |} in
  let alert :=
    Alert.create 3%N 8%N Alert.proximity "🚨 Fraud Alert Nearby" Alert.medium
      {| Alert.distance := None; Alert.phoneNumber := None; Alert.email := None |} in
  Alert.shouldSendViaChannel alert Channel.sms
    {| User.notifications := λ _, true; User.alertRadius := 10%R;
       User.fraudTypes := [] |} = true
  ∧ Alert.channels
      (NotificationService.sendAlertNotifications eager 5 Examples.victim alert)
      Channel.sms
    = {| Alert.sent := false; Alert.sentAt := None |}.
Proof.
  intros eager alert. split; [reflexivity|].
  apply (sendAlertNotifications_sms_needs_high eager 5 Examples.victim alert).
  by right.
Defined.

(** X3: a channel already marked sent is left exactly as it is by every
    later delivery pass, whoever the pass is run for and whatever the
    transport answers: the first delivery time is kept and nothing is sent
    twice. *)
Theorem sendAlertNotifications_keeps_sent
    (transport : NotificationService.Transport) (now : Date)
    (user : User.t) (alert : Alert.t) (c : Channel.t) :
  Alert.sent (Alert.channels alert c) = true →
  Alert.channels
    (NotificationService.sendAlertNotifications transport now user alert) c
  = Alert.channels alert c.
Proof.
  intros Hsent. rewrite sendAlertNotifications_channels.
  assert (Alert.shouldSendViaChannel alert c (User.preferences user) = false)
    as Hno.
  { apply not_true_is_false. intros H.
    apply shouldSendViaChannel_spec in H as (_ & H & _). congruence. }
  destruct c; by rewrite Hno.
Qed.

Lemma sendAlertNotifications_keeps_sent_witness :
  let eager :=
    {| NotificationService.sendEmail := λ _ _, true;
       NotificationService.sendSMS := λ _ _, true;
       NotificationService.sendPushNotification := λ _ _, true |} in
  let alert :=
    Alert.create 3%N 8%N Alert.proximity "🚨 Fraud Alert Nearby" Alert.medium
      {| Alert.distance := None; Alert.phoneNumber := None; Alert.email := None |} in
  Alert.channels
    (NotificationService.sendAlertNotifications eager 9 Examples.victim
       (NotificationService.sendAlertNotifications eager 5 Examples.victim alert))
    Channel.email
  = {| Alert.sent := true; Alert.sentAt := Some 5 |}.
Proof.
  intros eager alert.
  rewrite (sendAlertNotifications_keeps_sent eager 9 Examples.victim _ Channel.email);
    reflexivity.
Defined.

(** ** Distance (calculateDistance) *)



(** ** Identifier matches (createMatchAlerts) *)

Section MatchAlerts.

Variable transport : NotificationService.Transport.
Variable now : Date.

Lemma createMatchAlerts_member (users : gmap ObjectId User.t)
    (reportId : ObjectId) (fraudReport : FraudReport.t) (a : Alert.t) :
  a ∈ NotificationService.createMatchAlerts transport now users reportId
        fraudReport []
  ↔ ∃ id user,
      users !! id = Some user ∧ User.isActive user = true
      ∧ a ∈ NotificationService.matchAlerts transport now reportId fraudReport
              (id, user).
Proof.
  unfold NotificationService.createMatchAlerts. cbv zeta.
  rewrite fold_left_app_bind, app_nil_l, list_elem_of_bind. split.
  - intros ([id user] & Ha & He).
    apply list_elem_of_filter in He as [Hact He].
    apply elem_of_map_to_list in He. by exists id, user.
  - intros (id & user & Hl & Hact & Ha). exists (id, user). split; [exact Ha|].
    apply list_elem_of_filter. split; [exact Hact|].
    by apply elem_of_map_to_list.
Qed.

Lemma matchAlerts_elem (reportId : ObjectId) (fraudReport : FraudReport.t)
    (id : ObjectId) (user : User.t) (a : Alert.t) :
  a ∈ NotificationService.matchAlerts transport now reportId fraudReport (id, user)
  ↔ ∃ d, d ∈ NotificationService.matchData fraudReport user
         ∧ a = NotificationService.sendAlertNotifications transport now user
                 (Alert.create id reportId d.1.1 d.1.2 Alert.critical d.2).
Proof.
  unfold NotificationService.matchAlerts. rewrite list_elem_of_fmap.
  split; intros (d & H1 & H2); exists d; by split.
Qed.

Lemma matchData_kind (fraudReport : FraudReport.t) (user : User.t)
    (ty : Alert.AlertType) :
  (∃ d, d ∈ NotificationService.matchData fraudReport user ∧ d.1.1 = ty)
  ↔ (ty = Alert.phone_match
     ∧ JS.truthy (FraudReport.phoneNumber (FraudReport.evidenceData fraudReport))
       = true
     ∧ User.phone user
       = FraudReport.phoneNumber (FraudReport.evidenceData fraudReport))
    ∨ (ty = Alert.email_match
       ∧ JS.truthy (FraudReport.email (FraudReport.evidenceData fraudReport))
         = true
       ∧ Some (User.email user)
         = FraudReport.email (FraudReport.evidenceData fraudReport)).
Proof.
  unfold NotificationService.matchData. cbv zeta.
  destruct (JS.truthy (FraudReport.phoneNumber _)) eqn:Hp;
    destruct (JS.truthy (FraudReport.email _)) eqn:He; simpl;
    repeat case_bool_decide; simpl; split;
    try (intros (d & Hd & <-);
         repeat (apply elem_of_cons in Hd as [->|Hd]);
         try (by apply elem_of_nil in Hd); simpl; by auto);
    intros [(-> & ? & ?)|(-> & ? & ?)]; try done;
    try (eexists; split; [apply list_elem_of_here|reflexivity]);
    try (eexists; split; [apply list_elem_of_further, list_elem_of_here|reflexivity]).
Qed.

(** X5: an identifier-match alert of a given kind goes to exactly the
    active users whose registered phone number (or email address) equals
    the report's non-empty evidence phone number (or email address);
    location, radius, subscribed fraud types, notification preferences and
    being the reporter play no part.  Every such alert is critical and is
    filed under the report. *)
Theorem createMatchAlerts_recipients (users : gmap ObjectId User.t)
    (reportId : ObjectId) (fraudReport : FraudReport.t) (id : ObjectId) :
  let created :=
    NotificationService.createMatchAlerts transport now users reportId
      fraudReport [] in
  let evidence := FraudReport.evidenceData fraudReport in
  ((∃ a, a ∈ created ∧ Alert.user a = id ∧ Alert.alertType a = Alert.phone_match)
   ↔ ∃ user, users !! id = Some user ∧ User.isActive user = true
             ∧ JS.truthy (FraudReport.phoneNumber evidence) = true
             ∧ User.phone user = FraudReport.phoneNumber evidence)
  ∧ ((∃ a, a ∈ created ∧ Alert.user a = id ∧ Alert.alertType a = Alert.email_match)
     ↔ ∃ user, users !! id = Some user ∧ User.isActive user = true
               ∧ JS.truthy (FraudReport.email evidence) = true
               ∧ Some (User.email user) = FraudReport.email evidence)
  ∧ (∀ a, a ∈ created →
          Alert.severity a = Alert.critical
          ∧ Alert.fraudReport a = reportId
          ∧ Alert.alertType a ∈ [Alert.phone_match; Alert.email_match]).
Proof.
  intros created evidence. subst created evidence.
  assert (∀ ty,
    (∃ a, a ∈ NotificationService.createMatchAlerts transport now users
                reportId fraudReport []
          ∧ Alert.user a = id ∧ Alert.alertType a = ty)
    ↔ ∃ user, users !! id = Some user ∧ User.isActive user = true
              ∧ ∃ d, d ∈ NotificationService.matchData fraudReport user
                     ∧ d.1.1 = ty) as Hkind.
  { intros ty. split.
    - intros (a & Ha & Hu & Hty).
      apply createMatchAlerts_member in Ha as (id' & user & Hl & Hact & Ha).
      apply matchAlerts_elem in Ha as (d & Hd & ->).
      pose proof (sendAlertNotifications_triple transport now user
                    (Alert.create id' reportId d.1.1 d.1.2 Alert.critical d.2))
        as Ht.
      unfold Alert.triple in Ht. simpl in Ht. injection Ht as Hu' _ Hty'.
      rewrite Hu' in Hu. rewrite Hty' in Hty. subst id'.
      exists user. split; [exact Hl|]. split; [exact Hact|]. by exists d.
    - intros (user & Hl & Hact & d & Hd & Hty).
      eexists. split.
      + apply createMatchAlerts_member. exists id, user.
        split; [exact Hl|]. split; [exact Hact|].
        apply matchAlerts_elem. exists d. split; [exact Hd | reflexivity].
      + pose proof (sendAlertNotifications_triple transport now user
                      (Alert.create id reportId d.1.1 d.1.2 Alert.critical d.2))
          as Ht.
        unfold Alert.triple in Ht. simpl in Ht. injection Ht as Hu' _ Hty'.
        by rewrite Hu', Hty'. }
  split; [|split].
  - rewrite Hkind. split.
    + intros (user & Hl & Hact & Hd). exists user.
      apply matchData_kind in Hd as [(_ & ? & ?)|(? & _)]; done.
    + intros (user & Hl & Hact & Hp & Heq). exists user.
      split; [exact Hl|]. split; [exact Hact|].
      apply matchData_kind. left. done.
  - rewrite Hkind. split.
    + intros (user & Hl & Hact & Hd). exists user.
      apply matchData_kind in Hd as [(? & _)|(_ & ? & ?)]; done.
    + intros (user & Hl & Hact & Hp & Heq). exists user.
      split; [exact Hl|]. split; [exact Hact|].
      apply matchData_kind. right. done.
  - intros a Ha.
    apply createMatchAlerts_member in Ha as (id' & user & _ & _ & Ha).
    destruct (matchAlerts_member transport now reportId fraudReport (id', user)
                a Ha) as (_ & Hr & Hty).
    split; [|by split].
    apply matchAlerts_elem in Ha as (d & _ & ->).
    by destruct (sendAlertNotifications_fields transport now user
                   (Alert.create id' reportId d.1.1 d.1.2 Alert.critical d.2))
      as (_ & _ & -> & _).
Qed.

End MatchAlerts.

Lemma createMatchAlerts_recipients_witness :
  ∃ a, a ∈ NotificationService.createMatchAlerts Examples.quiet 0
             Examples.usersV 8%N Examples.phoneReport []
       ∧ Alert.user a = 3%N ∧ Alert.alertType a = Alert.phone_match.
Proof.
  destruct (createMatchAlerts_recipients Examples.quiet 0 Examples.usersV 8%N
              Examples.phoneReport 3%N) as (H & _).
  apply H. exists Examples.victim. repeat split; reflexivity.
Defined.

(** X6: neither pass ever creates an alert for a user who is inactive or
    not in the user collection; a proximity alert moreover needs push
    enabled and never goes to the reporter, while a match alert needs
    neither. *)
Theorem alerts_only_for_active_users (transport : NotificationService.Transport)
    (geo : NotificationService.GeoIndex) (now : Date)
    (users : gmap ObjectId User.t) (reportId : ObjectId)
    (fraudReport : FraudReport.t) (a : Alert.t) :
  (a ∈ NotificationService.createProximityAlerts transport geo now users
         reportId fraudReport [] →
   ∃ user, users !! Alert.user a = Some user
           ∧ User.isActive user = true
           ∧ User.notifications (User.preferences user) Channel.push = true
           ∧ Alert.user a ≠ FraudReport.reportedBy fraudReport)
  ∧ (a ∈ NotificationService.createMatchAlerts transport now users reportId
           fraudReport [] →
     ∃ user, users !! Alert.user a = Some user ∧ User.isActive user = true).
Proof.
  split.
  - intros Ha.
    destruct (proj1 (createProximityAlerts_recipient transport geo now users
                       reportId fraudReport (Alert.user a)))
      as (user & Hl & (_ & Hact & Hpush) & (_ & _ & Hne)); [by exists a|].
    by exists user.
  - intros Ha.
    apply createMatchAlerts_member in Ha as (id & user & Hl & Hact & Ha).
    apply matchAlerts_member in Ha as (-> & _). by exists user.
Qed.

Lemma alerts_only_for_active_users_witness :
  ∃ user, Examples.usersV !! 3%N = Some user ∧ User.isActive user = true.
Proof.
  destruct (alerts_only_for_active_users Examples.quiet Examples.sphere 0
              Examples.usersV 8%N Examples.phoneReport
              (NotificationService.sendAlertNotifications Examples.quiet 0
                 Examples.victim
                 (Alert.create 3%N 8%N Alert.phone_match
                    "⚠️ Your Phone Number Reported" Alert.critical
                    {| Alert.distance := None;
                       Alert.phoneNumber := Some "+15551234567";
                       Alert.email := None |}))) as [_ H].
  apply H.
  change (NotificationService.createMatchAlerts Examples.quiet 0
            Examples.usersV 8%N Examples.phoneReport [])
    with [NotificationService.sendAlertNotifications Examples.quiet 0
            Examples.victim
            (Alert.create 3%N 8%N Alert.phone_match
               "⚠️ Your Phone Number Reported" Alert.critical
               {| Alert.distance := None;
                  Alert.phoneNumber := Some "+15551234567";
                  Alert.email := None |})].
  apply list_elem_of_here.
Defined.

(** ** Votes and reputation (POST /reports/:id/verify) *)

Lemma Math_round_integer (z : Z) (q : Q) : (q == inject_Z z)%Q → JS.Math_round q = z.
Proof.
  intros H. unfold JS.Math_round. rewrite H.
  pose proof (Qfloor_le (inject_Z z + (1 # 2))) as H1.
  pose proof (Qlt_floor (inject_Z z + (1 # 2))) as H2.
  set (f := Qfloor (inject_Z z + (1 # 2))) in *.
  rewrite inject_Z_plus in H2. change (inject_Z 1) with 1%Q in H2.
  assert (inject_Z f < inject_Z (z + 1))%Q as Hlt
    by (rewrite inject_Z_plus; change (inject_Z 1) with 1%Q; lra).
  assert (inject_Z z < inject_Z (f + 1))%Q as Hgt
    by (rewrite inject_Z_plus; change (inject_Z 1) with 1%Q; lra).
  rewrite <- Zlt_Qlt in Hlt, Hgt. lia.
Qed.

Lemma first_vote_score (populated : gmap ObjectId User.t)
    (report : FraudReport.t) (e : FraudReport.VerifiedBy) :
  Spec.entries report = [e] →
  FraudReport.verificationCount (FraudReport.verification report) = 1 →
  Spec.computeTrustScore populated report
  = if decide (FraudReport.vote e = FraudReport.confirm) then 100 else 0.
Proof.
  intros He Hc.
  unfold Spec.computeTrustScore, Spec.totalWeight, Spec.weightedConfirm,
    Spec.confirmCount.
  rewrite Hc, He. rewrite decide_False by lia.
  rewrite filter_cons, filter_nil.
  destruct (decide (FraudReport.vote e = FraudReport.confirm)) as [Hv|Hv];
    cbn [fmap list_fmap length Spec.Qsum foldr];
    destruct (Qlt_le_dec _ _) as [Hpos|_];
    apply Math_round_integer.
  - field. intros E0. rewrite E0 in Hpos. by apply Qlt_irrefl in Hpos.
  - reflexivity.
  - field. intros E0. rewrite E0 in Hpos. by apply Qlt_irrefl in Hpos.
  - reflexivity.
Qed.

(** X7: on a report nobody has voted on, the first vote alone fixes the
    score, whoever casts it (the handler has no guard against the reporter
    voting on the own report) and whatever the voter's trust score: a
    confirm stores 100 and status verified, a deny or an uncertain stores 0
    and status disputed. *)
Theorem first_vote_decides (now : Date) (reportId userId : ObjectId)
    (vote : FraudReport.Vote) (comment : option string) (db : Routes.Db)
    (report : FraudReport.t) :
  Routes.reports db !! reportId = Some report →
  Spec.entries report = [] →
  FraudReport.verificationCount (FraudReport.verification report) = 0 →
  ∃ report',
    Routes.reports (Routes.postVerify now reportId userId vote comment db).2
      !! reportId = Some report'
    ∧ FraudReport.verificationCount (FraudReport.verification report') = 1
    ∧ FraudReport.trustScore (FraudReport.verification report')
      = (if decide (vote = FraudReport.confirm) then 100 else 0)
    ∧ FraudReport.status (FraudReport.verification report')
      = (if decide (vote = FraudReport.confirm)
         then FraudReport.verified else FraudReport.disputed).
Proof.
  intros Hr He Hc.
  destruct (postVerify_report now reportId userId vote comment db report Hr)
    as (report' & Hr' & Hcalc & He' & Hc').
  assert (userId ∉ Spec.voters report) as Hnew
    by (unfold Spec.voters; rewrite He; apply not_elem_of_nil).
  destruct (applyVote_new userId vote comment now report Hnew) as [Hent Hcnt].
  rewrite He in Hent. rewrite Hc in Hcnt. simpl in Hent, Hcnt.
  exists report'. split; [exact Hr'|].
  split; [by rewrite Hc'|].
  rewrite calculateTrustScore_refines in Hcalc. injection Hcalc as <-.
  cbn [FraudReport.set_verification FraudReport.verification
       FraudReport.trustScore FraudReport.status].
  rewrite (first_vote_score _ _ _ Hent Hcnt). rewrite Hcnt.
  cbn [Spec.entry FraudReport.vote].
  rewrite (decide_False (P := 1 = 0)) by lia.
  split; [reflexivity|].
  unfold Spec.statusFor. by destruct (decide (vote = FraudReport.confirm)).
Qed.

(** The reporter (user 9) confirming the own fresh report. *)
Lemma first_vote_decides_witness :
  ∃ report',
    Routes.reports
      (Routes.postVerify 1000 7%N 9%N FraudReport.confirm None Examples.dbAB).2
      !! 7%N = Some report'
    ∧ FraudReport.reportedBy report' = 9%N
    ∧ FraudReport.trustScore (FraudReport.verification report') = 100
    ∧ FraudReport.status (FraudReport.verification report') = FraudReport.verified.
Proof.
  destruct (first_vote_decides 1000 7%N 9%N FraudReport.confirm None
              Examples.dbAB Examples.freshReport)
    as (r & Hr & _ & Hs & Hst); [reflexivity..|].
  exists r. split; [exact Hr|]. split; [|by split].
  vm_compute in Hr. by injection Hr as <-.
Defined.



(** ** New reports (POST /report), continued *)

(** X9: the priority POST /report gives a report: Ponzi and investment
    reports are always high, never critical, whatever loss they declare;
    any other report is critical when it declares a loss above 10000, else
    high when it declares more than 10 affected users, else medium; no
    report starts as low. *)
Theorem newFraudReport_priority (reqUser : ObjectId) (body : Routes.ReportBody) :
  let priority := FraudReport.priority (Routes.newFraudReport reqUser body) in
  let schemes :=
    Routes.fraudType body = ponzi ∨ Routes.fraudType body = investment in
  let loss := ∃ i, Routes.impact body = Some i ∧ 10000 < FraudReport.financialLoss i in
  let crowd := ∃ i, Routes.impact body = Some i ∧ 10 < FraudReport.affectedUsers i in
  (priority = FraudReport.critical ↔ ¬ schemes ∧ loss)
  ∧ (priority = FraudReport.high ↔ schemes ∨ (¬ loss ∧ crowd))
  ∧ (priority = FraudReport.medium ↔ ¬ schemes ∧ ¬ loss ∧ ¬ crowd)
  ∧ priority ≠ FraudReport.low.
Proof.
  intros priority schemes loss crowd.
  assert (schemes ↔ bool_decide (Routes.fraudType body = ponzi)
                    || bool_decide (Routes.fraudType body = investment) = true)
    as Hs.
  { unfold schemes. rewrite orb_true_iff, !bool_decide_eq_true. tauto. }
  assert (loss ↔ match Routes.impact body with
                 | Some i => (10000 <? FraudReport.financialLoss i) = true
                 | None => False
                 end) as Hl.
  { unfold loss. destruct (Routes.impact body) as [i|].
    - rewrite Z.ltb_lt. split; [by intros (? & [= <-] & ?) | by exists i].
    - split; [by intros (? & [=] & _) | done]. }
  assert (crowd ↔ match Routes.impact body with
                  | Some i => (10 <? FraudReport.affectedUsers i) = true
                  | None => False
                  end) as Hc.
  { unfold crowd. destruct (Routes.impact body) as [i|].
    - rewrite Z.ltb_lt. split; [by intros (? & [= <-] & ?) | by exists i].
    - split; [by intros (? & [=] & _) | done]. }
  clearbody schemes loss crowd. subst priority.
  unfold Routes.newFraudReport. cbv zeta.
  destruct (_ || _).
  { simpl. intuition discriminate. }
  destruct (Routes.impact body) as [i|]; [|simpl; intuition discriminate].
  destruct (10000 <? _); [simpl; intuition discriminate|].
  destruct (10 <? _); simpl; intuition discriminate.
Qed.

(** An investment report declaring a loss of 50000 is high, not critical. *)
Lemma newFraudReport_priority_witness :
  FraudReport.priority
    (Routes.newFraudReport 9%N
       {| Routes.fraudType := investment; Routes.title := "Trading bot";
          Routes.coordinates := Examples.origin;
          Routes.evidenceData :=
            {| FraudReport.phoneNumber := None; FraudReport.email := None |};
          Routes.impact :=
            Some {| FraudReport.financialLoss := 50000;
                    FraudReport.affectedUsers := 1 |} |})
  = FraudReport.high.
Proof.
  apply (newFraudReport_priority 9%N). left. by right.
Defined.




(** ** The alert router (routes/alerts.js) *)

Lemma findOne_Some (s : AlertRoutes.Store) (id : nat) (reqUser : ObjectId)
    (a : Alert.t) :
  AlertRoutes.findOne s id reqUser = Some a
  ↔ AlertRoutes.alerts s !! id = Some a ∧ Alert.user a = reqUser.
Proof.
  unfold AlertRoutes.findOne.
  destruct (AlertRoutes.alerts s !! id) as [a'|]; [|split; [done|by intros [? _]]].
  case_decide; split; try done.
  - by intros [= <-].
  - by intros [[= <-] _].
  - by intros [[= <-] ?].
Qed.

(** X11: a user can neither fetch, nor mark read, nor delete an alert that
    does not exist or belongs to somebody else.  When the path segment is an
    ObjectId, each of the three routes answers 404; when it is none, as for
    [stats], each answers 500.  The store is left untouched in both
    cases. *)
Theorem foreign_alert_not_found (castObjectId : string -> option nat)
    (now : Date) (reqUser : ObjectId) (id : string) (s : AlertRoutes.Store) :
  (castObjectId id = None ->
   AlertRequest.getAlert castObjectId reqUser id s = AlertRoutes.ServerError500
   /\ AlertRequest.putRead castObjectId now reqUser id s
      = (AlertRoutes.ServerError500, s)
   /\ AlertRequest.deleteAlert castObjectId reqUser id s
      = (AlertRoutes.ServerError500, s))
  /\ (forall _id,
        castObjectId id = Some _id ->
        (forall a, AlertRoutes.alerts s !! _id = Some a -> Alert.user a <> reqUser) ->
        AlertRequest.getAlert castObjectId reqUser id s = AlertRoutes.NotFound404
        /\ AlertRequest.putRead castObjectId now reqUser id s
           = (AlertRoutes.NotFound404, s)
        /\ AlertRequest.deleteAlert castObjectId reqUser id s
           = (AlertRoutes.NotFound404, s)).
Proof.
  unfold AlertRequest.getAlert, AlertRequest.putRead, AlertRequest.deleteAlert.
  split.
  - intros ->. repeat split.
  - intros _id -> Hforeign.
    assert (AlertRoutes.findOne s _id reqUser = None) as Hnone.
    { destruct (AlertRoutes.findOne s _id reqUser) as [a|] eqn:E; [|done].
      apply findOne_Some in E as [Hl Hu]. by destruct (Hforeign a Hl). }
    unfold AlertRoutes.getAlert, AlertRoutes.putRead, AlertRoutes.deleteAlert.
    by rewrite Hnone.
Qed.

(** The segment [stats] is no ObjectId: 500.  The first alert of the
    collection belongs to user 3, so user 1 gets 404 for it. *)
Lemma foreign_alert_not_found_witness :
  let castObjectId (segment : string) :=
    if String.eqb segment "000000000000000000000000" then Some 0%nat else None in
  let s :=
    {| AlertRoutes.db :=
         Routes.set_alerts
           (NotificationService.createMatchAlerts Examples.quiet 0
              Examples.usersV 8%N Examples.phoneReport []) Examples.dbAB;
       AlertRoutes.readAt := λ _, None |} in
  AlertRequest.getAlert castObjectId 1%N "stats" s = AlertRoutes.ServerError500
  /\ AlertRequest.deleteAlert castObjectId 1%N "000000000000000000000000" s
     = (AlertRoutes.NotFound404, s).
Proof.
  intros castObjectId s. split.
  - destruct (foreign_alert_not_found castObjectId 0 1%N "stats" s) as [H _].
    destruct H as [H _]; [reflexivity | exact H].
  - destruct (foreign_alert_not_found castObjectId 0 1%N
                "000000000000000000000000" s) as [_ H].
    destruct (H 0%nat) as (_ & _ & Hd); [reflexivity| |exact Hd].
    intros a Ha. vm_compute in Ha. injection Ha as <-. discriminate.
Defined.

(** X12: marking one's own alert read sets [isRead] on that alert and
    stamps its [readAt] with the time of the request, also when the alert
    had been read before; the alert keeps its recipient, report, type,
    severity, channel states and [isActive]; every other alert and every
    other [readAt] stays as it was, and users and reports are not touched. *)
Theorem putRead_own_alert (now : Date) (reqUser : ObjectId) (id : nat)
    (s : AlertRoutes.Store) (a : Alert.t) :
  AlertRoutes.alerts s !! id = Some a →
  Alert.user a = reqUser →
  ∃ s',
    AlertRoutes.putRead now reqUser id s = (AlertRoutes.Ok200 (), s')
    ∧ AlertRoutes.alerts s' !! id = Some (AlertRoutes.set_isRead a true)
    ∧ AlertRoutes.readAt s' id = Some now
    ∧ (∀ j, j ≠ id →
         AlertRoutes.alerts s' !! j = AlertRoutes.alerts s !! j
         ∧ AlertRoutes.readAt s' j = AlertRoutes.readAt s j)
    ∧ length (AlertRoutes.alerts s') = length (AlertRoutes.alerts s)
    ∧ Routes.users (AlertRoutes.db s') = Routes.users (AlertRoutes.db s)
    ∧ Routes.reports (AlertRoutes.db s') = Routes.reports (AlertRoutes.db s).
Proof.
  intros Hl Hu. eexists. split.
  { unfold AlertRoutes.putRead.
    by rewrite (proj2 (findOne_Some s id reqUser a) (conj Hl Hu)). }
  unfold AlertRoutes.markAsRead, AlertRoutes.alerts in *; simpl.
  split; [by rewrite list_lookup_alter_eq, Hl|].
  split; [by rewrite decide_True|].
  split.
  - intros j Hj. rewrite list_lookup_alter_ne by done.
    by rewrite decide_False.
  - by rewrite length_alter.
Qed.

Lemma putRead_own_alert_witness :
  let s :=
    {| AlertRoutes.db :=
         Routes.set_alerts
           (NotificationService.createMatchAlerts Examples.quiet 0
              Examples.usersV 8%N Examples.phoneReport []) Examples.dbAB;
       AlertRoutes.readAt := λ _, None |} in
  AlertRoutes.readAt (AlertRoutes.putRead 77 3%N 0 s).2 0%nat = Some 77.
Proof.
  intros s.
  destruct (putRead_own_alert 77 3%N 0 s
              (NotificationService.sendAlertNotifications Examples.quiet 0
                 Examples.victim
                 (Alert.create 3%N 8%N Alert.phone_match
                    "⚠️ Your Phone Number Reported" Alert.critical
                    {| Alert.distance := None;
                       Alert.phoneNumber := Some "+15551234567";
                       Alert.email := None |})))
    as (s' & Hs' & _ & Hr & _); [reflexivity..|].
  by rewrite Hs'.
Defined.

(** X13: after "read all" every alert of the requesting user is read,
    deleted ones included, and each alert that was unread carries the time
    of the request; alerts of other users and alerts already read keep
    their state and their [readAt]; no alert changes recipient, report or
    type, and none is added or removed. *)
Theorem putReadAll_marks_own_unread (now : Date) (reqUser : ObjectId)
    (s : AlertRoutes.Store) :
  let s' := (AlertRoutes.putReadAll now reqUser s).2 in
  (∀ a, a ∈ AlertRoutes.alerts s' → Alert.user a = reqUser →
        Alert.isRead a = true)
  ∧ (∀ i a, AlertRoutes.alerts s !! i = Some a →
       if bool_decide (Alert.user a = reqUser) && negb (Alert.isRead a)
       then AlertRoutes.alerts s' !! i = Some (AlertRoutes.set_isRead a true)
            ∧ AlertRoutes.readAt s' i = Some now
       else AlertRoutes.alerts s' !! i = Some a
            ∧ AlertRoutes.readAt s' i = AlertRoutes.readAt s i)
  ∧ Alert.triple <$> AlertRoutes.alerts s' = Alert.triple <$> AlertRoutes.alerts s
  ∧ length (AlertRoutes.alerts s') = length (AlertRoutes.alerts s).
Proof.
  intros s'. subst s'.
  unfold AlertRoutes.putReadAll, AlertRoutes.alerts; simpl.
  split; [|split; [|split]].
  - intros a Ha Hu. apply list_elem_of_fmap in Ha as (a0 & -> & _).
    destruct (bool_decide _ && negb _) eqn:E; [reflexivity|].
    apply andb_false_iff in E as [E|E].
    + apply bool_decide_eq_false in E. done.
    + by apply negb_false_iff in E.
  - intros i a Hl. rewrite list_lookup_fmap, Hl. simpl.
    by destruct (bool_decide _ && negb _).
  - rewrite <- list_fmap_compose. apply list_fmap_ext.
    intros i a _. simpl. by destruct (bool_decide _ && negb _).
  - by rewrite length_fmap.
Qed.

(** X14: deleting one's own alert is a soft delete.  The document stays in
    the collection with [isActive] false and everything else unchanged, and
    all other alerts are untouched; it can still be fetched by identifier
    and marked read, but the listing never shows it again, whatever the
    page, the limit and the filters. *)
Theorem deleteAlert_soft (now : Date) (reqUser : ObjectId) (id : nat)
    (s : AlertRoutes.Store) (a : Alert.t) :
  AlertRoutes.alerts s !! id = Some a →
  Alert.user a = reqUser →
  ∃ s',
    AlertRoutes.deleteAlert reqUser id s = (AlertRoutes.Ok200 (), s')
    ∧ AlertRoutes.alerts s' !! id = Some (AlertRoutes.set_isActive a false)
    ∧ (∀ j, j ≠ id → AlertRoutes.alerts s' !! j = AlertRoutes.alerts s !! j)
    ∧ length (AlertRoutes.alerts s') = length (AlertRoutes.alerts s)
    ∧ AlertRoutes.getAlert reqUser id s'
      = AlertRoutes.Ok200
          (AlertRoutes.set_isActive a false,
           Routes.reports (AlertRoutes.db s) !! Alert.fraudReport a)
    ∧ (AlertRoutes.putRead now reqUser id s').1 = AlertRoutes.Ok200 ()
    ∧ (∀ page limit f listing,
         AlertRoutes.getAlerts reqUser page limit f s' = AlertRoutes.Ok200 listing →
         id ∉ (AlertRoutes.items listing).*1.*1).
Proof.
  intros Hl Hu. eexists. split.
  { unfold AlertRoutes.deleteAlert.
    by rewrite (proj2 (findOne_Some s id reqUser a) (conj Hl Hu)). }
  set (s' := AlertRoutes.with_alerts _ s).
  assert (AlertRoutes.alerts s' !! id = Some (AlertRoutes.set_isActive a false))
    as Hl'.
  { unfold s', AlertRoutes.with_alerts, AlertRoutes.alerts in *; simpl.
    by rewrite list_lookup_alter_eq, Hl. }
  assert (AlertRoutes.findOne s' id reqUser
          = Some (AlertRoutes.set_isActive a false)) as Hfind
    by (apply findOne_Some; by split).
  split; [exact Hl'|]. split; [|split; [|split; [|split]]].
  - intros j Hj. unfold s', AlertRoutes.with_alerts, AlertRoutes.alerts; simpl.
    by rewrite list_lookup_alter_ne.
  - unfold s', AlertRoutes.with_alerts, AlertRoutes.alerts; simpl.
    by rewrite length_alter.
  - unfold AlertRoutes.getAlert. by rewrite Hfind.
  - unfold AlertRoutes.putRead. by rewrite Hfind.
  - intros page limit f listing Hget Hin.
    unfold AlertRoutes.getAlerts in Hget.
    destruct (AlertRoutes.paginate _ _ _) as [shown|] eqn:Hp; [|discriminate].
    injection Hget as <-. simpl in Hin.
    apply list_elem_of_fmap in Hin as (p & Hp1 & Hin).
    apply list_elem_of_fmap in Hin as (x & -> & Hin).
    apply list_elem_of_fmap in Hin as ([i a'] & -> & Hin).
    simpl in Hp1. subst i.
    assert ((id, a') ∈ filter (λ e, AlertRoutes.selects reqUser f e.2 = true)
                         (AlertRoutes.newestFirst (AlertRoutes.alerts s')))
      as Hsel.
    { unfold AlertRoutes.paginate in Hp.
      repeat case_decide; try discriminate; injection Hp as <-; [done|].
      eapply elem_of_sublist; [exact Hin|].
      etrans; [apply sublist_take | apply sublist_drop]. }
    apply list_elem_of_filter in Hsel as [Hsel Hmem]. simpl in Hsel.
    unfold AlertRoutes.newestFirst in Hmem.
    apply elem_of_reverse, elem_of_lookup_imap in Hmem as (i & y & [= -> ->] & Hy).
    rewrite Hl' in Hy. injection Hy as <-.
    unfold AlertRoutes.selects in Hsel. simpl in Hsel.
    by rewrite andb_false_r in Hsel.
Qed.

Lemma deleteAlert_soft_witness :
  let s :=
    {| AlertRoutes.db :=
         Routes.set_alerts
           (NotificationService.createMatchAlerts Examples.quiet 0
              Examples.usersV 8%N Examples.phoneReport []) Examples.dbAB;
       AlertRoutes.readAt := λ _, None |} in
  length (AlertRoutes.alerts (AlertRoutes.deleteAlert 3%N 0 s).2) = 1%nat
  ∧ AlertRoutes.getAlerts 3%N 1 20
      {| AlertRoutes.severity := None; AlertRoutes.alertType := None;
         AlertRoutes.isRead := None |} (AlertRoutes.deleteAlert 3%N 0 s).2
    = AlertRoutes.Ok200
        {| AlertRoutes.items := []; AlertRoutes.total := 0;
           AlertRoutes.pages := Some 0; AlertRoutes.unreadCount := 0 |}.
Proof.
  intros s.
  destruct (deleteAlert_soft 0 3%N 0 s
              (NotificationService.sendAlertNotifications Examples.quiet 0
                 Examples.victim
                 (Alert.create 3%N 8%N Alert.phone_match
                    "⚠️ Your Phone Number Reported" Alert.critical
                    {| Alert.distance := None;
                       Alert.phoneNumber := Some "+15551234567";
                       Alert.email := None |})))
    as (s' & Hs' & _ & _ & Hlen & _); [reflexivity..|].
  rewrite Hs'. split; [exact Hlen|].
  injection Hs' as <-. vm_compute. reflexivity.
Defined.

Lemma putReadAll_marks_own_unread_witness :
  let s :=
    {| AlertRoutes.db :=
         Routes.set_alerts
           (NotificationService.createMatchAlerts Examples.quiet 0
              Examples.usersV 8%N Examples.phoneReport []) Examples.dbAB;
       AlertRoutes.readAt := λ _, None |} in
  AlertRoutes.readAt (AlertRoutes.putReadAll 42 3%N s).2 0%nat = Some 42.
Proof.
  intros s.
  destruct (putReadAll_marks_own_unread 42 3%N s) as (_ & H & _).
  specialize (H 0%nat _ eq_refl). simpl in H. by destruct H as [_ H].
Defined.

Lemma pageCount_spec (total limit : nat) :
  limit ≠ 0%nat →
  ∃ p, AlertRoutes.pageCount total limit = Some p
       ∧ (p - 1) * Z.of_nat limit < Z.of_nat total <= p * Z.of_nat limit.
Proof.
  intros Hl. unfold AlertRoutes.pageCount.
  rewrite div_nonzero by (apply inject_Z_nonzero; lia).
  eexists. split; [reflexivity|].
  set (q := (inject_Z (Z.of_nat total) / inject_Z (Z.of_nat limit))%Q).
  pose proof (Qle_ceiling q) as Hup. pose proof (Qceiling_lt q) as Hlo.
  assert (0 < inject_Z (Z.of_nat limit))%Q as Hpos
    by (change 0%Q with (inject_Z 0); rewrite <- Zlt_Qlt; lia).
  assert (q * inject_Z (Z.of_nat limit) == inject_Z (Z.of_nat total))%Q as Hq
    by (unfold q; field; lra).
  split.
  - rewrite Zlt_Qlt, inject_Z_mult, <- Hq.
    apply Qmult_lt_compat_r; [exact Hpos | exact Hlo].
  - rewrite Zle_Qle, inject_Z_mult, <- Hq.
    apply Qmult_le_compat_r; [exact Hup | lra].
Qed.

Lemma pages_concat {A : Type} (limit n : nat) (l : list A) :
  (length l ≤ n * limit)%nat →
  concat ((λ k, take limit (drop (k * limit) l)) <$> seq 0 n) = l.
Proof.
  revert l. induction n as [|n IH]; intros l Hlen.
  - destruct l; [reflexivity|simpl in Hlen; lia].
  - cbn [seq]. rewrite fmap_cons, <- fmap_S_seq, <- list_fmap_compose.
    cbn [concat]. change (drop (0 * limit) l) with l.
    transitivity (take limit l ++ drop limit l); [|apply take_drop].
    f_equal.
    rewrite <- (IH (drop limit l)) by (rewrite length_drop; lia).
    f_equal. apply list_fmap_ext. intros i k _. simpl.
    rewrite drop_drop. reflexivity.
Qed.

Lemma filter_imap_snd {A : Type} (P : A → Prop) `{!∀ x, Decision (P x)}
    (g : nat → nat) (l : list A) :
  (filter (λ e : nat * A, P e.2) (imap (λ i a, (g i, a)) l)).*2 = filter P l.
Proof.
  revert g. induction l as [|x l IH]; intros g; [reflexivity|].
  rewrite imap_cons, !filter_cons. simpl.
  specialize (IH (g ∘ S)).
  case_decide; rewrite ?fmap_cons; simpl; by rewrite <- IH.
Qed.

Lemma newestFirst_selected_length (P : Alert.t → Prop) `{!∀ x, Decision (P x)}
    (l : list Alert.t) :
  length (filter (λ e : nat * Alert.t, P e.2) (AlertRoutes.newestFirst l))
  = length (filter P l).
Proof.
  unfold AlertRoutes.newestFirst. rewrite filter_reverse, length_reverse.
  rewrite <- (filter_imap_snd P (λ i, i) l), length_fmap. reflexivity.
Qed.

Lemma newestFirst_elem (l : list Alert.t) (i : nat) (a : Alert.t) :
  (i, a) ∈ AlertRoutes.newestFirst l ↔ l !! i = Some a.
Proof.
  unfold AlertRoutes.newestFirst. rewrite elem_of_reverse, elem_of_lookup_imap.
  split; [by intros (? & ? & [= -> ->] & ?) | intros H; by exists i, a].
Qed.

Lemma newestFirst_NoDup (l : list Alert.t) : NoDup (AlertRoutes.newestFirst l).*1.
Proof.
  unfold AlertRoutes.newestFirst. rewrite fmap_reverse, reverse_Permutation.
  rewrite fmap_imap.
  replace (imap (λ n, fst ∘ pair n) l) with (imap (λ n (_ : Alert.t), n) l)
    by (apply imap_ext; done).
  rewrite imap_seq_0, list_fmap_id. apply NoDup_seq.
Qed.

(** X15: a page of the alert list, for a page number and a limit of at
    least 1.  It holds at most [limit] alerts, each listed once with its
    report, and every alert on it belongs to the requesting user, is active
    and passes the filters given.  [total] counts all the alerts the query
    selects, on every page; [unreadCount] counts the user's active unread
    alerts whatever the filters; [pages] is the least number of pages of
    [limit] alerts that hold [total] alerts. *)
Theorem getAlerts_page (reqUser : ObjectId) (page limit : nat)
    (f : AlertRoutes.Filters) (s : AlertRoutes.Store) :
  (1 ≤ page)%nat → (1 ≤ limit)%nat →
  ∃ listing,
    AlertRoutes.getAlerts reqUser page limit f s = AlertRoutes.Ok200 listing
    ∧ (length (AlertRoutes.items listing) ≤ limit)%nat
    ∧ NoDup (AlertRoutes.items listing).*1.*1
    ∧ (∀ i a r, (i, a, r) ∈ AlertRoutes.items listing →
         AlertRoutes.alerts s !! i = Some a
         ∧ r = Routes.reports (AlertRoutes.db s) !! Alert.fraudReport a
         ∧ Alert.user a = reqUser
         ∧ Alert.isActive a = true
         ∧ (∀ v, AlertRoutes.severity f = Some v → Alert.severity a = v)
         ∧ (∀ v, AlertRoutes.alertType f = Some v → Alert.alertType a = v)
         ∧ (∀ v, AlertRoutes.isRead f = Some v → Alert.isRead a = v))
    ∧ AlertRoutes.total listing
      = length (filter (λ a, AlertRoutes.selects reqUser f a = true)
                       (AlertRoutes.alerts s))
    ∧ AlertRoutes.unreadCount listing
      = length (filter (λ a, Alert.user a = reqUser ∧ Alert.isActive a = true
                             ∧ Alert.isRead a = false) (AlertRoutes.alerts s))
    ∧ ∃ p, AlertRoutes.pages listing = Some p
           ∧ (p - 1) * Z.of_nat limit
             < Z.of_nat (AlertRoutes.total listing) <= p * Z.of_nat limit.
Proof.
  intros Hpage Hlimit. unfold AlertRoutes.getAlerts, AlertRoutes.paginate.
  rewrite !decide_False by lia.
  set (found := filter _ (AlertRoutes.newestFirst (AlertRoutes.alerts s))).
  set (shown := take limit (drop ((page - 1) * limit) found)).
  assert (shown `sublist_of` AlertRoutes.newestFirst (AlertRoutes.alerts s))
    as Hsub.
  { unfold shown, found. etrans; [apply sublist_take|].
    etrans; [apply sublist_drop | apply sublist_filter]. }
  assert (shown `sublist_of` found) as Hsub'
    by (unfold shown; etrans; [apply sublist_take | apply sublist_drop]).
  eexists. split; [reflexivity|]. cbn [AlertRoutes.items AlertRoutes.total
    AlertRoutes.pages AlertRoutes.unreadCount].
  split; [rewrite length_fmap; unfold shown; rewrite length_take; lia|].
  split.
  { rewrite <- !list_fmap_compose.
    eapply sublist_NoDup; [apply (newestFirst_NoDup (AlertRoutes.alerts s))|].
    replace (fst ∘ fst ∘ _ <$> shown) with (shown.*1)
      by (apply list_fmap_ext; done).
    by apply fmap_sublist. }
  split.
  { intros i a r Hin. apply list_elem_of_fmap in Hin as ([i' a'] & [= -> -> ->] & Hin).
    simpl. pose proof (elem_of_sublist _ _ _ Hin Hsub') as Hf.
    apply list_elem_of_filter in Hf as [Hsel Hmem]. simpl in Hsel.
    apply newestFirst_elem in Hmem. split; [exact Hmem|]. split; [reflexivity|].
    unfold AlertRoutes.selects in Hsel.
    repeat (apply andb_true_iff in Hsel as [Hsel ?]).
    apply bool_decide_eq_true in Hsel.
    split; [exact Hsel|]. split; [done|].
    repeat split; intros v Hv;
      match goal with
      | H : from_option _ _ _ = true |- _ =>
          rewrite Hv in H; simpl in H; by apply bool_decide_eq_true in H
      end. }
  split; [exact (@newestFirst_selected_length
                   (λ a, AlertRoutes.selects reqUser f a = true)
                   (λ x, decide_rel eq _ _) (AlertRoutes.alerts s))|].
  split; [reflexivity|].
  apply pageCount_spec. lia.
Qed.

Lemma getAlerts_page_witness :
  let s :=
    {| AlertRoutes.db :=
         Routes.set_alerts
           (NotificationService.createMatchAlerts Examples.quiet 0
              Examples.usersV 8%N Examples.phoneReport []) Examples.dbAB;
       AlertRoutes.readAt := λ _, None |} in
  ∃ listing,
    AlertRoutes.getAlerts 3%N 1 20
      {| AlertRoutes.severity := Some Alert.critical;
         AlertRoutes.alertType := None; AlertRoutes.isRead := None |} s
    = AlertRoutes.Ok200 listing
    ∧ AlertRoutes.total listing = 1%nat.
Proof.
  intros s.
  destruct (getAlerts_page 3%N 1 20
              {| AlertRoutes.severity := Some Alert.critical;
                 AlertRoutes.alertType := None; AlertRoutes.isRead := None |} s)
    as (l & Hl & _ & _ & _ & Ht & _); [lia..|].
  exists l. split; [exact Hl|]. rewrite Ht. vm_compute. reflexivity.
Defined.

(** X16: paging through the alert list.  With a limit of at least 1, the
    pages 1 to [pages] put end to end are exactly the alerts the query
    selects, newest first, each on one page; every later page is empty,
    and page 0 is answered with a server error.  With a limit of 0 the
    store applies no limit: every page number returns all selected alerts
    at once and [pages] is not a number. *)
Theorem getAlerts_pages_cover (reqUser : ObjectId) (limit : nat)
    (f : AlertRoutes.Filters) (s : AlertRoutes.Store) :
  let shown page :=
    match AlertRoutes.getAlerts reqUser page limit f s with
    | AlertRoutes.Ok200 listing => (AlertRoutes.items listing).*1
    | _ => []
    end in
  let pagesOf page :=
    match AlertRoutes.getAlerts reqUser page limit f s with
    | AlertRoutes.Ok200 listing => AlertRoutes.pages listing
    | _ => None
    end in
  let all :=
    filter (λ e, AlertRoutes.selects reqUser f e.2 = true)
           (AlertRoutes.newestFirst (AlertRoutes.alerts s)) in
  (limit = 0%nat → ∀ page, shown page = all ∧ pagesOf page = None)
  ∧ ((1 ≤ limit)%nat →
     AlertRoutes.getAlerts reqUser 0 limit f s = AlertRoutes.ServerError500
     ∧ ∃ n : nat,
         (∀ page, (1 ≤ page)%nat → pagesOf page = Some (Z.of_nat n))
         ∧ concat (shown <$> seq 1 n) = all
         ∧ ∀ page, (n < page)%nat → shown page = []).
Proof.
  intros shown pagesOf all.
  assert (∀ l : list (nat * Alert.t),
            ((λ e, (e.1, e.2, Routes.reports (AlertRoutes.db s)
                                !! Alert.fraudReport e.2)) <$> l).*1 = l) as Hfst.
  { intros l. rewrite <- list_fmap_compose.
    rewrite <- (list_fmap_id l) at 2. apply list_fmap_ext. by intros i [??] _. }
  split.
  - intros -> page. subst shown pagesOf. cbv beta.
    unfold AlertRoutes.getAlerts, AlertRoutes.paginate. rewrite decide_True by done.
    cbn [AlertRoutes.items AlertRoutes.pages]. split; [apply Hfst|reflexivity].
  - intros Hlimit. split.
    { unfold AlertRoutes.getAlerts, AlertRoutes.paginate.
      rewrite decide_False by lia. by rewrite decide_True. }
    destruct (pageCount_spec (length all) limit) as (p & Hp & Hlo & Hhi); [lia|].
    assert (0 <= p) as Hp0 by nia.
    exists (Z.to_nat p).
    assert (∀ page, (1 ≤ page)%nat →
              shown page = take limit (drop ((page - 1) * limit) all)) as Hshown.
    { intros page Hpage. subst shown. cbv beta.
      unfold AlertRoutes.getAlerts, AlertRoutes.paginate.
      rewrite !decide_False by lia. cbn [AlertRoutes.items]. apply Hfst. }
    split; [|split].
    + intros page Hpage. subst pagesOf. cbv beta.
      unfold AlertRoutes.getAlerts, AlertRoutes.paginate.
      rewrite !decide_False by lia. cbn [AlertRoutes.pages].
      fold all. rewrite Hp. f_equal. lia.
    + rewrite <- fmap_S_seq, <- list_fmap_compose.
      etrans; [|apply (pages_concat limit (Z.to_nat p) all); nia].
      f_equal. apply list_fmap_ext. intros i k _. simpl.
      rewrite Hshown by lia. do 3 f_equal. lia.
    + intros page Hpage. rewrite Hshown by lia.
      rewrite drop_ge; [by rewrite take_nil|]. nia.
Qed.

Lemma getAlerts_pages_cover_witness :
  let s :=
    {| AlertRoutes.db :=
         Routes.set_alerts
           (NotificationService.createMatchAlerts Examples.quiet 0
              Examples.usersV 8%N Examples.phoneReport []) Examples.dbAB;
       AlertRoutes.readAt := λ _, None |} in
  AlertRoutes.getAlerts 3%N 0 20
    {| AlertRoutes.severity := None; AlertRoutes.alertType := None;
       AlertRoutes.isRead := None |} s
  = AlertRoutes.ServerError500.
Proof.
  intros s.
  destruct (getAlerts_pages_cover 3%N 20
              {| AlertRoutes.severity := None; AlertRoutes.alertType := None;
                 AlertRoutes.isRead := None |} s) as [_ H].
  destruct H as [H _]; [lia|exact H].
Defined.

(** X17: the statistics agree with the list: [total] of GET /stats is the
    [total] of the unfiltered list, [unread] is the list's [unreadCount],
    the severity and type breakdowns have one entry per counted alert, and
    [unread] never exceeds [total]. *)
Theorem getStats_agrees_with_list (reqUser : ObjectId) (page limit : nat)
    (s : AlertRoutes.Store) :
  (1 ≤ page)%nat → (1 ≤ limit)%nat →
  let stats := AlertRoutes.getStats reqUser s in
  ∃ listing,
    AlertRoutes.getAlerts reqUser page limit
      {| AlertRoutes.severity := None; AlertRoutes.alertType := None;
         AlertRoutes.isRead := None |} s = AlertRoutes.Ok200 listing
    ∧ AlertRoutes.st_total stats = AlertRoutes.total listing
    ∧ AlertRoutes.st_unread stats = AlertRoutes.unreadCount listing
    ∧ length (AlertRoutes.bySeverity stats) = AlertRoutes.st_total stats
    ∧ length (AlertRoutes.byType stats) = AlertRoutes.st_total stats
    ∧ (AlertRoutes.st_unread stats ≤ AlertRoutes.st_total stats)%nat.
Proof.
  intros Hpage Hlimit stats.
  destruct (getAlerts_page reqUser page limit
              {| AlertRoutes.severity := None; AlertRoutes.alertType := None;
                 AlertRoutes.isRead := None |} s Hpage Hlimit)
    as (listing & Hget & _ & _ & _ & Htotal & Hunread & _).
  exists listing. split; [exact Hget|]. rewrite Htotal, Hunread.
  set (mine := filter (λ a, Alert.user a = reqUser ∧ Alert.isActive a = true)
                      (AlertRoutes.alerts s)).
  assert (AlertRoutes.st_total stats = length mine
          ∧ AlertRoutes.st_unread stats
            = length (filter (λ a, Alert.isRead a = false) mine)
          ∧ length (AlertRoutes.bySeverity stats) = length mine
          ∧ length (AlertRoutes.byType stats) = length mine) as (H1 & H2 & H3 & H4).
  { subst stats. unfold AlertRoutes.getStats. fold mine.
    destruct mine; [done|]. cbn [AlertRoutes.st_total AlertRoutes.st_unread
      AlertRoutes.bySeverity AlertRoutes.byType]. by rewrite !length_fmap. }
  rewrite H1, H2, H3, H4.
  split; [|split; [|split; [done|split; [done|apply length_filter]]]].
  - unfold mine. f_equal. apply list_filter_iff. intros a.
    unfold AlertRoutes.selects. simpl. rewrite !andb_true_r, andb_true_iff.
    by rewrite bool_decide_eq_true.
  - unfold mine. rewrite list_filter_filter. f_equal.
    apply list_filter_iff. intros a. tauto.
Qed.

Lemma getStats_agrees_with_list_witness :
  let s :=
    {| AlertRoutes.db :=
         Routes.set_alerts
           (NotificationService.createMatchAlerts Examples.quiet 0
              Examples.usersV 8%N Examples.phoneReport []) Examples.dbAB;
       AlertRoutes.readAt := λ _, None |} in
  AlertRoutes.st_unread (AlertRoutes.getStats 3%N s) = 1%nat.
Proof.
  intros s.
  destruct (getStats_agrees_with_list 3%N 1 20 s) as (l & Hl & _ & Hu & _);
    [lia..|].
  rewrite Hu. vm_compute in Hl. injection Hl as <-. reflexivity.
Defined.

(** ** Patterns: the matcher decides the language of a pattern *)

Lemma append_nil_l (s : string) : "" +:+ s = s.
Proof. reflexivity. Qed.

Lemma append_cons (c : Ascii.ascii) (s t : string) :
  String c s +:+ t = String c (s +:+ t).
Proof. reflexivity. Qed.

Lemma append_nil_r (s : string) : s +:+ "" = s.
Proof.
  induction s as [|c s IH]; [reflexivity|].
  rewrite append_cons. f_equal. exact IH.
Qed.

Lemma append_assoc (s1 s2 s3 : string) : (s1 +:+ s2) +:+ s3 = s1 +:+ (s2 +:+ s3).
Proof.
  induction s1 as [|c s1 IH]; [reflexivity|].
  rewrite !append_cons. f_equal. exact IH.
Qed.

Lemma lang_seq_inv (r1 r2 : Regex.t) (s : string) :
  Regex.lang (Regex.Seq r1 r2) s ->
  exists s1 s2, s = s1 +:+ s2 /\ Regex.lang r1 s1 /\ Regex.lang r2 s2.
Proof. inversion 1; subst; eauto. Qed.

Lemma lang_star_inv (r : Regex.t) (s : string) :
  Regex.lang (Regex.Star r) s ->
  s = "" \/
  exists c s1 s2,
    s = String c (s1 +:+ s2) /\ Regex.lang r (String c s1) /\ Regex.lang (Regex.Star r) s2.
Proof. inversion 1; subst; [now left | right; eauto 10]. Qed.

Lemma lang_class_inv (p : Ascii.ascii -> bool) (s : string) :
  Regex.lang (Regex.Class p) s -> exists c, s = String c "" /\ p c = true.
Proof. inversion 1; subst; eauto. Qed.

Lemma nullable_lang (r : Regex.t) :
  Regex.nullable r = true <-> Regex.lang r "".
Proof.
  induction r as [| |p|r1 IH1 r2 IH2|r1 IH1 r2 IH2|r IH]; simpl.
  - split; [discriminate | inversion 1].
  - split; [constructor | reflexivity].
  - split; [discriminate | inversion 1].
  - rewrite andb_true_iff, IH1, IH2. split.
    + intros [H1 H2]. exact (Regex.lang_seq _ _ "" "" H1 H2).
    + intros (s1 & s2 & E & H1 & H2)%lang_seq_inv.
      destruct s1; [|discriminate]. destruct s2; [|discriminate]. now split.
  - rewrite orb_true_iff, IH1, IH2. split.
    + intros [H|H]; [now apply Regex.lang_alt_l | now apply Regex.lang_alt_r].
    + inversion 1; subst; [now left | now right].
  - split; [constructor | reflexivity].
Qed.

Lemma deriv_sound (c : Ascii.ascii) (r : Regex.t) (s : string) :
  Regex.lang (Regex.deriv c r) s -> Regex.lang r (String c s).
Proof.
  revert s. induction r as [| |p|r1 IH1 r2 IH2|r1 IH1 r2 IH2|r IH]; simpl; intros s H.
  - inversion H.
  - inversion H.
  - destruct (p c) eqn:Hp; inversion H; subst. now constructor.
  - assert (Hleft : Regex.lang (Regex.Seq (Regex.deriv c r1) r2) s ->
                    Regex.lang (Regex.Seq r1 r2) (String c s)).
    { intros (s1 & s2 & -> & H1 & H2)%lang_seq_inv.
      exact (Regex.lang_seq _ _ (String c s1) s2 (IH1 _ H1) H2). }
    destruct (Regex.nullable r1) eqn:Hn; [|now apply Hleft].
    apply nullable_lang in Hn.
    inversion H; subst; [now apply Hleft|].
    exact (Regex.lang_seq _ _ "" (String c s) Hn (IH2 _ ltac:(eassumption))).
  - inversion H; subst; [apply Regex.lang_alt_l | apply Regex.lang_alt_r]; auto.
  - apply lang_seq_inv in H as (s1 & s2 & -> & H1 & H2).
    exact (Regex.lang_star_cons _ c s1 s2 (IH _ H1) H2).
Qed.

Lemma deriv_complete (c : Ascii.ascii) (r : Regex.t) (s : string) :
  Regex.lang r (String c s) -> Regex.lang (Regex.deriv c r) s.
Proof.
  revert s. induction r as [| |p|r1 IH1 r2 IH2|r1 IH1 r2 IH2|r IH]; simpl; intros s H.
  - inversion H.
  - inversion H.
  - apply lang_class_inv in H as (c' & E & Hp). injection E as <- ->.
    rewrite Hp. constructor.
  - apply lang_seq_inv in H as (s1 & s2 & E & H1 & H2).
    destruct s1 as [|c1 s1];
      [rewrite append_nil_l in E | rewrite append_cons in E].
    + subst s2. pose proof (proj2 (nullable_lang r1) H1) as Hn. rewrite Hn.
      apply Regex.lang_alt_r. now apply IH2.
    + injection E as <- ->.
      pose proof (Regex.lang_seq _ _ s1 s2 (IH1 _ H1) H2) as Hs.
      destruct (Regex.nullable r1); [now apply Regex.lang_alt_l | exact Hs].
  - inversion H; subst; [apply Regex.lang_alt_l | apply Regex.lang_alt_r]; auto.
  - apply lang_star_inv in H as [E|(c1 & s1 & s2 & E & H1 & H2)]; [discriminate|].
    injection E as <- ->.
    exact (Regex.lang_seq _ _ s1 s2 (IH _ H1) H2).
Qed.

Lemma matches_lang (r : Regex.t) (s : string) :
  Regex.matches r s = true <-> Regex.lang r s.
Proof.
  revert r. induction s as [|c s IH]; intros r; simpl.
  - apply nullable_lang.
  - rewrite IH. split; [apply deriv_sound | apply deriv_complete].
Qed.

Lemma lang_star_any (s : string) : Regex.lang (Regex.Star Regex.any) s.
Proof.
  induction s as [|c s IH]; [constructor|].
  change (String c s) with (String c "" +:+ s).
  apply Regex.lang_star_cons; [now constructor | exact IH].
Qed.

Lemma lang_lit (w s : string) : Regex.lang (Regex.lit w) s <-> s = w.
Proof.
  revert s. induction w as [|a w IH]; intros s; simpl.
  - split; [now inversion 1 | intros ->; constructor].
  - split.
    + intros (s1 & s2 & -> & (c & -> & Hp)%lang_class_inv & H2)%lang_seq_inv.
      apply Ascii.eqb_eq in Hp. subst. rewrite append_cons, append_nil_l.
      f_equal. now apply IH.
    + intros ->. change (String a w) with (String a "" +:+ w).
      apply Regex.lang_seq; [constructor; apply Ascii.eqb_refl | now apply IH].
Qed.

(** [/^w/.test(s)] for a literal [w]: [s] starts with [w]. *)
Lemma test_start_lit (w s : string) :
  Regex.test_start (Regex.lit w) s = true <-> exists rest, s = w +:+ rest.
Proof.
  unfold Regex.test_start. rewrite matches_lang. split.
  - intros (s1 & s2 & -> & H1 & H2)%lang_seq_inv.
    apply lang_lit in H1. subst. now exists s2.
  - intros [rest ->]. apply Regex.lang_seq; [now apply lang_lit | apply lang_star_any].
Qed.

(** [/r/.test(s)]: some substring of [s] matches [r]. *)
Lemma test_lang (r : Regex.t) (s : string) :
  Regex.test r s = true <->
  exists before mid after, s = before +:+ mid +:+ after /\ Regex.lang r mid.
Proof.
  unfold Regex.test. rewrite matches_lang. split.
  - intros (s1 & s' & -> & H1 & (s3 & s4 & -> & H3 & H4)%lang_seq_inv)%lang_seq_inv.
    now exists s1, s3, s4.
  - intros (before & mid & after & -> & Hm).
    apply Regex.lang_seq; [apply lang_star_any|].
    apply Regex.lang_seq; [exact Hm | apply lang_star_any].
Qed.

(** ** services/aiService.js: phone numbers *)

Lemma prefix_app (w s : string) :
  String.prefix w s = true <-> exists rest, s = w +:+ rest.
Proof.
  revert s. induction w as [|a w IH]; intros s; simpl.
  - split; [intros _; now exists s | now destruct s].
  - destruct s as [|b s]; simpl.
    + split; [discriminate | intros [rest E]; discriminate].
    + destruct (Ascii.ascii_dec a b) as [->|Hne].
      * rewrite IH. split; intros [rest E]; exists rest.
        -- rewrite append_cons. now f_equal.
        -- rewrite append_cons in E. now injection E.
      * split; [discriminate|]. intros [rest E].
        rewrite append_cons in E. injection E as E1 E2. now destruct Hne.
Qed.

Lemma test_start_prefix (w s : string) :
  Regex.test_start (Regex.lit w) s = String.prefix w s.
Proof.
  apply eq_true_iff_eq. rewrite test_start_lit, prefix_app. reflexivity.
Qed.

Lemma prefix_comparable (w1 w2 s : string) :
  String.prefix w1 s = true -> String.prefix w2 s = true ->
  String.prefix w1 w2 = true \/ String.prefix w2 w1 = true.
Proof.
  revert w2 s. induction w1 as [|a w1 IH]; intros w2 s H1 H2.
  - left. now destruct w2.
  - destruct w2 as [|b w2]; [right; reflexivity|].
    destruct s as [|c s]; [discriminate|]. simpl in *.
    destruct (Ascii.ascii_dec a c) as [->|]; [|discriminate].
    destruct (Ascii.ascii_dec b c) as [->|]; [|discriminate].
    destruct (Ascii.ascii_dec c c) as [_|Hne]; [|now destruct Hne].
    eauto.
Qed.

(** No scam prefix starts with another one. *)
Lemma scamPrefixes_incomparable :
  ForallOrdPairs
    (λ w1 w2, String.prefix w1 w2 = false /\ String.prefix w2 w1 = false)
    AIService.scamPrefixes.
Proof.
  unfold AIService.scamPrefixes.
  repeat constructor.
Qed.

Lemma incomparable_one_hit (number : string) (ws : list string) :
  ForallOrdPairs
    (λ w1 w2, String.prefix w1 w2 = false /\ String.prefix w2 w1 = false) ws ->
  (length (filter (λ w, String.prefix w number = true) ws) <= 1)%nat.
Proof.
  induction 1 as [|w ws Hw Hws IH]; [simpl; lia|].
  rewrite filter_cons. destruct (decide (String.prefix w number = true)) as [Hit|]; [|exact IH].
  assert (E : filter (λ w, String.prefix w number = true) ws = []).
  { destruct (filter _ ws) as [|w' l'] eqn:E; [reflexivity|].
    assert (Hin : w' ∈ filter (λ w, String.prefix w number = true) ws)
      by (rewrite E; left).
    apply list_elem_of_filter in Hin as [Hit' Hin].
    rewrite List.Forall_forall in Hw.
    destruct (Hw w') as [N1 N2]; [now apply list_elem_of_In|].
    destruct (prefix_comparable _ _ _ Hit Hit'); congruence. }
  rewrite E. simpl. lia.
Qed.

Lemma existsb_filter {A} (f : A -> bool) (l : list A) :
  existsb f l = true <-> filter (λ x, f x = true) l <> [].
Proof.
  induction l as [|x l IH]; simpl;
    [split; [discriminate | intros H; now destruct H]|].
  rewrite filter_cons, orb_true_iff, IH.
  destruct (decide (f x = true)) as [Hx|Hx]; [|tauto].
  split; [discriminate | now left].
Qed.

Lemma scam_fold (number : string) (ws : list string) (init : AIService.PhoneAnalysis) :
  let hits := filter (λ w, String.prefix w number = true) ws in
  fold_left
    (λ analysis pattern,
       if Regex.test_start pattern number
       then {| AIService.suspicious := true;
               AIService.country := AIService.country analysis;
               AIService.type := AIService.type analysis;
               AIService.phoneConfidence := AIService.phoneConfidence analysis + 30 |}
       else analysis)
    (Regex.lit <$> ws) init
  = {| AIService.suspicious :=
         AIService.suspicious init || bool_decide (hits <> []);
       AIService.country := AIService.country init;
       AIService.type := AIService.type init;
       AIService.phoneConfidence :=
         AIService.phoneConfidence init + 30 * Z.of_nat (length hits) |}.
Proof.
  revert init. induction ws as [|w ws IH]; intros init; cbn zeta.
  - cbn. destruct init as [sus ? ? conf]. cbn. f_equal; [now destruct sus | lia].
  - rewrite fmap_cons. cbn [fold_left]. rewrite test_start_prefix, filter_cons.
    destruct (decide (String.prefix w number = true)) as [Hit|Miss].
    + rewrite Hit. cbn zeta in IH. rewrite IH. cbn.
      f_equal; [now rewrite orb_true_r | lia].
    + apply not_true_is_false in Miss. rewrite Miss. apply IH.
Qed.


(** X18: [analyzePhoneNumber] looks only at the number without its
    formatting.  At most one of the eight scam prefixes can match, so the
    confidence is 30 for a scam prefix plus 20 for a length outside 7..15,
    never more than 50, and the number is suspicious exactly when one of the
    two holds. *)
Theorem analyzePhoneNumber_verdict (phoneNumber : string) :
  let number := AIService.cleanNumber phoneNumber in
  let scam := existsb (λ w, String.prefix w number) AIService.scamPrefixes in
  let badLength :=
    (String.length number <? 7)%nat || (15 <? String.length number)%nat in
  AIService.suspicious (AIService.analyzePhoneNumber phoneNumber)
  = scam || badLength /\
  AIService.phoneConfidence (AIService.analyzePhoneNumber phoneNumber)
  = (if scam then 30 else 0) + (if badLength then 20 else 0) /\
  AIService.phoneConfidence (AIService.analyzePhoneNumber phoneNumber) <= 50.
Proof.
  intros number scam badLength.
  assert (E : AIService.analyzePhoneNumber phoneNumber
              = let hit := {| AIService.suspicious := scam;
                              AIService.country := None;
                              AIService.type := "unknown";
                              AIService.phoneConfidence := if scam then 30 else 0 |} in
                if badLength
                then {| AIService.suspicious := true;
                        AIService.country := None;
                        AIService.type := "unknown";
                        AIService.phoneConfidence :=
                          (if scam then 30 else 0) + 20 |}
                else hit).
  { unfold AIService.analyzePhoneNumber, AIService.scamPatterns.
    fold number. fold badLength. rewrite scam_fold. cbn zeta.
    pose proof (incomparable_one_hit number _ scamPrefixes_incomparable) as Hone.
    pose proof (existsb_filter (λ w, String.prefix w number) AIService.scamPrefixes)
      as Hex.
    fold scam in Hex.
    destruct (filter _ AIService.scamPrefixes) as [|w [|w' l]] eqn:Ef.
    - assert (scam = false) as -> by (apply not_true_is_false; intros Ht;
                                        now apply Hex in Ht).
      cbn. now destruct badLength.
    - assert (scam = true) as -> by (now apply Hex).
      cbn. now destruct badLength.
    - simpl in Hone. lia. }
  rewrite E. cbn zeta. destruct scam, badLength; cbn; repeat split; lia.
Qed.

(** ** services/aiService.js: URLs *)

Lemma lang_alts (l : list Regex.t) (s : string) :
  Regex.lang (Regex.alts l) s <-> exists r, r ∈ l /\ Regex.lang r s.
Proof.
  induction l as [|r l IH]; simpl.
  - split; [inversion 1 | intros (r & Hin & _); now apply elem_of_nil in Hin].
  - split.
    + inversion 1; subst.
      * exists r. split; [left | assumption].
      * apply IH in H3 as (r' & Hin & Hr'). exists r'. split; [now right | assumption].
    + intros (r' & Hin & Hr'). apply elem_of_cons in Hin as [->|Hin].
      * now apply Regex.lang_alt_l.
      * apply Regex.lang_alt_r, IH. eauto.
Qed.

Lemma lang_liti (w s : string) :
  Regex.lang (Regex.liti w) s <-> JSString.toLowerCase s = JSString.toLowerCase w.
Proof.
  revert s. induction w as [|a w IH]; intros s; simpl.
  - split.
    + now inversion 1.
    + destruct s; [constructor | discriminate].
  - split.
    + intros (s1 & s2 & -> & (c & -> & Hp)%lang_class_inv & H2)%lang_seq_inv.
      apply Ascii.eqb_eq in Hp. rewrite append_cons, append_nil_l. simpl.
      rewrite Hp. f_equal. now apply IH.
    + destruct s as [|c s]; [discriminate|]. simpl. intros E.
      injection E as E1 E2.
      change (String c s) with (String c "" +:+ s).
      apply Regex.lang_seq; [|now apply IH].
      constructor. now apply Ascii.eqb_eq.
Qed.

Lemma test_here (r : Regex.t) (before mid after : string) :
  Regex.lang r mid -> Regex.test r (before +:+ mid +:+ after) = true.
Proof. intros H. apply test_lang. eauto. Qed.

Lemma filter_two_hits {A} (P : A -> Prop) `{!∀ x, Decision (P x)}
    (l : list A) (i j : nat) (x y : A) :
  (i < j)%nat -> l !! i = Some x -> l !! j = Some y -> P x -> P y ->
  (2 <= length (filter P l))%nat.
Proof.
  revert i j. induction l as [|z l IH]; intros i j Hij Hi Hj Px Py; [discriminate|].
  rewrite filter_cons. destruct i as [|i].
  - injection Hi as ->. destruct j as [|j]; [lia|]. simpl in Hj.
    rewrite decide_True by assumption. simpl.
    assert (Hy : y ∈ filter P l)
      by (apply list_elem_of_filter; split; [assumption | eapply list_elem_of_lookup_2; eassumption]).
    destruct (filter P l); [now apply elem_of_nil in Hy | simpl; lia].
  - destruct j as [|j]; [lia|]. simpl in Hi, Hj.
    assert (2 <= length (filter P l))%nat by (apply (IH i j); auto; lia).
    destruct (decide (P z)); simpl; lia.
Qed.

Lemma analyzeURL_patterns_suffice (external : AIService.External) (url : string) :
  (2 <= length (filter (λ pattern, Regex.test pattern url = true)
                       AIService.suspiciousPatterns))%nat ->
  AIService.isPhishing (AIService.analyzeURL external url) = true.
Proof.
  intros Hhits. unfold AIService.analyzeURL. cbn zeta.
  assert (E : (40 <=? 20 * Z.of_nat
                 (length (filter (λ pattern, Regex.test pattern url = true)
                                 AIService.suspiciousPatterns))) = true)
    by (apply Z.leb_le; lia).
  rewrite E.
  destruct (AIService.virusTotal external) as [vt|];
    [destruct (vt url) as [positives|]|];
    (destruct (AIService.safeBrowsing external) as [sb|];
     [destruct (sb url) as [threat|]|]); reflexivity.
Qed.

(** X19: a URL that contains a hyphen or an underscore and, in any
    letter case, one of the brand names is reported as phishing, whatever
    the reputation services answer. *)
Theorem analyzeURL_brand_and_separator (external : AIService.External)
    (url before1 sep after1 before2 brand after2 : string) :
  url = before1 +:+ sep +:+ after1 ->
  sep ∈ ["-"; "_"] ->
  url = before2 +:+ brand +:+ after2 ->
  JSString.toLowerCase brand ∈ ["paypal"; "amazon"; "google"; "microsoft"; "apple"] ->
  AIService.isPhishing (AIService.analyzeURL external url) = true.
Proof.
  intros Hsep Hs Hbrand Hb. apply analyzeURL_patterns_suffice.
  eapply (filter_two_hits _ _ 2 4); [lia | reflexivity | reflexivity | |].
  - rewrite Hsep. apply test_here, lang_alts.
    exists (Regex.lit sep). split; [|now apply lang_lit].
    rewrite !elem_of_cons, elem_of_nil in Hs.
    destruct Hs as [->|[->|[]]];
      [apply (list_elem_of_lookup_2 _ 0) | apply (list_elem_of_lookup_2 _ 1)];
      reflexivity.
  - rewrite Hbrand. apply test_here, lang_alts.
    exists (Regex.liti (JSString.toLowerCase brand)).
    split; [|apply lang_liti].
    + rewrite !elem_of_cons, elem_of_nil in Hb.
      destruct Hb as [->|[->|[->|[->|[->|[]]]]]];
        [apply (list_elem_of_lookup_2 _ 0) | apply (list_elem_of_lookup_2 _ 1)
        |apply (list_elem_of_lookup_2 _ 2) | apply (list_elem_of_lookup_2 _ 3)
        |apply (list_elem_of_lookup_2 _ 4)]; reflexivity.
    + rewrite !elem_of_cons, elem_of_nil in Hb.
      destruct Hb as [->|[->|[->|[->|[->|[]]]]]]; reflexivity.
Qed.

Lemma analyzeURL_brand_and_separator_witness :
  AIService.isPhishing
    (AIService.analyzeURL
       {| AIService.virusTotal := None; AIService.safeBrowsing := None |}
       "https://www.Google.com/search?q=a_b") = true.
Proof.
  apply (analyzeURL_brand_and_separator _ _
           "https://www.Google.com/search?q=a" "_" "b"
           "https://www." "Google" ".com/search?q=a_b").
  - reflexivity.
  - right. left.
  - reflexivity.
  - right. right. left.
Defined.

(** X20: [analyzeURL] reports phishing exactly when two of the five
    patterns hit, or VirusTotal is configured, answers and counts more than
    three positives, or Safe Browsing is configured, answers and names a
    threat other than [safe].  A service that is not configured or whose
    request fails changes nothing, and no answer clears a URL. *)
Theorem analyzeURL_phishing_iff (external : AIService.External) (url : string) :
  AIService.isPhishing (AIService.analyzeURL external url) = true <->
  (2 <= length (filter (λ pattern, Regex.test pattern url = true)
                       AIService.suspiciousPatterns))%nat
  \/ (exists check positives,
        AIService.virusTotal external = Some check /\
        check url = Some (Some positives) /\ 3 < positives)
  \/ (exists check threat,
        AIService.safeBrowsing external = Some check /\
        check url = Some threat /\ threat <> "safe").
Proof.
  split.
  - unfold AIService.analyzeURL. cbn zeta.
    generalize (length (filter (λ pattern, Regex.test pattern url = true)
                               AIService.suspiciousPatterns)).
    intros hits.
    destruct (40 <=? _) eqn:E.
    { intros _. left. apply Z.leb_le in E. lia. }
    destruct (AIService.virusTotal external) as [vt|] eqn:Evt;
      [destruct (vt url) as [[positives|]|] eqn:Evu|];
      (destruct (AIService.safeBrowsing external) as [sb|] eqn:Esb;
       [destruct (sb url) as [threat|] eqn:Esu|]); cbn;
      rewrite ?orb_false_r;
      try discriminate;
      repeat match goal with
        | |- context [(3 <? ?n)] => destruct (Z.ltb_spec 3 n)
        | |- context [String.eqb ?a ?b] => destruct (String.eqb_spec a b)
        end; cbn; try discriminate; intros _;
      first [ solve [right; left; eexists _, _;
                     split; [reflexivity | split; [eassumption | lia]]]
            | solve [right; right; eexists _, _;
                     split; [reflexivity | split; [eassumption | assumption]]] ].
  - intros [H|[(check & positives & Evt & Evu & Hp)|(check & threat & Esb & Esu & Ht)]].
    + now apply analyzeURL_patterns_suffice.
    + unfold AIService.analyzeURL. cbn zeta. rewrite Evt, Evu. cbn.
      apply Z.ltb_lt in Hp. rewrite Hp, orb_true_r.
      destruct (AIService.safeBrowsing external) as [sb|];
        [destruct (sb url) as [threat|]|]; reflexivity.
    + unfold AIService.analyzeURL. cbn zeta. rewrite Esb, Esu.
      apply String.eqb_neq in Ht. cbn. rewrite Ht. cbn. apply orb_true_r.
Qed.

(** ** services/aiService.js: text *)

Lemma unique_fold (l seen : list string) :
  NoDup seen ->
  let result :=
    fold_left (λ seen x, if decide (x ∈ seen) then seen else seen ++ [x]) l seen in
  NoDup result /\ forall x, x ∈ result <-> x ∈ seen \/ x ∈ l.
Proof.
  revert seen. induction l as [|y l IH]; intros seen Hseen; cbn zeta; cbn [fold_left].
  - split; [assumption|]. intros x. rewrite elem_of_nil. tauto.
  - destruct (decide (y ∈ seen)) as [Hin|Hout].
    + destruct (IH seen Hseen) as [Hnd Hel]. split; [assumption|].
      intros x. rewrite Hel, elem_of_cons. split; [tauto|].
      intros [?|[->|?]]; tauto.
    + assert (Hnd' : NoDup (seen ++ [y])).
      { apply NoDup_app. split; [assumption|]. split; [|apply NoDup_singleton].
        intros x Hx ->%list_elem_of_singleton. contradiction. }
      destruct (IH _ Hnd') as [Hnd Hel]. split; [assumption|].
      intros x. rewrite Hel, elem_of_app, list_elem_of_singleton, elem_of_cons. tauto.
Qed.

Lemma unique_NoDup (l : list string) : NoDup (JSString.unique l).
Proof. apply (unique_fold l []). apply NoDup_nil_2. Qed.

Lemma unique_elem (l : list string) (x : string) : x ∈ JSString.unique l <-> x ∈ l.
Proof.
  destruct (unique_fold l [] (NoDup_nil_2)) as [_ H]. unfold JSString.unique.
  rewrite H, elem_of_nil. tauto.
Qed.

Lemma unique_nil (l : list string) : JSString.unique l = [] <-> l = [].
Proof.
  split; [|now intros ->].
  destruct l as [|x l]; [reflexivity|]. intros E.
  assert (H : x ∈ JSString.unique (x :: l)) by (apply unique_elem; left).
  rewrite E in H. now apply elem_of_nil in H.
Qed.

Lemma fold_highest (first : FraudType * nat) (rest : list (FraudType * nat)) :
  let d := fold_left (λ a b, if (b.2 <? a.2)%nat then a else b) rest first in
  exists before after,
    first :: rest = before ++ d :: after /\
    Forall (λ x, (x.2 <= d.2)%nat) before /\
    Forall (λ x, (x.2 < d.2)%nat) after.
Proof.
  induction rest as [|b rest IH] using rev_ind; cbn zeta.
  - exists [], []. repeat split; constructor.
  - rewrite fold_left_app. cbn [fold_left].
    cbn zeta in IH. destruct IH as (before & after & E & Hb & Ha).
    set (d := fold_left _ rest first) in *.
    destruct (Nat.ltb_spec b.2 d.2) as [Hlt|Hge].
    + exists before, (after ++ [b]). split; [|split].
      * rewrite app_comm_cons, E, <- app_assoc. reflexivity.
      * assumption.
      * apply Forall_app. split; [assumption|]. now repeat constructor.
    + exists (first :: rest), []. split; [|split].
      * reflexivity.
      * rewrite E. apply Forall_app. split; [|constructor].
        -- eapply Forall_impl; [exact Hb|]. cbn. intros; lia.
        -- assumption.
        -- eapply Forall_impl; [exact Ha|]. cbn. intros; lia.
      * constructor.
Qed.

Lemma highest_split (scores : list (FraudType * nat)) (d : FraudType * nat) :
  AIService.highest scores = Some d ->
  exists before after,
    scores = before ++ d :: after /\
    Forall (λ x, (x.2 <= d.2)%nat) before /\
    Forall (λ x, (x.2 < d.2)%nat) after.
Proof.
  destruct scores as [|first rest]; [discriminate|]. cbn [AIService.highest].
  intros [= <-]. apply fold_highest.
Qed.

Lemma bind_nil {A B} (f : A -> list B) (l : list A) :
  l ≫= f = [] <-> Forall (λ x, f x = []) l.
Proof.
  induction l as [|x l IH]; [split; [constructor | reflexivity]|].
  rewrite bind_cons, Forall_cons, <- IH. split.
  - intros E. now apply app_eq_nil in E.
  - intros [-> ->]. reflexivity.
Qed.

(** What [analyzeText] answers once the tokenizer has answered. *)
Lemma analyzeText_Some (natural : AIService.Natural) (text : string)
    (tokens : list string) :
  AIService.tokenize natural (JSString.toLowerCase text) = Some tokens ->
  exists d,
    AIService.highest (AIService.fraudTypeScores (JSString.toLowerCase text)) = Some d /\
    AIService.analyzeText natural text =
    Some {| AIService.fraudType := if (0 <? d.2)%nat then Some d.1 else None;
            AIService.confidence :=
              (let scaled := (inject_Z (Z.of_nat d.2) / 3 * 100)%Q in
               if Qlt_le_dec scaled 100 then scaled else 100%Q);
            AIService.keywords :=
              JSString.unique
                (AIService.fraudKeywords ≫=
                   (λ entry, AIService.typeKeywords (JSString.toLowerCase text) entry.2));
            AIService.sentiment := AIService.calculateSentiment natural tokens;
            AIService.riskScore :=
              Z.min
                ((let riskScore :=
                    10 * Z.of_nat
                      (length (filter
                         (λ indicator,
                            JSString.includes (JSString.toLowerCase text)
                              (JSString.toLowerCase indicator) = true)
                         AIService.riskIndicators)) in
                  match AIService.calculateSentiment natural tokens with
                  | AIService.negative => riskScore + 15
                  | AIService.positive => riskScore + 5
                  | AIService.neutral => riskScore
                  end)
                 + 8 * Z.of_nat
                     (length (filter
                        (λ word, JSString.includes (JSString.toLowerCase text) word
                                 = true)
                        AIService.urgencyWords)))
                100 |}.
Proof.
  intros Htok. unfold AIService.analyzeText. cbn zeta. rewrite Htok.
  cbn [mbind option_bind].
  destruct (AIService.highest _) as [d|] eqn:Hd; [|discriminate Hd].
  exists d. split; reflexivity.
Qed.

Lemma analyzeText_facts (natural : AIService.Natural) (text : string)
    (tokens : list string) :
  AIService.tokenize natural (JSString.toLowerCase text) = Some tokens ->
  exists a,
    AIService.analyzeText natural text = Some a /\
    0 <= AIService.riskScore a <= 100 /\
    (0 <= AIService.confidence a <= 100)%Q /\
    NoDup (AIService.keywords a) /\
    (AIService.fraudType a = None <-> AIService.keywords a = []).
Proof.
  intros Htok. destruct (analyzeText_Some _ _ _ Htok) as (d & Hd & E).
  eexists. split; [exact E|]. cbn [AIService.riskScore AIService.confidence
    AIService.keywords AIService.fraudType].
  split; [|split; [|split]].
  - cbn zeta. destruct (AIService.calculateSentiment natural tokens); lia.
  - cbn zeta.
    assert (0 <= inject_Z (Z.of_nat d.2) / 3 * 100)%Q.
    { apply Qmult_le_0_compat; [|discriminate].
      apply Qle_shift_div_l; [reflexivity|]. rewrite Qmult_0_l.
      change 0%Q with (inject_Z 0). rewrite <- Zle_Qle. lia. }
    destruct (Qlt_le_dec _ 100); split; try assumption;
      [now apply Qlt_le_weak | discriminate | apply Qle_refl].
  - apply unique_NoDup.
  - rewrite unique_nil, bind_nil.
    destruct (highest_split _ _ Hd) as (before & after & Es & Hb & Ha).
    unfold AIService.fraudTypeScores in Es.
    destruct (Nat.ltb_spec 0 d.2) as [Hpos|Hzero]; split;
      [intros [=] | | intros _ | now intros _].
    + intros Hall. exfalso.
      assert (Hin : d ∈ (λ entry, (entry.1, length (AIService.typeKeywords
                            (JSString.toLowerCase text) entry.2)))
                        <$> AIService.fraudKeywords)
        by (rewrite Es, elem_of_app, elem_of_cons; tauto).
      apply list_elem_of_fmap in Hin as (entry & -> & Hin).
      rewrite Forall_forall in Hall. rewrite (Hall _ Hin) in Hpos.
      cbn in Hpos. lia.
    + apply Forall_forall. intros entry Hin.
      assert (Hs : (entry.1, length (AIService.typeKeywords
                            (JSString.toLowerCase text) entry.2))
                   ∈ before ++ d :: after)
        by (rewrite <- Es; apply list_elem_of_fmap; eauto).
      rewrite Forall_forall in Hb, Ha.
      apply elem_of_app in Hs as [Hs|Hs]; [apply Hb in Hs|].
      * cbn in Hs. apply length_zero_iff_nil. lia.
      * apply elem_of_cons in Hs as [Hs|Hs]; [|apply Ha in Hs; cbn in Hs; lia].
        rewrite <- Hs in Hzero. cbn in Hzero. apply length_zero_iff_nil. lia.
Qed.

(** X21: when the tokenizer answers, [analyzeText] answers, with a risk
    score and a confidence between 0 and 100 and keywords without
    duplicates; it names a fraud type exactly when it found a keyword. *)
Theorem analyzeText_result (natural : AIService.Natural) (text : string)
    (tokens : list string) :
  AIService.tokenize natural (JSString.toLowerCase text) = Some tokens ->
  exists a,
    AIService.analyzeText natural text = Some a /\
    0 <= AIService.riskScore a <= 100 /\
    (0 <= AIService.confidence a <= 100)%Q /\
    NoDup (AIService.keywords a) /\
    (AIService.fraudType a = None <-> AIService.keywords a = []).
Proof. apply analyzeText_facts. Qed.

Lemma analyzeText_result_witness :
  exists a,
    AIService.analyzeText
      {| AIService.tokenize := λ s, Some [s];
         AIService.getSentiment := λ _, Some 0%Q |}
      "URGENT: verify your account" = Some a /\
    0 <= AIService.riskScore a <= 100 /\
    (0 <= AIService.confidence a <= 100)%Q /\
    NoDup (AIService.keywords a) /\
    (AIService.fraudType a = None <-> AIService.keywords a = []).
Proof.
  apply (analyzeText_result _ _ ["urgent: verify your account"]). reflexivity.
Defined.

(** X22: the fraud type [analyzeText] names has the highest keyword
    count of the table, and every type listed after it has a strictly
    lower one: between types with the same count the later one wins. *)
Theorem analyzeText_later_type_wins (natural : AIService.Natural) (text : string)
    (a : AIService.TextAnalysis) (ty : FraudType) :
  AIService.analyzeText natural text = Some a ->
  AIService.fraudType a = Some ty ->
  exists before n after,
    AIService.fraudTypeScores (JSString.toLowerCase text)
    = before ++ (ty, n) :: after /\
    (0 < n)%nat /\
    Forall (λ x, (x.2 <= n)%nat) before /\
    Forall (λ x, (x.2 < n)%nat) after.
Proof.
  intros Ha Hty.
  destruct (AIService.tokenize natural (JSString.toLowerCase text)) as [tokens|] eqn:Htok.
  - destruct (analyzeText_Some _ _ _ Htok) as (d & Hd & E).
    rewrite E in Ha. injection Ha as <-. cbn [AIService.fraudType] in Hty.
    destruct (Nat.ltb_spec 0 d.2) as [Hpos|]; [|discriminate].
    injection Hty as <-.
    destruct (highest_split _ _ Hd) as (before & after & Es & Hb & Hafter).
    exists before, d.2, after. rewrite <- surjective_pairing. auto.
  - unfold AIService.analyzeText in Ha. cbn zeta in Ha. rewrite Htok in Ha.
    discriminate Ha.
Qed.

Lemma analyzeText_later_type_wins_witness :
  exists before n after,
    AIService.fraudTypeScores (JSString.toLowerCase "Profit from trading")
    = before ++ (investment, n) :: after /\
    (0 < n)%nat /\
    Forall (λ x, (x.2 <= n)%nat) before /\
    Forall (λ x, (x.2 < n)%nat) after.
Proof.
  eapply (analyzeText_later_type_wins
            {| AIService.tokenize := λ s, Some [s];
               AIService.getSentiment := λ _, Some 0%Q |}
            "Profit from trading").
  - vm_compute. reflexivity.
  - vm_compute. reflexivity.
Defined.

(** ** services/aiService.js: reports *)

Lemma analyzeText_bounds (natural : AIService.Natural) (text : string)
    (a : AIService.TextAnalysis) :
  AIService.analyzeText natural text = Some a ->
  0 <= AIService.riskScore a <= 100 /\ (0 <= AIService.confidence a <= 100)%Q.
Proof.
  intros Ha.
  destruct (AIService.tokenize natural (JSString.toLowerCase text)) as [tokens|] eqn:Htok.
  - destruct (analyzeText_facts _ _ _ Htok) as (a' & Ha' & Hr & Hc & _).
    rewrite Ha in Ha'. injection Ha' as <-. now split.
  - unfold AIService.analyzeText in Ha. cbn zeta in Ha. rewrite Htok in Ha.
    discriminate Ha.
Qed.

(** X23: [analyzeFraudReport] always answers, with a risk score and a
    confidence inside the 0..100 of the schema.  When the text analysis
    succeeds, the evidence and the priority can only raise its risk score,
    by at most 65; when it throws, the answer is the risk score 30 and the
    fraud type the reporter declared. *)
Theorem analyzeFraudReport_ranges (natural : AIService.Natural)
    (external : AIService.External) (report : AIService.Report) :
  let a := AIService.analyzeFraudReport natural external report in
  0 <= AIService.a_riskScore a <= 100 /\
  (0 <= AIService.a_confidence a <= 100)%Q /\
  match AIService.analyzeText natural
          (AIService.title report +:+ " " +:+ AIService.description report +:+ " "
           +:+ default "" (AIService.messageContent report)) with
  | Some textAnalysis =>
      AIService.riskScore textAnalysis <= AIService.a_riskScore a
      <= AIService.riskScore textAnalysis + 65
  | None =>
      AIService.a_riskScore a = 30 /\
      AIService.detectedFraudType a = Some (AIService.declaredType report)
  end.
Proof.
  cbn zeta. unfold AIService.analyzeFraudReport. cbn zeta.
  destruct (AIService.analyzeText natural _) as [ta|] eqn:Hta.
  - destruct (analyzeText_bounds _ _ _ Hta) as [Hr Hc].
    cbn [AIService.a_riskScore AIService.a_confidence].
    generalize (AIService.analyzeURL external
                  (default "" (AIService.website report))).
    generalize (AIService.analyzePhoneNumber
                  (default "" (AIService.phoneNumber report))).
    intros phone url.
    destruct (JS.truthy (AIService.website report));
      [destruct (AIService.isPhishing url)|];
      (destruct (JS.truthy (AIService.phoneNumber report));
       [destruct (AIService.suspicious phone)|]);
      cbn [andb]; destruct (AIService.priority report); repeat split;
      try apply Hc; lia.
  - cbn. repeat split; try lia; discriminate.
Qed.

(** ** services/aiService.js: trends *)

Lemma bump_other (key k : string) (counts : gmap string AIService.Entry) :
  key <> k -> AIService.bump key counts !! k = counts !! k.
Proof.
  intros Hne. unfold AIService.bump.
  destruct (counts !! key) as [[n|]|];
    repeat case_decide; rewrite ?lookup_insert_ne by assumption; reflexivity.
Qed.

(** A key that [Object.prototype] does not know is counted. *)
Lemma fold_bump_counted (k : string) (found : list string)
    (counts : gmap string AIService.Entry) (m : nat) :
  k ∉ AIService.inherited ->
  counts !! k = (if decide (m = 0%nat) then None else Some (AIService.count m)) ->
  fold_left (λ counts keyword, AIService.bump keyword counts) found counts !! k
  = (if decide ((m + length (filter (λ x, x = k) found))%nat = 0%nat) then None
     else Some (AIService.count (m + length (filter (λ x, x = k) found)))).
Proof.
  intros Hk. revert counts m.
  induction found as [|x found IH]; intros counts m Hm; cbn [fold_left].
  - rewrite filter_nil. cbn [length]. rewrite Nat.add_0_r. exact Hm.
  - rewrite filter_cons. destruct (decide (x = k)) as [->|Hne].
    + rewrite (IH _ (S m)).
      * cbn [length]. replace (S m + length (filter (λ x, x = k) found))%nat
          with (m + S (length (filter (λ x, x = k) found)))%nat by lia.
        reflexivity.
      * rewrite decide_False by lia. unfold AIService.bump. rewrite Hm.
        destruct (decide (m = 0%nat)) as [->|Hpos].
        -- rewrite decide_False
             by (intros ->; apply Hk; vm_compute; set_solver).
           rewrite decide_False by assumption. apply lookup_insert_eq.
        -- rewrite lookup_insert_eq. do 2 f_equal. lia.
    + rewrite (IH _ m); [reflexivity|]. now rewrite bump_other.
Qed.

(** A key inherited from [Object.prototype] turns into a text. *)
Lemma fold_bump_inherited (k : string) (found : list string)
    (counts : gmap string AIService.Entry) (m : nat) :
  k ∈ AIService.inherited -> k <> "__proto__" ->
  counts !! k = (if decide (m = 0%nat) then None else Some AIService.text) ->
  fold_left (λ counts keyword, AIService.bump keyword counts) found counts !! k
  = (if decide ((m + length (filter (λ x, x = k) found))%nat = 0%nat) then None
     else Some AIService.text).
Proof.
  intros Hk Hp. revert counts m.
  induction found as [|x found IH]; intros counts m Hm; cbn [fold_left].
  - rewrite filter_nil. cbn [length]. rewrite Nat.add_0_r. exact Hm.
  - rewrite filter_cons. destruct (decide (x = k)) as [->|Hne].
    + rewrite (IH _ (S m)).
      * cbn [length]. replace (S m + length (filter (λ x, x = k) found))%nat
          with (m + S (length (filter (λ x, x = k) found)))%nat by lia.
        reflexivity.
      * rewrite decide_False by lia. unfold AIService.bump. rewrite Hm.
        destruct (decide (m = 0%nat)) as [->|Hpos].
        -- rewrite decide_False by assumption.
           rewrite decide_True by assumption. apply lookup_insert_eq.
        -- apply lookup_insert_eq.
    + rewrite (IH _ m); [reflexivity|]. now rewrite bump_other.
Qed.

(** [__proto__] never becomes a key. *)
Lemma fold_bump_proto (found : list string) (counts : gmap string AIService.Entry) :
  counts !! "__proto__" = None ->
  fold_left (λ counts keyword, AIService.bump keyword counts) found counts
    !! "__proto__" = None.
Proof.
  revert counts. induction found as [|x found IH]; intros counts Hn; [exact Hn|].
  cbn [fold_left]. apply IH.
  destruct (decide (x = "__proto__")) as [->|Hne].
  - unfold AIService.bump. rewrite Hn. now rewrite decide_True.
  - now rewrite bump_other.
Qed.

Lemma tally_keywords (reports : list AIService.Stored) (init : AIService.Trends) :
  AIService.commonKeywords (fold_left AIService.tally reports init)
  = fold_left (λ counts keyword, AIService.bump keyword counts)
      (reports ≫= (λ r, from_option snd [] (AIService.analysis r)))
      (AIService.commonKeywords init).
Proof.
  revert init. induction reports as [|r reports IH]; intros init; [reflexivity|].
  cbn [fold_left]. rewrite IH, bind_cons, fold_left_app. f_equal.
  unfold AIService.tally. cbn [AIService.commonKeywords].
  destruct (AIService.analysis r) as [[riskScore found]|]; reflexivity.
Qed.

Lemma tally_fold (reports : list AIService.Stored) (init : AIService.Trends) :
  let t := fold_left AIService.tally reports init in
  let scored (p : Z -> bool) :=
    length (filter (λ r, from_option (λ a, negb (a.1 =? 0) && p a.1) false
                           (AIService.analysis r) = true) reports) in
  AIService.totalReports t = AIService.totalReports init /\
  (forall ty,
     AIService.fraudTypes t ty
     = (AIService.fraudTypes init ty
        + length (filter (λ r, AIService.storedType r = ty) reports))%nat) /\
  AIService.low (AIService.riskDistribution t)
  = (AIService.low (AIService.riskDistribution init)
     + scored (λ s, (s <? 30)%Z))%nat /\
  AIService.medium (AIService.riskDistribution t)
  = (AIService.medium (AIService.riskDistribution init)
     + scored (λ s, ((30 <=? s) && (s <? 60))%Z))%nat /\
  AIService.high (AIService.riskDistribution t)
  = (AIService.high (AIService.riskDistribution init)
     + scored (λ s, ((60 <=? s) && (s <? 80))%Z))%nat /\
  AIService.critical (AIService.riskDistribution t)
  = (AIService.critical (AIService.riskDistribution init)
     + scored (λ s, (80 <=? s)%Z))%nat.
Proof.
  revert init. induction reports as [|r reports IH]; intros init; cbn zeta.
  - cbn [fold_left]. rewrite !filter_nil. cbn.
    repeat split; intros; rewrite ?filter_nil; cbn; lia.
  - cbn [fold_left]. cbn zeta in IH.
    destruct (IH (AIService.tally init r)) as (Ht & Hty & Hl & Hm & Hh & Hc).
    rewrite Ht, Hl, Hm, Hh, Hc. clear Ht Hl Hm Hh Hc IH.
    rewrite !filter_cons.
    split; [reflexivity|]. split; [|split; [|split; [|split]]].
    + intros ty. rewrite Hty, filter_cons. unfold AIService.tally. cbn.
      destruct (decide (ty = AIService.storedType r)),
               (decide (AIService.storedType r = ty)); simpl; try lia; congruence.
    + unfold AIService.tally. destruct r as [ty [[s kws]|]]; cbn.
      * destruct (Z.eqb_spec s 0), (Z.leb_spec 80 s), (Z.leb_spec 60 s),
          (Z.leb_spec 30 s), (Z.ltb_spec s 30); cbn; try lia;
          case_decide; cbn; try lia; try congruence.
      * case_decide; [discriminate | lia].
    + unfold AIService.tally. destruct r as [ty [[s kws]|]]; cbn.
      * destruct (Z.eqb_spec s 0), (Z.leb_spec 80 s), (Z.leb_spec 60 s),
          (Z.leb_spec 30 s), (Z.ltb_spec s 60); cbn; try lia;
          case_decide; cbn; try lia; try congruence.
      * case_decide; [discriminate | lia].
    + unfold AIService.tally. destruct r as [ty [[s kws]|]]; cbn.
      * destruct (Z.eqb_spec s 0), (Z.leb_spec 80 s), (Z.leb_spec 60 s),
          (Z.leb_spec 30 s), (Z.ltb_spec s 80); cbn; try lia;
          case_decide; cbn; try lia; try congruence.
      * case_decide; [discriminate | lia].
    + unfold AIService.tally. destruct r as [ty [[s kws]|]]; cbn.
      * destruct (Z.eqb_spec s 0), (Z.leb_spec 80 s), (Z.leb_spec 60 s),
          (Z.leb_spec 30 s); cbn; try lia;
          case_decide; cbn; try lia; try congruence.
      * case_decide; [discriminate | lia].
Qed.

(** X24: [getFraudTrends] counts every report under its fraud type; puts
    a report into the risk bucket of its score (below 30, 30..59, 60..79,
    80 and more), except that a report without analysis or with the score 0
    is in no bucket; and counts for each keyword its occurrences over all
    reports, unless the keyword names a property of [Object.prototype]:
    such a keyword is never counted, its entry is a text once it has
    occurred, and [__proto__] gets no entry at all. *)
Theorem getFraudTrends_counts (reports : list AIService.Stored) :
  let t := AIService.getFraudTrends reports in
  let scored (p : Z -> bool) :=
    length (filter (λ r, from_option (λ a, negb (a.1 =? 0) && p a.1) false
                           (AIService.analysis r) = true) reports) in
  let occurrences (k : string) :=
    length (filter (λ x, x = k)
              (reports ≫= (λ r, from_option snd [] (AIService.analysis r)))) in
  AIService.totalReports t = length reports /\
  (forall ty,
     AIService.fraudTypes t ty
     = length (filter (λ r, AIService.storedType r = ty) reports)) /\
  AIService.low (AIService.riskDistribution t) = scored (λ s, s <? 30) /\
  AIService.medium (AIService.riskDistribution t)
  = scored (λ s, (30 <=? s) && (s <? 60)) /\
  AIService.high (AIService.riskDistribution t)
  = scored (λ s, (60 <=? s) && (s <? 80)) /\
  AIService.critical (AIService.riskDistribution t) = scored (λ s, 80 <=? s) /\
  (forall k,
     k ∉ AIService.inherited ->
     AIService.commonKeywords t !! k
     = if decide (occurrences k = 0%nat) then None
       else Some (AIService.count (occurrences k))) /\
  (forall k,
     k ∈ AIService.inherited ->
     AIService.commonKeywords t !! k
     = if decide (occurrences k = 0%nat \/ k = "__proto__") then None
       else Some AIService.text).
Proof.
  cbn zeta. unfold AIService.getFraudTrends.
  destruct (tally_fold reports
              {| AIService.totalReports := length reports;
                 AIService.fraudTypes := λ _, 0%nat;
                 AIService.riskDistribution :=
                   {| AIService.low := 0; AIService.medium := 0;
                      AIService.high := 0; AIService.critical := 0 |};
                 AIService.commonKeywords := ∅ |})
    as (Ht & Hty & Hl & Hm & Hh & Hc).
  cbn zeta in *.
  split; [exact Ht|]. split; [intros ty; rewrite Hty; reflexivity|].
  split; [rewrite Hl; reflexivity|]. split; [rewrite Hm; reflexivity|].
  split; [rewrite Hh; reflexivity|]. split; [rewrite Hc; reflexivity|].
  rewrite tally_keywords. cbn [AIService.commonKeywords]. split.
  - intros k Hk.
    rewrite (fold_bump_counted k _ ∅ 0 Hk) by (now rewrite lookup_empty).
    reflexivity.
  - intros k Hk. destruct (decide (k = "__proto__")) as [->|Hp].
    + rewrite fold_bump_proto by apply lookup_empty.
      rewrite decide_True by now right. reflexivity.
    + rewrite (fold_bump_inherited k _ ∅ 0 Hk Hp) by (now rewrite lookup_empty).
      cbn [Nat.add]. repeat case_decide; try reflexivity; tauto.
Qed.

(** ** The alert router *)

(** X25: no request reaches the handler of GET /stats.  The route
    /:id is registered before it and matches every path of one segment, so
    GET /stats is served by the handler of GET /:id with the identifier
    [stats].  PUT /read-all is not shadowed in this way: /:id/read needs two
    segments. *)
Theorem getStats_unreachable :
  (forall method path params,
     AlertRouter.dispatch method path <> Some (AlertRouter.getStats, params)) /\
  AlertRouter.dispatch AlertRouter.GET ["stats"]
  = Some (AlertRouter.getAlert, [("id", "stats")]) /\
  AlertRouter.dispatch AlertRouter.PUT ["read-all"]
  = Some (AlertRouter.putReadAll, []).
Proof.
  split; [|split; reflexivity].
  intros method path params. unfold AlertRouter.dispatch, AlertRouter.routes.
  cbn [AlertRouter.dispatch_in].
  destruct method;
    repeat first [rewrite decide_True by reflexivity
                 | rewrite decide_False by discriminate];
    try discriminate.
  all: destruct path as [|x [|y [|z path]]];
    cbn [AlertRouter.matchPath fmap option_fmap option_map]; try discriminate.
  all: repeat match goal with
         | |- context [String.eqb ?a ""] =>
             destruct (String.eqb_spec a ""); [subst a|];
             cbn [AlertRouter.matchPath fmap option_fmap option_map]
         end; try discriminate.
  all: repeat match goal with
         | |- context [String.eqb ?a ?b] =>
             destruct (String.eqb a b);
             cbn [AlertRouter.matchPath fmap option_fmap option_map]
         end; discriminate.
Qed.

(** ** DELETE /account *)

(** X26: deactivating an account.  Without the confirmation word the
    request is refused and nothing changes.  With it, the account keeps its
    phone number, location, counters, score and preferences, and the alerts
    and reports already stored stay as they are; from then on no report
    makes either pass create an alert for that user. *)
Theorem deleteAccount_stops_alerts (transport : NotificationService.Transport)
    (geo : NotificationService.GeoIndex) (now later : Date)
    (reqUser : ObjectId) (confirmDelete : string) (db : Routes.Db)
    (user : User.t) (reportId : ObjectId) (fraudReport : FraudReport.t)
    (a : Alert.t) :
  Routes.users db !! reqUser = Some user ->
  let result := UserRoutes.deleteAccount now reqUser confirmDelete db in
  (confirmDelete <> "DELETE" -> result = (UserRoutes.BadRequest400, db)) /\
  (confirmDelete = "DELETE" ->
   result.1 = UserRoutes.Ok200 /\
   Routes.alerts result.2 = Routes.alerts db /\
   Routes.reports result.2 = Routes.reports db /\
   (forall id, id <> reqUser -> Routes.users result.2 !! id = Routes.users db !! id) /\
   (exists user',
      Routes.users result.2 !! reqUser = Some user' /\
      User.isActive user' = false /\
      User.phone user' = User.phone user /\
      User.coordinates user' = User.coordinates user /\
      User.trustScore user' = User.trustScore user /\
      User.preferences user' = User.preferences user) /\
   (a ∈ NotificationService.createProximityAlerts transport geo later
          (Routes.users result.2) reportId fraudReport []
    \/ a ∈ NotificationService.createMatchAlerts transport later
             (Routes.users result.2) reportId fraudReport [] ->
    Alert.user a <> reqUser)).
Proof.
  intros Hu. cbn zeta. unfold UserRoutes.deleteAccount. split.
  - intros Hne. apply String.eqb_neq in Hne. now rewrite Hne.
  - intros ->. rewrite String.eqb_refl. cbn [negb].
    rewrite Hu. cbn [fst snd Routes.save_user Routes.alerts Routes.reports Routes.users].
    split; [reflexivity|]. split; [reflexivity|]. split; [reflexivity|].
    split; [intros id Hid; now rewrite lookup_insert_ne by congruence|].
    split.
    { eexists. rewrite lookup_insert_eq. repeat split. }
    intros Ha Heq.
    assert (Hact : exists u, <[reqUser := UserRoutes.deactivate now user]>
                               (Routes.users db) !! Alert.user a = Some u
                             /\ User.isActive u = true).
    { destruct Ha as [Ha|Ha].
      - destruct (proj1 (createProximityAlerts_recipient transport geo later
                           (<[reqUser := UserRoutes.deactivate now user]>
                              (Routes.users db))
                           reportId fraudReport (Alert.user a)))
          as (u & Hl & (_ & Hact & _) & _); [now exists a|]. now exists u.
      - apply createMatchAlerts_member in Ha as (id & u & Hl & Hact & Ha).
        apply matchAlerts_member in Ha as (-> & _). now exists u. }
    destruct Hact as (u & Hl & Hact). rewrite Heq, lookup_insert_eq in Hl.
    injection Hl as <-. discriminate Hact.
Qed.

Lemma deleteAccount_stops_alerts_witness :
  (UserRoutes.deleteAccount 0 3%N "DELETE"
     {| Routes.users := Examples.usersV; Routes.reports := ∅;
        Routes.alerts := [] |}).1 = UserRoutes.Ok200.
Proof.
  destruct (deleteAccount_stops_alerts Examples.quiet Examples.sphere 0 0 3%N
              "DELETE"
              {| Routes.users := Examples.usersV; Routes.reports := ∅;
                 Routes.alerts := [] |}
              Examples.victim 8%N Examples.phoneReport
              (Alert.create 3%N 8%N Alert.phone_match
                 "⚠️ Your Phone Number Reported" Alert.critical
                 {| Alert.distance := None;
                    Alert.phoneNumber := Some "+15551234567";
                    Alert.email := None |})) as [_ H].
  - reflexivity.
  - apply H. reflexivity.
Defined.

(** ** The notification list of the client *)

Lemma push_length (n : SocketContext.Notification)
    (prev : list SocketContext.Notification) :
  (length (SocketContext.push n prev) <= 50)%nat.
Proof.
  unfold SocketContext.push. cbn [length]. rewrite length_take. lia.
Qed.

Lemma handle_length (fraudTypes : option (list FraudType))
    (prev : list SocketContext.Notification) (e : SocketContext.Event) :
  (length prev <= 50)%nat ->
  (length (SocketContext.handle fraudTypes prev e) <= 50)%nat.
Proof.
  intros H. destruct e; cbn [SocketContext.handle];
    try apply push_length; rewrite ?length_fmap; try assumption.
  - destruct (SocketContext.subscribed _ _); [apply push_length | assumption].
  - simpl. lia.
Qed.

(** X27: the notification list of the client never holds more than 50
    entries, whatever events arrive and whatever the user does, so the
    unread count never exceeds 50 either; "mark all read" leaves nothing
    unread, and "mark read" leaves no unread entry with the given
    identifier, however many entries share it. *)
Theorem notifications_bounded (fraudTypes : option (list FraudType))
    (events : list SocketContext.Event) (notificationId : Date) :
  let notifications := fold_left (SocketContext.handle fraudTypes) events [] in
  (length notifications <= 50)%nat /\
  (SocketContext.getUnreadCount notifications <= 50)%nat /\
  SocketContext.getUnreadCount
    (SocketContext.handle fraudTypes notifications
       SocketContext.markAllNotificationsRead) = 0%nat /\
  Forall (λ notif, SocketContext.id notif = notificationId ->
                   SocketContext.read notif = true)
    (SocketContext.handle fraudTypes notifications
       (SocketContext.markNotificationRead notificationId)).
Proof.
  cbn zeta.
  assert (Hlen : (length (fold_left (SocketContext.handle fraudTypes) events [])
                  <= 50)%nat).
  { assert (G : forall init, (length init <= 50)%nat ->
                (length (fold_left (SocketContext.handle fraudTypes) events init)
                 <= 50)%nat).
    { induction events as [|e events IH]; intros init Hi; [exact Hi|].
      cbn [fold_left]. apply IH, handle_length, Hi. }
    apply G. simpl. lia. }
  generalize dependent (fold_left (SocketContext.handle fraudTypes) events []).
  intros notifications Hlen. split; [exact Hlen|]. split; [|split].
  - unfold SocketContext.getUnreadCount.
    etransitivity; [apply length_filter | exact Hlen].
  - unfold SocketContext.getUnreadCount. cbn [SocketContext.handle].
    induction notifications as [|n l IH]; [reflexivity|].
    rewrite fmap_cons, filter_cons. cbn [SocketContext.set_read SocketContext.read].
    rewrite decide_False by discriminate. apply IH. simpl in Hlen. lia.
  - cbn [SocketContext.handle]. apply Forall_fmap, Forall_forall.
    intros n _. cbn. destruct (decide (SocketContext.id n = notificationId)).
    + reflexivity.
    + intros. contradiction.
Qed.

(** ** POST /check *)

Lemma fold_max_head (x : Z) (rest : list Z) :
  Forall (λ y, y <= x) rest -> fold_left Z.max rest x = x.
Proof.
  induction 1 as [|y rest Hy _ IH]; [reflexivity|].
  cbn [fold_left]. rewrite Z.max_l by assumption. exact IH.
Qed.

#[local] Instance byTrustScore_trans : Transitive FraudCheck.byTrustScore.
Proof. intros a b c. unfold FraudCheck.byTrustScore. lia. Qed.

#[local] Instance byTrustScore_total : Total FraudCheck.byTrustScore.
Proof. intros a b. unfold FraudCheck.byTrustScore. lia. Qed.

Lemma check_spec (websites : ObjectId -> option string)
    (castValue : FraudCheck.CheckType -> string -> string)
    (type : FraudCheck.CheckType) (value : string) (db : Routes.Db) :
  let matching :=
    filter (λ entry, FraudCheck.searchField websites type entry
                     = Some (castValue type value))
           (map_to_list (Routes.reports db)) in
  let answer := FraudCheck.check websites castValue type value db in
  FraudCheck.isReported answer = bool_decide (matching <> []) /\
  FraudCheck.totalReports answer = (length matching `min` 10)%nat /\
  Forall (λ entry, FraudCheck.score entry <= FraudCheck.trustScore answer) matching /\
  (matching <> [] ->
   exists entry, entry ∈ matching
                 /\ FraudCheck.score entry = FraudCheck.trustScore answer) /\
  (matching = [] ->
   FraudCheck.trustScore answer = 0 /\ FraudCheck.riskLevel answer = FraudCheck.low).
Proof.
  cbn zeta. unfold FraudCheck.check, FraudCheck.find. cbn zeta.
  set (matching := filter _ (map_to_list (Routes.reports db))).
  pose proof (merge_sort_Permutation FraudCheck.byTrustScore matching) as Hperm.
  pose proof (StronglySorted_merge_sort FraudCheck.byTrustScore matching) as Hsort.
  destruct (merge_sort FraudCheck.byTrustScore matching) as [|x rest].
  - apply Permutation_nil_l in Hperm. rewrite <- Hperm. cbn.
    repeat split; try constructor; try reflexivity; try congruence.
  - apply StronglySorted_inv in Hsort as [_ Hx].
    cbn [take fmap list_fmap length FraudCheck.isReported FraudCheck.trustScore
         FraudCheck.totalReports FraudCheck.riskLevel].
    assert (Hmax : fold_left Z.max (FraudCheck.score <$> take 9 rest)
                             (FraudCheck.score x) = FraudCheck.score x).
    { apply fold_max_head, Forall_fmap, Forall_take.
      eapply Forall_impl; [exact Hx|]. intros y Hy. exact Hy. }
    rewrite Hmax.
    assert (Hne : matching <> []).
    { intros E. rewrite E in Hperm. now apply Permutation_nil_r in Hperm. }
    split; [|split; [|split; [|split]]].
    + rewrite bool_decide_eq_true_2 by lia.
      now rewrite bool_decide_eq_true_2.
    + rewrite <- Hperm, length_take. cbn [length]. lia.
    + rewrite <- Hperm. constructor; [lia|].
      eapply Forall_impl; [exact Hx|]. intros y Hy. exact Hy.
    + intros _. exists x. split; [|reflexivity]. rewrite <- Hperm. left.
    + intros E. contradiction.
Qed.


Lemma check_critical (websites : ObjectId -> option string)
    (castValue : FraudCheck.CheckType -> string -> string)
    (type : FraudCheck.CheckType) (value : string) (db : Routes.Db)
    (id : ObjectId) (report : FraudReport.t) :
  Routes.reports db !! id = Some report ->
  FraudCheck.searchField websites type (id, report)
  = Some (castValue type value) ->
  80 <= FraudReport.trustScore (FraudReport.verification report) ->
  FraudCheck.isReported (FraudCheck.check websites castValue type value db) = true /\
  FraudCheck.riskLevel (FraudCheck.check websites castValue type value db)
  = FraudCheck.critical /\
  FraudReport.trustScore (FraudReport.verification report)
  <= FraudCheck.trustScore (FraudCheck.check websites castValue type value db).
Proof.
  intros Hr Hf Hs.
  destruct (check_spec websites castValue type value db) as (Hrep & _ & Hall & _ & _).
  cbn zeta in *.
  assert (Hin : (id, report) ∈
                filter (λ entry, FraudCheck.searchField websites type entry
                                 = Some (castValue type value))
                       (map_to_list (Routes.reports db))).
  { apply list_elem_of_filter. split; [exact Hf|]. now apply elem_of_map_to_list. }
  rewrite Forall_forall in Hall. pose proof (Hall _ Hin) as Hle.
  unfold FraudCheck.score in Hle. cbn [snd] in Hle.
  split; [|split; [|exact Hle]].
  - rewrite Hrep. apply bool_decide_eq_true_2. intros E. rewrite E in Hin.
    now apply elem_of_nil in Hin.
  - assert (Hk : 80 <= FraudCheck.trustScore (FraudCheck.check websites castValue type value db))
      by lia.
    revert Hk. unfold FraudCheck.check. cbn zeta.
    cbn [FraudCheck.trustScore FraudCheck.riskLevel].
    intros Hk. apply Z.leb_le in Hk. now rewrite Hk.
Qed.

(** X29: one confirming vote on a report nobody has voted on, cast by
    anyone, the reporter included, makes POST /check answer [critical] for
    every phone number, email address and website the report names, that
    is, for every value that mongoose casts to the stored one. *)
Theorem one_confirm_makes_critical (websites : ObjectId -> option string)
    (castValue : FraudCheck.CheckType -> string -> string)
    (now : Date) (reportId userId : ObjectId) (comment : option string)
    (db : Routes.Db) (report : FraudReport.t)
    (type : FraudCheck.CheckType) (value : string) :
  Routes.reports db !! reportId = Some report ->
  Spec.entries report = [] ->
  FraudReport.verificationCount (FraudReport.verification report) = 0 ->
  FraudCheck.searchField websites type (reportId, report)
  = Some (castValue type value) ->
  let after :=
    (Routes.postVerify now reportId userId FraudReport.confirm comment db).2 in
  FraudCheck.isReported (FraudCheck.check websites castValue type value after) = true /\
  FraudCheck.riskLevel (FraudCheck.check websites castValue type value after)
  = FraudCheck.critical /\
  100 <= FraudCheck.trustScore (FraudCheck.check websites castValue type value after).
Proof.
  intros Hr He Hc Hf. cbn zeta.
  destruct (postVerify_report now reportId userId FraudReport.confirm comment db
              report Hr) as (report' & Hr' & Hcalc & He' & Hc').
  assert (userId ∉ Spec.voters report) as Hnew
    by (unfold Spec.voters; rewrite He; apply not_elem_of_nil).
  destruct (applyVote_new userId FraudReport.confirm comment now report Hnew)
    as [Hent Hcnt].
  rewrite He in Hent. rewrite Hc in Hcnt. simpl in Hent, Hcnt.
  rewrite calculateTrustScore_refines in Hcalc. injection Hcalc as Hrep.
  assert (Hscore : FraudReport.trustScore (FraudReport.verification report') = 100).
  { rewrite <- Hrep.
    cbn [FraudReport.set_verification FraudReport.verification
         FraudReport.trustScore].
    rewrite (first_vote_score _ _ _ Hent Hcnt).
    cbn [Spec.entry FraudReport.vote]. now rewrite decide_True. }
  assert (Hev : FraudReport.evidenceData report' = FraudReport.evidenceData report).
  { rewrite <- Hrep. cbn [FraudReport.set_verification FraudReport.evidenceData].
    unfold Routes.applyVote.
    destruct (list_find _ _) as [[i old]|]; reflexivity. }
  assert (Hf' : FraudCheck.searchField websites type (reportId, report')
                = Some (castValue type value)).
  { destruct type; cbn [FraudCheck.searchField fst snd] in *;
      rewrite ?Hev; exact Hf. }
  destruct (check_critical websites castValue type value _ reportId report' Hr' Hf')
    as (H1 & H2 & H3); [lia|].
  split; [exact H1|]. split; [exact H2|]. lia.
Qed.

Lemma one_confirm_makes_critical_witness :
  FraudCheck.riskLevel
    (FraudCheck.check (λ _, None) (λ _ value, value) FraudCheck.phone "+15551234567"
       (Routes.postVerify 1000 8%N 9%N FraudReport.confirm None
          {| Routes.users := Examples.votersAB;
             Routes.reports := {[ 8%N := Examples.phoneReport ]};
             Routes.alerts := [] |}).2)
  = FraudCheck.critical.
Proof.
  apply (one_confirm_makes_critical (λ _, None) (λ _ value, value) 1000 8%N 9%N None
           {| Routes.users := Examples.votersAB;
              Routes.reports := {[ 8%N := Examples.phoneReport ]};
              Routes.alerts := [] |}
           Examples.phoneReport FraudCheck.phone "+15551234567");
    reflexivity.
Defined.
